(** * plastic.py: the message handler of the Plastic moderation bot

    A shallow embedding of [src/plastic.py]: the string builtins the handler
    relies on, the bot's in-memory configuration, the effects of the
    [on_message] event handler (calls to the Gemini model, to the Discord
    API and to [print]) and the properties of the moderation pipeline. *)

From Stdlib Require Import ZArith Lia Ascii.
From stdpp Require Import base option list gmap strings pretty.

Local Open Scope Z_scope.

(** ** Python string builtins

    A Python [str] is a sequence of Unicode code points.  A [string] holds
    it as its UTF-8 encoding, the encoding of the string literals of this
    file; [decode] reads the code points back, and gives U+FFFD for a byte
    that is not part of a well-formed encoding (such a [string] stands for
    no [str]; a [str] with a lone surrogate has no encoding and is not
    described).  The builtins work on the code points, as CPython does, with
    the character tables of Unicode 14.0.0 (CPython 3.11): [whitespace] is
    [_PyUnicode_IsWhitespace], [lower_table] is [_PyUnicode_ToLowerFull]
    outside ASCII, [case_ignorable] and [cased] are the two properties the
    final-sigma rule of [str.lower] consults. *)
Module Py.

Local Open Scope N_scope.

(** *** UTF-8 *)

(** A continuation byte, [10xxxxxx]. *)
Definition is_cont (b : N) : bool := (128 <=? b) && (b <=? 191).

(** A Unicode scalar value: a code point that is not a surrogate. *)
Definition is_scalar (c : N) : bool :=
  (c <? 55296) || ((57344 <=? c) && (c <? 1114112)).

(** U+FFFD REPLACEMENT CHARACTER *)
Definition replacement : N := 65533.

Fixpoint decode (s : string) : list N :=
  match s with
  | EmptyString => []
  | String a0 s0 =>
      let b0 := N_of_ascii a0 in
      if b0 <? 128 then b0 :: decode s0
      else
        match s0 with
        | EmptyString => [replacement]
        | String a1 s1 =>
            let b1 := N_of_ascii a1 in
            if (194 <=? b0) && (b0 <=? 223) && is_cont b1
            then ((b0 - 192) * 64 + (b1 - 128)) :: decode s1
            else
              match s1 with
              | EmptyString => replacement :: decode s0
              | String a2 s2 =>
                  let b2 := N_of_ascii a2 in
                  let c3 := (b0 - 224) * 4096 + (b1 - 128) * 64 + (b2 - 128) in
                  if (224 <=? b0) && (b0 <=? 239) && is_cont b1 && is_cont b2
                     && (2048 <=? c3) && is_scalar c3
                  then c3 :: decode s2
                  else
                    match s2 with
                    | EmptyString => replacement :: decode s0
                    | String a3 s3 =>
                        let b3 := N_of_ascii a3 in
                        let c4 := (b0 - 240) * 262144 + (b1 - 128) * 4096
                                  + (b2 - 128) * 64 + (b3 - 128) in
                        if (240 <=? b0) && (b0 <=? 244) && is_cont b1
                           && is_cont b2 && is_cont b3
                           && (65536 <=? c4) && (c4 <? 1114112)
                        then c4 :: decode s3
                        else replacement :: decode s0
                    end
              end
        end
  end.

Definition encode_point (c : N) : string :=
  if c <? 128 then String (ascii_of_N c) ""
  else if c <? 2048 then
    String (ascii_of_N (192 + c / 64))
      (String (ascii_of_N (128 + c mod 64)) "")
  else if c <? 65536 then
    String (ascii_of_N (224 + c / 4096))
      (String (ascii_of_N (128 + (c / 64) mod 64))
         (String (ascii_of_N (128 + c mod 64)) ""))
  else
    String (ascii_of_N (240 + c / 262144))
      (String (ascii_of_N (128 + (c / 4096) mod 64))
         (String (ascii_of_N (128 + (c / 64) mod 64))
            (String (ascii_of_N (128 + c mod 64)) ""))).

Fixpoint encode (l : list N) : string :=
  match l with
  | [] => ""
  | c :: l' => encode_point c +:+ encode l'
  end.

(** *** Character tables *)

(** The code points for which [str.isspace] holds; [str.split] and
    [str.strip] without argument separate and trim on them. *)
Definition whitespace : list N :=
  [9; 10; 11; 12; 13; 28; 29; 30; 31; 32; 133; 160; 5760; 8192; 8193; 8194; 8195; 8196; 8197; 8198; 8199; 8200; 8201; 8202; 8232; 8233; 8239; 8287; 12288].

Definition isspace (c : N) : bool := bool_decide (c ∈ whitespace).

(** The code points above 127 whose lowercase is not themselves, each with
    its lowercase. *)
Definition lower_table : list (N * list N) := [
  (192, [224]); (193, [225]); (194, [226]); (195, [227]);
  (196, [228]); (197, [229]); (198, [230]); (199, [231]);
  (200, [232]); (201, [233]); (202, [234]); (203, [235]);
  (204, [236]); (205, [237]); (206, [238]); (207, [239]);
  (208, [240]); (209, [241]); (210, [242]); (211, [243]);
  (212, [244]); (213, [245]); (214, [246]); (216, [248]);
  (217, [249]); (218, [250]); (219, [251]); (220, [252]);
  (221, [253]); (222, [254]); (256, [257]); (258, [259]);
  (260, [261]); (262, [263]); (264, [265]); (266, [267]);
  (268, [269]); (270, [271]); (272, [273]); (274, [275]);
  (276, [277]); (278, [279]); (280, [281]); (282, [283]);
  (284, [285]); (286, [287]); (288, [289]); (290, [291]);
  (292, [293]); (294, [295]); (296, [297]); (298, [299]);
  (300, [301]); (302, [303]); (304, [105; 775]); (306, [307]);
  (308, [309]); (310, [311]); (313, [314]); (315, [316]);
  (317, [318]); (319, [320]); (321, [322]); (323, [324]);
  (325, [326]); (327, [328]); (330, [331]); (332, [333]);
  (334, [335]); (336, [337]); (338, [339]); (340, [341]);
  (342, [343]); (344, [345]); (346, [347]); (348, [349]);
  (350, [351]); (352, [353]); (354, [355]); (356, [357]);
  (358, [359]); (360, [361]); (362, [363]); (364, [365]);
  (366, [367]); (368, [369]); (370, [371]); (372, [373]);
  (374, [375]); (376, [255]); (377, [378]); (379, [380]);
  (381, [382]); (385, [595]); (386, [387]); (388, [389]);
  (390, [596]); (391, [392]); (393, [598]); (394, [599]);
  (395, [396]); (398, [477]); (399, [601]); (400, [603]);
  (401, [402]); (403, [608]); (404, [611]); (406, [617]);
  (407, [616]); (408, [409]); (412, [623]); (413, [626]);
  (415, [629]); (416, [417]); (418, [419]); (420, [421]);
  (422, [640]); (423, [424]); (425, [643]); (428, [429]);
  (430, [648]); (431, [432]); (433, [650]); (434, [651]);
  (435, [436]); (437, [438]); (439, [658]); (440, [441]);
  (444, [445]); (452, [454]); (453, [454]); (455, [457]);
  (456, [457]); (458, [460]); (459, [460]); (461, [462]);
  (463, [464]); (465, [466]); (467, [468]); (469, [470]);
  (471, [472]); (473, [474]); (475, [476]); (478, [479]);
  (480, [481]); (482, [483]); (484, [485]); (486, [487]);
  (488, [489]); (490, [491]); (492, [493]); (494, [495]);
  (497, [499]); (498, [499]); (500, [501]); (502, [405]);
  (503, [447]); (504, [505]); (506, [507]); (508, [509]);
  (510, [511]); (512, [513]); (514, [515]); (516, [517]);
  (518, [519]); (520, [521]); (522, [523]); (524, [525]);
  (526, [527]); (528, [529]); (530, [531]); (532, [533]);
  (534, [535]); (536, [537]); (538, [539]); (540, [541]);
  (542, [543]); (544, [414]); (546, [547]); (548, [549]);
  (550, [551]); (552, [553]); (554, [555]); (556, [557]);
  (558, [559]); (560, [561]); (562, [563]); (570, [11365]);
  (571, [572]); (573, [410]); (574, [11366]); (577, [578]);
  (579, [384]); (580, [649]); (581, [652]); (582, [583]);
  (584, [585]); (586, [587]); (588, [589]); (590, [591]);
  (880, [881]); (882, [883]); (886, [887]); (895, [1011]);
  (902, [940]); (904, [941]); (905, [942]); (906, [943]);
  (908, [972]); (910, [973]); (911, [974]); (913, [945]);
  (914, [946]); (915, [947]); (916, [948]); (917, [949]);
  (918, [950]); (919, [951]); (920, [952]); (921, [953]);
  (922, [954]); (923, [955]); (924, [956]); (925, [957]);
  (926, [958]); (927, [959]); (928, [960]); (929, [961]);
  (931, [963]); (932, [964]); (933, [965]); (934, [966]);
  (935, [967]); (936, [968]); (937, [969]); (938, [970]);
  (939, [971]); (975, [983]); (984, [985]); (986, [987]);
  (988, [989]); (990, [991]); (992, [993]); (994, [995]);
  (996, [997]); (998, [999]); (1000, [1001]); (1002, [1003]);
  (1004, [1005]); (1006, [1007]); (1012, [952]); (1015, [1016]);
  (1017, [1010]); (1018, [1019]); (1021, [891]); (1022, [892]);
  (1023, [893]); (1024, [1104]); (1025, [1105]); (1026, [1106]);
  (1027, [1107]); (1028, [1108]); (1029, [1109]); (1030, [1110]);
  (1031, [1111]); (1032, [1112]); (1033, [1113]); (1034, [1114]);
  (1035, [1115]); (1036, [1116]); (1037, [1117]); (1038, [1118]);
  (1039, [1119]); (1040, [1072]); (1041, [1073]); (1042, [1074]);
  (1043, [1075]); (1044, [1076]); (1045, [1077]); (1046, [1078]);
  (1047, [1079]); (1048, [1080]); (1049, [1081]); (1050, [1082]);
  (1051, [1083]); (1052, [1084]); (1053, [1085]); (1054, [1086]);
  (1055, [1087]); (1056, [1088]); (1057, [1089]); (1058, [1090]);
  (1059, [1091]); (1060, [1092]); (1061, [1093]); (1062, [1094]);
  (1063, [1095]); (1064, [1096]); (1065, [1097]); (1066, [1098]);
  (1067, [1099]); (1068, [1100]); (1069, [1101]); (1070, [1102]);
  (1071, [1103]); (1120, [1121]); (1122, [1123]); (1124, [1125]);
  (1126, [1127]); (1128, [1129]); (1130, [1131]); (1132, [1133]);
  (1134, [1135]); (1136, [1137]); (1138, [1139]); (1140, [1141]);
  (1142, [1143]); (1144, [1145]); (1146, [1147]); (1148, [1149]);
  (1150, [1151]); (1152, [1153]); (1162, [1163]); (1164, [1165]);
  (1166, [1167]); (1168, [1169]); (1170, [1171]); (1172, [1173]);
  (1174, [1175]); (1176, [1177]); (1178, [1179]); (1180, [1181]);
  (1182, [1183]); (1184, [1185]); (1186, [1187]); (1188, [1189]);
  (1190, [1191]); (1192, [1193]); (1194, [1195]); (1196, [1197]);
  (1198, [1199]); (1200, [1201]); (1202, [1203]); (1204, [1205]);
  (1206, [1207]); (1208, [1209]); (1210, [1211]); (1212, [1213]);
  (1214, [1215]); (1216, [1231]); (1217, [1218]); (1219, [1220]);
  (1221, [1222]); (1223, [1224]); (1225, [1226]); (1227, [1228]);
  (1229, [1230]); (1232, [1233]); (1234, [1235]); (1236, [1237]);
  (1238, [1239]); (1240, [1241]); (1242, [1243]); (1244, [1245]);
  (1246, [1247]); (1248, [1249]); (1250, [1251]); (1252, [1253]);
  (1254, [1255]); (1256, [1257]); (1258, [1259]); (1260, [1261]);
  (1262, [1263]); (1264, [1265]); (1266, [1267]); (1268, [1269]);
  (1270, [1271]); (1272, [1273]); (1274, [1275]); (1276, [1277]);
  (1278, [1279]); (1280, [1281]); (1282, [1283]); (1284, [1285]);
  (1286, [1287]); (1288, [1289]); (1290, [1291]); (1292, [1293]);
  (1294, [1295]); (1296, [1297]); (1298, [1299]); (1300, [1301]);
  (1302, [1303]); (1304, [1305]); (1306, [1307]); (1308, [1309]);
  (1310, [1311]); (1312, [1313]); (1314, [1315]); (1316, [1317]);
  (1318, [1319]); (1320, [1321]); (1322, [1323]); (1324, [1325]);
  (1326, [1327]); (1329, [1377]); (1330, [1378]); (1331, [1379]);
  (1332, [1380]); (1333, [1381]); (1334, [1382]); (1335, [1383]);
  (1336, [1384]); (1337, [1385]); (1338, [1386]); (1339, [1387]);
  (1340, [1388]); (1341, [1389]); (1342, [1390]); (1343, [1391]);
  (1344, [1392]); (1345, [1393]); (1346, [1394]); (1347, [1395]);
  (1348, [1396]); (1349, [1397]); (1350, [1398]); (1351, [1399]);
  (1352, [1400]); (1353, [1401]); (1354, [1402]); (1355, [1403]);
  (1356, [1404]); (1357, [1405]); (1358, [1406]); (1359, [1407]);
  (1360, [1408]); (1361, [1409]); (1362, [1410]); (1363, [1411]);
  (1364, [1412]); (1365, [1413]); (1366, [1414]); (4256, [11520]);
  (4257, [11521]); (4258, [11522]); (4259, [11523]); (4260, [11524]);
  (4261, [11525]); (4262, [11526]); (4263, [11527]); (4264, [11528]);
  (4265, [11529]); (4266, [11530]); (4267, [11531]); (4268, [11532]);
  (4269, [11533]); (4270, [11534]); (4271, [11535]); (4272, [11536]);
  (4273, [11537]); (4274, [11538]); (4275, [11539]); (4276, [11540]);
  (4277, [11541]); (4278, [11542]); (4279, [11543]); (4280, [11544]);
  (4281, [11545]); (4282, [11546]); (4283, [11547]); (4284, [11548]);
  (4285, [11549]); (4286, [11550]); (4287, [11551]); (4288, [11552]);
  (4289, [11553]); (4290, [11554]); (4291, [11555]); (4292, [11556]);
  (4293, [11557]); (4295, [11559]); (4301, [11565]); (5024, [43888]);
  (5025, [43889]); (5026, [43890]); (5027, [43891]); (5028, [43892]);
  (5029, [43893]); (5030, [43894]); (5031, [43895]); (5032, [43896]);
  (5033, [43897]); (5034, [43898]); (5035, [43899]); (5036, [43900]);
  (5037, [43901]); (5038, [43902]); (5039, [43903]); (5040, [43904]);
  (5041, [43905]); (5042, [43906]); (5043, [43907]); (5044, [43908]);
  (5045, [43909]); (5046, [43910]); (5047, [43911]); (5048, [43912]);
  (5049, [43913]); (5050, [43914]); (5051, [43915]); (5052, [43916]);
  (5053, [43917]); (5054, [43918]); (5055, [43919]); (5056, [43920]);
  (5057, [43921]); (5058, [43922]); (5059, [43923]); (5060, [43924]);
  (5061, [43925]); (5062, [43926]); (5063, [43927]); (5064, [43928]);
  (5065, [43929]); (5066, [43930]); (5067, [43931]); (5068, [43932]);
  (5069, [43933]); (5070, [43934]); (5071, [43935]); (5072, [43936]);
  (5073, [43937]); (5074, [43938]); (5075, [43939]); (5076, [43940]);
  (5077, [43941]); (5078, [43942]); (5079, [43943]); (5080, [43944]);
  (5081, [43945]); (5082, [43946]); (5083, [43947]); (5084, [43948]);
  (5085, [43949]); (5086, [43950]); (5087, [43951]); (5088, [43952]);
  (5089, [43953]); (5090, [43954]); (5091, [43955]); (5092, [43956]);
  (5093, [43957]); (5094, [43958]); (5095, [43959]); (5096, [43960]);
  (5097, [43961]); (5098, [43962]); (5099, [43963]); (5100, [43964]);
  (5101, [43965]); (5102, [43966]); (5103, [43967]); (5104, [5112]);
  (5105, [5113]); (5106, [5114]); (5107, [5115]); (5108, [5116]);
  (5109, [5117]); (7312, [4304]); (7313, [4305]); (7314, [4306]);
  (7315, [4307]); (7316, [4308]); (7317, [4309]); (7318, [4310]);
  (7319, [4311]); (7320, [4312]); (7321, [4313]); (7322, [4314]);
  (7323, [4315]); (7324, [4316]); (7325, [4317]); (7326, [4318]);
  (7327, [4319]); (7328, [4320]); (7329, [4321]); (7330, [4322]);
  (7331, [4323]); (7332, [4324]); (7333, [4325]); (7334, [4326]);
  (7335, [4327]); (7336, [4328]); (7337, [4329]); (7338, [4330]);
  (7339, [4331]); (7340, [4332]); (7341, [4333]); (7342, [4334]);
  (7343, [4335]); (7344, [4336]); (7345, [4337]); (7346, [4338]);
  (7347, [4339]); (7348, [4340]); (7349, [4341]); (7350, [4342]);
  (7351, [4343]); (7352, [4344]); (7353, [4345]); (7354, [4346]);
  (7357, [4349]); (7358, [4350]); (7359, [4351]); (7680, [7681]);
  (7682, [7683]); (7684, [7685]); (7686, [7687]); (7688, [7689]);
  (7690, [7691]); (7692, [7693]); (7694, [7695]); (7696, [7697]);
  (7698, [7699]); (7700, [7701]); (7702, [7703]); (7704, [7705]);
  (7706, [7707]); (7708, [7709]); (7710, [7711]); (7712, [7713]);
  (7714, [7715]); (7716, [7717]); (7718, [7719]); (7720, [7721]);
  (7722, [7723]); (7724, [7725]); (7726, [7727]); (7728, [7729]);
  (7730, [7731]); (7732, [7733]); (7734, [7735]); (7736, [7737]);
  (7738, [7739]); (7740, [7741]); (7742, [7743]); (7744, [7745]);
  (7746, [7747]); (7748, [7749]); (7750, [7751]); (7752, [7753]);
  (7754, [7755]); (7756, [7757]); (7758, [7759]); (7760, [7761]);
  (7762, [7763]); (7764, [7765]); (7766, [7767]); (7768, [7769]);
  (7770, [7771]); (7772, [7773]); (7774, [7775]); (7776, [7777]);
  (7778, [7779]); (7780, [7781]); (7782, [7783]); (7784, [7785]);
  (7786, [7787]); (7788, [7789]); (7790, [7791]); (7792, [7793]);
  (7794, [7795]); (7796, [7797]); (7798, [7799]); (7800, [7801]);
  (7802, [7803]); (7804, [7805]); (7806, [7807]); (7808, [7809]);
  (7810, [7811]); (7812, [7813]); (7814, [7815]); (7816, [7817]);
  (7818, [7819]); (7820, [7821]); (7822, [7823]); (7824, [7825]);
  (7826, [7827]); (7828, [7829]); (7838, [223]); (7840, [7841]);
  (7842, [7843]); (7844, [7845]); (7846, [7847]); (7848, [7849]);
  (7850, [7851]); (7852, [7853]); (7854, [7855]); (7856, [7857]);
  (7858, [7859]); (7860, [7861]); (7862, [7863]); (7864, [7865]);
  (7866, [7867]); (7868, [7869]); (7870, [7871]); (7872, [7873]);
  (7874, [7875]); (7876, [7877]); (7878, [7879]); (7880, [7881]);
  (7882, [7883]); (7884, [7885]); (7886, [7887]); (7888, [7889]);
  (7890, [7891]); (7892, [7893]); (7894, [7895]); (7896, [7897]);
  (7898, [7899]); (7900, [7901]); (7902, [7903]); (7904, [7905]);
  (7906, [7907]); (7908, [7909]); (7910, [7911]); (7912, [7913]);
  (7914, [7915]); (7916, [7917]); (7918, [7919]); (7920, [7921]);
  (7922, [7923]); (7924, [7925]); (7926, [7927]); (7928, [7929]);
  (7930, [7931]); (7932, [7933]); (7934, [7935]); (7944, [7936]);
  (7945, [7937]); (7946, [7938]); (7947, [7939]); (7948, [7940]);
  (7949, [7941]); (7950, [7942]); (7951, [7943]); (7960, [7952]);
  (7961, [7953]); (7962, [7954]); (7963, [7955]); (7964, [7956]);
  (7965, [7957]); (7976, [7968]); (7977, [7969]); (7978, [7970]);
  (7979, [7971]); (7980, [7972]); (7981, [7973]); (7982, [7974]);
  (7983, [7975]); (7992, [7984]); (7993, [7985]); (7994, [7986]);
  (7995, [7987]); (7996, [7988]); (7997, [7989]); (7998, [7990]);
  (7999, [7991]); (8008, [8000]); (8009, [8001]); (8010, [8002]);
  (8011, [8003]); (8012, [8004]); (8013, [8005]); (8025, [8017]);
  (8027, [8019]); (8029, [8021]); (8031, [8023]); (8040, [8032]);
  (8041, [8033]); (8042, [8034]); (8043, [8035]); (8044, [8036]);
  (8045, [8037]); (8046, [8038]); (8047, [8039]); (8072, [8064]);
  (8073, [8065]); (8074, [8066]); (8075, [8067]); (8076, [8068]);
  (8077, [8069]); (8078, [8070]); (8079, [8071]); (8088, [8080]);
  (8089, [8081]); (8090, [8082]); (8091, [8083]); (8092, [8084]);
  (8093, [8085]); (8094, [8086]); (8095, [8087]); (8104, [8096]);
  (8105, [8097]); (8106, [8098]); (8107, [8099]); (8108, [8100]);
  (8109, [8101]); (8110, [8102]); (8111, [8103]); (8120, [8112]);
  (8121, [8113]); (8122, [8048]); (8123, [8049]); (8124, [8115]);
  (8136, [8050]); (8137, [8051]); (8138, [8052]); (8139, [8053]);
  (8140, [8131]); (8152, [8144]); (8153, [8145]); (8154, [8054]);
  (8155, [8055]); (8168, [8160]); (8169, [8161]); (8170, [8058]);
  (8171, [8059]); (8172, [8165]); (8184, [8056]); (8185, [8057]);
  (8186, [8060]); (8187, [8061]); (8188, [8179]); (8486, [969]);
  (8490, [107]); (8491, [229]); (8498, [8526]); (8544, [8560]);
  (8545, [8561]); (8546, [8562]); (8547, [8563]); (8548, [8564]);
  (8549, [8565]); (8550, [8566]); (8551, [8567]); (8552, [8568]);
  (8553, [8569]); (8554, [8570]); (8555, [8571]); (8556, [8572]);
  (8557, [8573]); (8558, [8574]); (8559, [8575]); (8579, [8580]);
  (9398, [9424]); (9399, [9425]); (9400, [9426]); (9401, [9427]);
  (9402, [9428]); (9403, [9429]); (9404, [9430]); (9405, [9431]);
  (9406, [9432]); (9407, [9433]); (9408, [9434]); (9409, [9435]);
  (9410, [9436]); (9411, [9437]); (9412, [9438]); (9413, [9439]);
  (9414, [9440]); (9415, [9441]); (9416, [9442]); (9417, [9443]);
  (9418, [9444]); (9419, [9445]); (9420, [9446]); (9421, [9447]);
  (9422, [9448]); (9423, [9449]); (11264, [11312]); (11265, [11313]);
  (11266, [11314]); (11267, [11315]); (11268, [11316]); (11269, [11317]);
  (11270, [11318]); (11271, [11319]); (11272, [11320]); (11273, [11321]);
  (11274, [11322]); (11275, [11323]); (11276, [11324]); (11277, [11325]);
  (11278, [11326]); (11279, [11327]); (11280, [11328]); (11281, [11329]);
  (11282, [11330]); (11283, [11331]); (11284, [11332]); (11285, [11333]);
  (11286, [11334]); (11287, [11335]); (11288, [11336]); (11289, [11337]);
  (11290, [11338]); (11291, [11339]); (11292, [11340]); (11293, [11341]);
  (11294, [11342]); (11295, [11343]); (11296, [11344]); (11297, [11345]);
  (11298, [11346]); (11299, [11347]); (11300, [11348]); (11301, [11349]);
  (11302, [11350]); (11303, [11351]); (11304, [11352]); (11305, [11353]);
  (11306, [11354]); (11307, [11355]); (11308, [11356]); (11309, [11357]);
  (11310, [11358]); (11311, [11359]); (11360, [11361]); (11362, [619]);
  (11363, [7549]); (11364, [637]); (11367, [11368]); (11369, [11370]);
  (11371, [11372]); (11373, [593]); (11374, [625]); (11375, [592]);
  (11376, [594]); (11378, [11379]); (11381, [11382]); (11390, [575]);
  (11391, [576]); (11392, [11393]); (11394, [11395]); (11396, [11397]);
  (11398, [11399]); (11400, [11401]); (11402, [11403]); (11404, [11405]);
  (11406, [11407]); (11408, [11409]); (11410, [11411]); (11412, [11413]);
  (11414, [11415]); (11416, [11417]); (11418, [11419]); (11420, [11421]);
  (11422, [11423]); (11424, [11425]); (11426, [11427]); (11428, [11429]);
  (11430, [11431]); (11432, [11433]); (11434, [11435]); (11436, [11437]);
  (11438, [11439]); (11440, [11441]); (11442, [11443]); (11444, [11445]);
  (11446, [11447]); (11448, [11449]); (11450, [11451]); (11452, [11453]);
  (11454, [11455]); (11456, [11457]); (11458, [11459]); (11460, [11461]);
  (11462, [11463]); (11464, [11465]); (11466, [11467]); (11468, [11469]);
  (11470, [11471]); (11472, [11473]); (11474, [11475]); (11476, [11477]);
  (11478, [11479]); (11480, [11481]); (11482, [11483]); (11484, [11485]);
  (11486, [11487]); (11488, [11489]); (11490, [11491]); (11499, [11500]);
  (11501, [11502]); (11506, [11507]); (42560, [42561]); (42562, [42563]);
  (42564, [42565]); (42566, [42567]); (42568, [42569]); (42570, [42571]);
  (42572, [42573]); (42574, [42575]); (42576, [42577]); (42578, [42579]);
  (42580, [42581]); (42582, [42583]); (42584, [42585]); (42586, [42587]);
  (42588, [42589]); (42590, [42591]); (42592, [42593]); (42594, [42595]);
  (42596, [42597]); (42598, [42599]); (42600, [42601]); (42602, [42603]);
  (42604, [42605]); (42624, [42625]); (42626, [42627]); (42628, [42629]);
  (42630, [42631]); (42632, [42633]); (42634, [42635]); (42636, [42637]);
  (42638, [42639]); (42640, [42641]); (42642, [42643]); (42644, [42645]);
  (42646, [42647]); (42648, [42649]); (42650, [42651]); (42786, [42787]);
  (42788, [42789]); (42790, [42791]); (42792, [42793]); (42794, [42795]);
  (42796, [42797]); (42798, [42799]); (42802, [42803]); (42804, [42805]);
  (42806, [42807]); (42808, [42809]); (42810, [42811]); (42812, [42813]);
  (42814, [42815]); (42816, [42817]); (42818, [42819]); (42820, [42821]);
  (42822, [42823]); (42824, [42825]); (42826, [42827]); (42828, [42829]);
  (42830, [42831]); (42832, [42833]); (42834, [42835]); (42836, [42837]);
  (42838, [42839]); (42840, [42841]); (42842, [42843]); (42844, [42845]);
  (42846, [42847]); (42848, [42849]); (42850, [42851]); (42852, [42853]);
  (42854, [42855]); (42856, [42857]); (42858, [42859]); (42860, [42861]);
  (42862, [42863]); (42873, [42874]); (42875, [42876]); (42877, [7545]);
  (42878, [42879]); (42880, [42881]); (42882, [42883]); (42884, [42885]);
  (42886, [42887]); (42891, [42892]); (42893, [613]); (42896, [42897]);
  (42898, [42899]); (42902, [42903]); (42904, [42905]); (42906, [42907]);
  (42908, [42909]); (42910, [42911]); (42912, [42913]); (42914, [42915]);
  (42916, [42917]); (42918, [42919]); (42920, [42921]); (42922, [614]);
  (42923, [604]); (42924, [609]); (42925, [620]); (42926, [618]);
  (42928, [670]); (42929, [647]); (42930, [669]); (42931, [43859]);
  (42932, [42933]); (42934, [42935]); (42936, [42937]); (42938, [42939]);
  (42940, [42941]); (42942, [42943]); (42944, [42945]); (42946, [42947]);
  (42948, [42900]); (42949, [642]); (42950, [7566]); (42951, [42952]);
  (42953, [42954]); (42960, [42961]); (42966, [42967]); (42968, [42969]);
  (42997, [42998]); (65313, [65345]); (65314, [65346]); (65315, [65347]);
  (65316, [65348]); (65317, [65349]); (65318, [65350]); (65319, [65351]);
  (65320, [65352]); (65321, [65353]); (65322, [65354]); (65323, [65355]);
  (65324, [65356]); (65325, [65357]); (65326, [65358]); (65327, [65359]);
  (65328, [65360]); (65329, [65361]); (65330, [65362]); (65331, [65363]);
  (65332, [65364]); (65333, [65365]); (65334, [65366]); (65335, [65367]);
  (65336, [65368]); (65337, [65369]); (65338, [65370]); (66560, [66600]);
  (66561, [66601]); (66562, [66602]); (66563, [66603]); (66564, [66604]);
  (66565, [66605]); (66566, [66606]); (66567, [66607]); (66568, [66608]);
  (66569, [66609]); (66570, [66610]); (66571, [66611]); (66572, [66612]);
  (66573, [66613]); (66574, [66614]); (66575, [66615]); (66576, [66616]);
  (66577, [66617]); (66578, [66618]); (66579, [66619]); (66580, [66620]);
  (66581, [66621]); (66582, [66622]); (66583, [66623]); (66584, [66624]);
  (66585, [66625]); (66586, [66626]); (66587, [66627]); (66588, [66628]);
  (66589, [66629]); (66590, [66630]); (66591, [66631]); (66592, [66632]);
  (66593, [66633]); (66594, [66634]); (66595, [66635]); (66596, [66636]);
  (66597, [66637]); (66598, [66638]); (66599, [66639]); (66736, [66776]);
  (66737, [66777]); (66738, [66778]); (66739, [66779]); (66740, [66780]);
  (66741, [66781]); (66742, [66782]); (66743, [66783]); (66744, [66784]);
  (66745, [66785]); (66746, [66786]); (66747, [66787]); (66748, [66788]);
  (66749, [66789]); (66750, [66790]); (66751, [66791]); (66752, [66792]);
  (66753, [66793]); (66754, [66794]); (66755, [66795]); (66756, [66796]);
  (66757, [66797]); (66758, [66798]); (66759, [66799]); (66760, [66800]);
  (66761, [66801]); (66762, [66802]); (66763, [66803]); (66764, [66804]);
  (66765, [66805]); (66766, [66806]); (66767, [66807]); (66768, [66808]);
  (66769, [66809]); (66770, [66810]); (66771, [66811]); (66928, [66967]);
  (66929, [66968]); (66930, [66969]); (66931, [66970]); (66932, [66971]);
  (66933, [66972]); (66934, [66973]); (66935, [66974]); (66936, [66975]);
  (66937, [66976]); (66938, [66977]); (66940, [66979]); (66941, [66980]);
  (66942, [66981]); (66943, [66982]); (66944, [66983]); (66945, [66984]);
  (66946, [66985]); (66947, [66986]); (66948, [66987]); (66949, [66988]);
  (66950, [66989]); (66951, [66990]); (66952, [66991]); (66953, [66992]);
  (66954, [66993]); (66956, [66995]); (66957, [66996]); (66958, [66997]);
  (66959, [66998]); (66960, [66999]); (66961, [67000]); (66962, [67001]);
  (66964, [67003]); (66965, [67004]); (68736, [68800]); (68737, [68801]);
  (68738, [68802]); (68739, [68803]); (68740, [68804]); (68741, [68805]);
  (68742, [68806]); (68743, [68807]); (68744, [68808]); (68745, [68809]);
  (68746, [68810]); (68747, [68811]); (68748, [68812]); (68749, [68813]);
  (68750, [68814]); (68751, [68815]); (68752, [68816]); (68753, [68817]);
  (68754, [68818]); (68755, [68819]); (68756, [68820]); (68757, [68821]);
  (68758, [68822]); (68759, [68823]); (68760, [68824]); (68761, [68825]);
  (68762, [68826]); (68763, [68827]); (68764, [68828]); (68765, [68829]);
  (68766, [68830]); (68767, [68831]); (68768, [68832]); (68769, [68833]);
  (68770, [68834]); (68771, [68835]); (68772, [68836]); (68773, [68837]);
  (68774, [68838]); (68775, [68839]); (68776, [68840]); (68777, [68841]);
  (68778, [68842]); (68779, [68843]); (68780, [68844]); (68781, [68845]);
  (68782, [68846]); (68783, [68847]); (68784, [68848]); (68785, [68849]);
  (68786, [68850]); (71840, [71872]); (71841, [71873]); (71842, [71874]);
  (71843, [71875]); (71844, [71876]); (71845, [71877]); (71846, [71878]);
  (71847, [71879]); (71848, [71880]); (71849, [71881]); (71850, [71882]);
  (71851, [71883]); (71852, [71884]); (71853, [71885]); (71854, [71886]);
  (71855, [71887]); (71856, [71888]); (71857, [71889]); (71858, [71890]);
  (71859, [71891]); (71860, [71892]); (71861, [71893]); (71862, [71894]);
  (71863, [71895]); (71864, [71896]); (71865, [71897]); (71866, [71898]);
  (71867, [71899]); (71868, [71900]); (71869, [71901]); (71870, [71902]);
  (71871, [71903]); (93760, [93792]); (93761, [93793]); (93762, [93794]);
  (93763, [93795]); (93764, [93796]); (93765, [93797]); (93766, [93798]);
  (93767, [93799]); (93768, [93800]); (93769, [93801]); (93770, [93802]);
  (93771, [93803]); (93772, [93804]); (93773, [93805]); (93774, [93806]);
  (93775, [93807]); (93776, [93808]); (93777, [93809]); (93778, [93810]);
  (93779, [93811]); (93780, [93812]); (93781, [93813]); (93782, [93814]);
  (93783, [93815]); (93784, [93816]); (93785, [93817]); (93786, [93818]);
  (93787, [93819]); (93788, [93820]); (93789, [93821]); (93790, [93822]);
  (93791, [93823]); (125184, [125218]); (125185, [125219]); (125186, [125220]);
  (125187, [125221]); (125188, [125222]); (125189, [125223]); (125190, [125224]);
  (125191, [125225]); (125192, [125226]); (125193, [125227]); (125194, [125228]);
  (125195, [125229]); (125196, [125230]); (125197, [125231]); (125198, [125232]);
  (125199, [125233]); (125200, [125234]); (125201, [125235]); (125202, [125236]);
  (125203, [125237]); (125204, [125238]); (125205, [125239]); (125206, [125240]);
  (125207, [125241]); (125208, [125242]); (125209, [125243]); (125210, [125244]);
  (125211, [125245]); (125212, [125246]); (125213, [125247]); (125214, [125248]);
  (125215, [125249]); (125216, [125250]); (125217, [125251])].

Definition in_ranges (c : N) (ranges : list (N * N)) : bool :=
  existsb (λ r, (r.1 <=? c) && (c <=? r.2)) ranges.

(** The case-ignorable code points, as ranges. *)
Definition case_ignorable : list (N * N) := [
  (39, 39); (46, 46); (58, 58); (94, 94); (96, 96); (168, 168);
  (173, 173); (175, 175); (180, 180); (183, 184); (688, 879); (884, 885);
  (890, 890); (900, 901); (903, 903); (1155, 1161); (1369, 1369); (1375, 1375);
  (1425, 1469); (1471, 1471); (1473, 1474); (1476, 1477); (1479, 1479); (1524, 1524);
  (1536, 1541); (1552, 1562); (1564, 1564); (1600, 1600); (1611, 1631); (1648, 1648);
  (1750, 1757); (1759, 1768); (1770, 1773); (1807, 1807); (1809, 1809); (1840, 1866);
  (1958, 1968); (2027, 2037); (2042, 2042); (2045, 2045); (2070, 2093); (2137, 2139);
  (2184, 2184); (2192, 2193); (2200, 2207); (2249, 2306); (2362, 2362); (2364, 2364);
  (2369, 2376); (2381, 2381); (2385, 2391); (2402, 2403); (2417, 2417); (2433, 2433);
  (2492, 2492); (2497, 2500); (2509, 2509); (2530, 2531); (2558, 2558); (2561, 2562);
  (2620, 2620); (2625, 2626); (2631, 2632); (2635, 2637); (2641, 2641); (2672, 2673);
  (2677, 2677); (2689, 2690); (2748, 2748); (2753, 2757); (2759, 2760); (2765, 2765);
  (2786, 2787); (2810, 2815); (2817, 2817); (2876, 2876); (2879, 2879); (2881, 2884);
  (2893, 2893); (2901, 2902); (2914, 2915); (2946, 2946); (3008, 3008); (3021, 3021);
  (3072, 3072); (3076, 3076); (3132, 3132); (3134, 3136); (3142, 3144); (3146, 3149);
  (3157, 3158); (3170, 3171); (3201, 3201); (3260, 3260); (3263, 3263); (3270, 3270);
  (3276, 3277); (3298, 3299); (3328, 3329); (3387, 3388); (3393, 3396); (3405, 3405);
  (3426, 3427); (3457, 3457); (3530, 3530); (3538, 3540); (3542, 3542); (3633, 3633);
  (3636, 3642); (3654, 3662); (3761, 3761); (3764, 3772); (3782, 3782); (3784, 3789);
  (3864, 3865); (3893, 3893); (3895, 3895); (3897, 3897); (3953, 3966); (3968, 3972);
  (3974, 3975); (3981, 3991); (3993, 4028); (4038, 4038); (4141, 4144); (4146, 4151);
  (4153, 4154); (4157, 4158); (4184, 4185); (4190, 4192); (4209, 4212); (4226, 4226);
  (4229, 4230); (4237, 4237); (4253, 4253); (4348, 4348); (4957, 4959); (5906, 5908);
  (5938, 5939); (5970, 5971); (6002, 6003); (6068, 6069); (6071, 6077); (6086, 6086);
  (6089, 6099); (6103, 6103); (6109, 6109); (6155, 6159); (6211, 6211); (6277, 6278);
  (6313, 6313); (6432, 6434); (6439, 6440); (6450, 6450); (6457, 6459); (6679, 6680);
  (6683, 6683); (6742, 6742); (6744, 6750); (6752, 6752); (6754, 6754); (6757, 6764);
  (6771, 6780); (6783, 6783); (6823, 6823); (6832, 6862); (6912, 6915); (6964, 6964);
  (6966, 6970); (6972, 6972); (6978, 6978); (7019, 7027); (7040, 7041); (7074, 7077);
  (7080, 7081); (7083, 7085); (7142, 7142); (7144, 7145); (7149, 7149); (7151, 7153);
  (7212, 7219); (7222, 7223); (7288, 7293); (7376, 7378); (7380, 7392); (7394, 7400);
  (7405, 7405); (7412, 7412); (7416, 7417); (7468, 7530); (7544, 7544); (7579, 7679);
  (8125, 8125); (8127, 8129); (8141, 8143); (8157, 8159); (8173, 8175); (8189, 8190);
  (8203, 8207); (8216, 8217); (8228, 8228); (8231, 8231); (8234, 8238); (8288, 8292);
  (8294, 8303); (8305, 8305); (8319, 8319); (8336, 8348); (8400, 8432); (11388, 11389);
  (11503, 11505); (11631, 11631); (11647, 11647); (11744, 11775); (11823, 11823); (12293, 12293);
  (12330, 12333); (12337, 12341); (12347, 12347); (12441, 12446); (12540, 12542); (40981, 40981);
  (42232, 42237); (42508, 42508); (42607, 42610); (42612, 42621); (42623, 42623); (42652, 42655);
  (42736, 42737); (42752, 42785); (42864, 42864); (42888, 42890); (42994, 42996); (43000, 43001);
  (43010, 43010); (43014, 43014); (43019, 43019); (43045, 43046); (43052, 43052); (43204, 43205);
  (43232, 43249); (43263, 43263); (43302, 43309); (43335, 43345); (43392, 43394); (43443, 43443);
  (43446, 43449); (43452, 43453); (43471, 43471); (43493, 43494); (43561, 43566); (43569, 43570);
  (43573, 43574); (43587, 43587); (43596, 43596); (43632, 43632); (43644, 43644); (43696, 43696);
  (43698, 43700); (43703, 43704); (43710, 43711); (43713, 43713); (43741, 43741); (43756, 43757);
  (43763, 43764); (43766, 43766); (43867, 43871); (43881, 43883); (44005, 44005); (44008, 44008);
  (44013, 44013); (64286, 64286); (64434, 64450); (65024, 65039); (65043, 65043); (65056, 65071);
  (65106, 65106); (65109, 65109); (65279, 65279); (65287, 65287); (65294, 65294); (65306, 65306);
  (65342, 65342); (65344, 65344); (65392, 65392); (65438, 65439); (65507, 65507); (65529, 65531);
  (66045, 66045); (66272, 66272); (66422, 66426); (67456, 67461); (67463, 67504); (67506, 67514);
  (68097, 68099); (68101, 68102); (68108, 68111); (68152, 68154); (68159, 68159); (68325, 68326);
  (68900, 68903); (69291, 69292); (69446, 69456); (69506, 69509); (69633, 69633); (69688, 69702);
  (69744, 69744); (69747, 69748); (69759, 69761); (69811, 69814); (69817, 69818); (69821, 69821);
  (69826, 69826); (69837, 69837); (69888, 69890); (69927, 69931); (69933, 69940); (70003, 70003);
  (70016, 70017); (70070, 70078); (70089, 70092); (70095, 70095); (70191, 70193); (70196, 70196);
  (70198, 70199); (70206, 70206); (70367, 70367); (70371, 70378); (70400, 70401); (70459, 70460);
  (70464, 70464); (70502, 70508); (70512, 70516); (70712, 70719); (70722, 70724); (70726, 70726);
  (70750, 70750); (70835, 70840); (70842, 70842); (70847, 70848); (70850, 70851); (71090, 71093);
  (71100, 71101); (71103, 71104); (71132, 71133); (71219, 71226); (71229, 71229); (71231, 71232);
  (71339, 71339); (71341, 71341); (71344, 71349); (71351, 71351); (71453, 71455); (71458, 71461);
  (71463, 71467); (71727, 71735); (71737, 71738); (71995, 71996); (71998, 71998); (72003, 72003);
  (72148, 72151); (72154, 72155); (72160, 72160); (72193, 72202); (72243, 72248); (72251, 72254);
  (72263, 72263); (72273, 72278); (72281, 72283); (72330, 72342); (72344, 72345); (72752, 72758);
  (72760, 72765); (72767, 72767); (72850, 72871); (72874, 72880); (72882, 72883); (72885, 72886);
  (73009, 73014); (73018, 73018); (73020, 73021); (73023, 73029); (73031, 73031); (73104, 73105);
  (73109, 73109); (73111, 73111); (73459, 73460); (78896, 78904); (92912, 92916); (92976, 92982);
  (92992, 92995); (94031, 94031); (94095, 94111); (94176, 94177); (94179, 94180); (110576, 110579);
  (110581, 110587); (110589, 110590); (113821, 113822); (113824, 113827); (118528, 118573); (118576, 118598);
  (119143, 119145); (119155, 119170); (119173, 119179); (119210, 119213); (119362, 119364); (121344, 121398);
  (121403, 121452); (121461, 121461); (121476, 121476); (121499, 121503); (121505, 121519); (122880, 122886);
  (122888, 122904); (122907, 122913); (122915, 122916); (122918, 122922); (123184, 123197); (123566, 123566);
  (123628, 123631); (125136, 125142); (125252, 125259); (127995, 127999); (917505, 917505); (917536, 917631);
  (917760, 917999)].

(** The cased code points that are not case-ignorable, as ranges (the
    final-sigma rule tests [cased] on such code points only). *)
Definition cased : list (N * N) := [
  (65, 90); (97, 122); (170, 170); (181, 181); (186, 186); (192, 214);
  (216, 246); (248, 442); (444, 447); (452, 659); (661, 687); (880, 883);
  (886, 887); (891, 893); (895, 895); (902, 902); (904, 906); (908, 908);
  (910, 929); (931, 1013); (1015, 1153); (1162, 1327); (1329, 1366); (1376, 1416);
  (4256, 4293); (4295, 4295); (4301, 4301); (4304, 4346); (4349, 4351); (5024, 5109);
  (5112, 5117); (7296, 7304); (7312, 7354); (7357, 7359); (7424, 7467); (7531, 7543);
  (7545, 7578); (7680, 7957); (7960, 7965); (7968, 8005); (8008, 8013); (8016, 8023);
  (8025, 8025); (8027, 8027); (8029, 8029); (8031, 8061); (8064, 8116); (8118, 8124);
  (8126, 8126); (8130, 8132); (8134, 8140); (8144, 8147); (8150, 8155); (8160, 8172);
  (8178, 8180); (8182, 8188); (8450, 8450); (8455, 8455); (8458, 8467); (8469, 8469);
  (8473, 8477); (8484, 8484); (8486, 8486); (8488, 8488); (8490, 8493); (8495, 8500);
  (8505, 8505); (8508, 8511); (8517, 8521); (8526, 8526); (8544, 8575); (8579, 8580);
  (9398, 9449); (11264, 11387); (11390, 11492); (11499, 11502); (11506, 11507); (11520, 11557);
  (11559, 11559); (11565, 11565); (42560, 42605); (42624, 42651); (42786, 42863); (42865, 42887);
  (42891, 42894); (42896, 42954); (42960, 42961); (42963, 42963); (42965, 42969); (42997, 42998);
  (43002, 43002); (43824, 43866); (43872, 43880); (43888, 43967); (64256, 64262); (64275, 64279);
  (65313, 65338); (65345, 65370); (66560, 66639); (66736, 66771); (66776, 66811); (66928, 66938);
  (66940, 66954); (66956, 66962); (66964, 66965); (66967, 66977); (66979, 66993); (66995, 67001);
  (67003, 67004); (68736, 68786); (68800, 68850); (71840, 71903); (93760, 93823); (119808, 119892);
  (119894, 119964); (119966, 119967); (119970, 119970); (119973, 119974); (119977, 119980); (119982, 119993);
  (119995, 119995); (119997, 120003); (120005, 120069); (120071, 120074); (120077, 120084); (120086, 120092);
  (120094, 120121); (120123, 120126); (120128, 120132); (120134, 120134); (120138, 120144); (120146, 120485);
  (120488, 120512); (120514, 120538); (120540, 120570); (120572, 120596); (120598, 120628); (120630, 120654);
  (120656, 120686); (120688, 120712); (120714, 120744); (120746, 120770); (120772, 120779); (122624, 122633);
  (122635, 122654); (125184, 125251); (127280, 127305); (127312, 127337); (127344, 127369)].

Fixpoint lookup_table (c : N) (table : list (N * list N)) : option (list N) :=
  match table with
  | [] => None
  | (k, v) :: table' => if c =? k then Some v else lookup_table c table'
  end.

(** The lowercase of one code point, without context. *)
Definition to_lower_full (c : N) : list N :=
  if c <? 128 then
    if (65 <=? c) && (c <=? 90) then [c + 32] else [c]
  else default [c] (lookup_table c lower_table).

(** *** [str.lower] *)

Fixpoint skip_ignorable (l : list N) : list N :=
  match l with
  | [] => []
  | c :: l' => if in_ranges c case_ignorable then skip_ignorable l' else l
  end.

(** The nearest code point that is not case-ignorable is cased. *)
Definition cased_next (l : list N) : bool :=
  match skip_ignorable l with
  | [] => false
  | c :: _ => in_ranges c cased
  end.

(** U+03A3 is a final sigma: a cased letter before it, none after it.
    [before] is what precedes it, nearest first. *)
Definition final_sigma (before after : list N) : bool :=
  cased_next before && negb (cased_next after).

(** The lowercase of [c] between [before] (nearest first) and [after]. *)
Definition lower_one (before : list N) (c : N) (after : list N) : list N :=
  if c =? 931
  then [if final_sigma before after then 962 else 963]
  else to_lower_full c.

Fixpoint lower_go (before : list N) (s : list N) : list N :=
  match s with
  | [] => []
  | c :: s' => lower_one before c s' ++ lower_go (c :: before) s'
  end.

Definition lower_points (s : list N) : list N := lower_go [] s.

(** [s.lower()] *)
Definition lower (s : string) : string := encode (lower_points (decode s)).

(** *** [str.strip] *)

Fixpoint lstrip_points (s : list N) : list N :=
  match s with
  | [] => []
  | c :: s' => if isspace c then lstrip_points s' else s
  end.

Fixpoint rstrip_points (s : list N) : list N :=
  match s with
  | [] => []
  | c :: s' =>
      match rstrip_points s' with
      | [] => if isspace c then [] else [c]
      | r => c :: r
      end
  end.

Definition strip_points (s : list N) : list N := rstrip_points (lstrip_points s).

(** [s.strip()] without argument. *)
Definition strip (s : string) : string := encode (strip_points (decode s)).

(** *** [str.split] *)

(** The maximal runs of code points that are not white space, in order;
    [cur] is the run being read. *)
Fixpoint split_go (cur : list N) (s : list N) : list (list N) :=
  match s with
  | [] => if decide (cur = []) then [] else [cur]
  | c :: s' =>
      if isspace c
      then (if decide (cur = []) then [] else [cur]) ++ split_go [] s'
      else split_go (cur ++ [c]) s'
  end.

Definition split_points (s : list N) : list (list N) := split_go [] s.

(** [s.split()] without argument. *)
Definition split (s : string) : list string := encode <$> split_points (decode s).

(** *** Others *)

(** [s.startswith(p)] *)
Definition startswith (s p : string) : bool := String.prefix p s.

(** [str(n)] for an [int]. *)
Definition str (n : Z) : string := pretty n.

(** [x in l] for a list of strings. *)
Definition contains (l : list string) (x : string) : bool :=
  bool_decide (x ∈ l).

End Py.

(** ** Data model *)

(** The fields of [discord.Guild], [discord.User] and [discord.Message]
    that the handler reads. *)
Record Guild := { guild_id : Z; guild_name : string }.

Record User := { user_id : Z; user_bot : bool; user_mention : string }.

Record Message := {
  guild : option Guild;      (* [None] outside a guild (direct message) *)
  author : User;
  channel_id : Z;
  content : string
}.

(** One entry of [flagged_words.json]: a JSON object read key by key with
    [config.get], so every key may be absent.  The values have the types the
    handler uses them at: a boolean, a channel id, a list of words, a text. *)
Record FlaggedConfig := {
  cfg_sync_global : option bool;
  cfg_channel : option Z;
  cfg_words : option (list string);
  cfg_message : option string
}.

(** [PlasticBot]'s attributes and the module-level
    [auto_moderation_config]; dictionaries are keyed by [str(guild.id)].
    [auto_moderation_config] holds the booleans that [moderation] writes. *)
Record Globals := {
  blacklist : gset Z;
  prefixes : gmap string string;
  flagged_words : gmap string FlaggedConfig;
  auto_moderation_config : gmap string bool
}.

(** ** Effects *)

(** Exceptions, all subclasses of [Exception]; [Forbidden] and [NotFound]
    are the two classes of [discord.errors] the handler tells apart.  Each
    carries the text [str(e)]. *)
Inductive exn :=
| Forbidden (text : string)
| NotFound (text : string)
| OtherException (text : string).

Definition exn_str (e : exn) : string :=
  match e with Forbidden t | NotFound t | OtherException t => t end.

(** Calls to the Discord client.  Every call of the handler acts on the
    handled message, its channel or the interaction at hand. *)
Inductive request :=
| Delete                                              (* [message.delete()] *)
| Send (text : string) (delete_after : option Z)      (* [message.channel.send] *)
| ProcessCommands                                     (* [bot.process_commands] *)
| Respond (text : string)    (* [interaction.response.send_message], ephemeral *)
| Dump (file : string) (data : gmap string bool).     (* [json.dump] to a file *)

Inductive event :=
| Generated (prompt : string)     (* [model.generate_content(prompt)] *)
| Printed (line : string)         (* [print(line)] *)
| Called (r : request).

(** What the outside answers: the text of the model's response or the
    exception the call raised, and for each Discord call whether it raised. *)
Record World := {
  generate_content : string → string + exn;
  discord : request → option exn
}.

Record Store := { globals : Globals; log : list event }.

(** How a block of statements ends: it falls through with a value, it
    executes [return], or it raises. *)
Inductive outcome (A : Type) :=
| Value (a : A)
| Returned
| Raised (e : exn).
Arguments Value {A} a.
Arguments Returned {A}.
Arguments Raised {A} e.

Definition M (A : Type) : Type := World → Store → outcome A * Store.

#[export] Instance M_ret : MRet M := λ A a, λ w s, (Value a, s).

#[export] Instance M_bind : MBind M := λ A B f m, λ w s,
  match m w s with
  | (Value a, s') => f a w s'
  | (Returned, s') => (Returned, s')
  | (Raised e, s') => (Raised e, s')
  end.

(** [return] *)
Definition return_ {A} : M A := λ w s, (Returned, s).

(** [raise e] *)
Definition raise {A} (e : exn) : M A := λ w s, (Raised e, s).

(** [try: body / except ...:]; [handler e] is the [except] clause that
    catches [e], if any. *)
Definition try_except {A} (body : M A) (handler : exn → option (M A)) : M A :=
  λ w s,
  match body w s with
  | (Raised e, s') =>
      match handler e with
      | Some h => h w s'
      | None => (Raised e, s')
      end
  | r => r
  end.

(** The body of a [def]: [return] and falling off the end both return. *)
Definition def (body : M unit) : M unit := λ w s,
  match body w s with
  | (Returned, s') => (Value tt, s')
  | r => r
  end.

Definition read {A} (f : Globals → A) : M A := λ w s, (Value (f (globals s)), s).

Definition modify (f : Globals → Globals) : M unit := λ w s,
  (Value tt, {| globals := f (globals s); log := log s |}).

Definition emit (e : event) : M unit := λ w s,
  (Value tt, {| globals := globals s; log := log s ++ [e] |}).

Definition print (line : string) : M unit := emit (Printed line).

(** A call to the Discord client: it is logged, then it returns or raises
    as the world says. *)
Definition call (r : request) : M unit := λ w s,
  let s' := {| globals := globals s; log := log s ++ [Called r] |} in
  match discord w r with
  | Some e => (Raised e, s')
  | None => (Value tt, s')
  end.

(** [model.generate_content(prompt).text] *)
Definition model_generate_content (prompt : string) : M string := λ w s,
  let s' := {| globals := globals s; log := log s ++ [Generated prompt] |} in
  match generate_content w prompt with
  | inl text => (Value text, s')
  | inr e => (Raised e, s')
  end.

(** ** The program *)

Definition AUTO_MODERATION_FILE : string := "auto_moderation.json".

Definition save_auto_moderation_config : M unit :=
  data ← read auto_moderation_config;
  call (Dump AUTO_MODERATION_FILE data).

Definition backticks : string := "```".

Definition prompt_of (message_content : string) : string :=
  "Determine if the following text contains clearly hateful, harassing, or violent content directed at a person or group. "
  +:+ "Ignore mild profanity or non-serious insults. "
  +:+ "Respond with ONLY 'yes' or 'no'. "
  +:+ "Text: " +:+ backticks +:+ message_content +:+ backticks.

Definition is_offensive_content (message_content : string) : M bool :=
  let prompt := prompt_of message_content in
  try_except
    (response_text ← model_generate_content prompt;
     let result := Py.lower (Py.strip response_text) in
     mret (Py.startswith result "yes"))
    (λ e, Some (print ("Error checking content with Gemini: " +:+ exn_str e);;
                mret false)).

(** Lines 116-128: the removal of a message classified as offensive. *)
Definition remove_offensive (g : Guild) (message : Message) : M unit :=
  let mention := user_mention (author message) in
  try_except
    (call Delete;;
     call (Send (mention +:+ " Your message was removed because it contained offensive content.")
                (Some 10)))
    (λ e, match e with
          | Forbidden _ =>
              Some (print ("Missing permissions to delete message in "
                           +:+ guild_name g +:+ ".");;
                    call (Send (mention +:+ " Offensive content detected but could not delete.")
                               None))
          | NotFound _ => Some (mret tt)
          | OtherException _ => None
          end).

(** Lines 141-147: the removal of a message that contains a flagged word. *)
Definition remove_flagged (response_message : string) : M unit :=
  try_except
    (call Delete;;
     call (Send response_message (Some 10)))
    (λ e, match e with
          | Forbidden _ => Some (call (Send response_message None))
          | NotFound _ => Some (mret tt)
          | OtherException _ => None
          end).

(** Lines 134-137, the pure part of the flagged-word check. *)
Definition is_global (config : FlaggedConfig) : bool :=
  default false (cfg_sync_global config).

Definition is_correct_channel (config : FlaggedConfig) (message : Message) : bool :=
  negb (is_global config) && bool_decide (cfg_channel config = Some (channel_id message)).

Definition flagged_words_in_message (config : FlaggedConfig) (message : Message)
  : list string :=
  filter (λ word, Py.contains (Py.split (Py.lower (content message))) word = true)
         (default [] (cfg_words config)).

(** [if cond: body] without [else]. *)
Definition when (cond : bool) (body : M unit) : M unit :=
  if cond then body else mret tt.

Definition on_message (message : Message) : M unit := def (
  match guild message with
  | None => return_
  | Some g =>
      bl ← read blacklist;
      when (user_bot (author message) || bool_decide (user_id (author message) ∈ bl))
        return_;;
      let guild_id := Py.str (guild_id g) in
      amc ← read auto_moderation_config;
      let is_moderation_enabled := default false (amc !! guild_id) in
      (* Auto moderation *)
      when is_moderation_enabled (
        offensive ← is_offensive_content (content message);
        when offensive (
          remove_offensive g message;;
          return_));;
      (* Flagged words *)
      fw ← read flagged_words;
      match fw !! guild_id with
      | Some config =>
          when (is_global config || is_correct_channel config message) (
            when (bool_decide (flagged_words_in_message config message ≠ [])) (
              let custom_message :=
                default "A flagged word was detected." (cfg_message config) in
              let response_message :=
                user_mention (author message) +:+ " " +:+ custom_message in
              remove_flagged response_message;;
              return_))
      | None => mret tt
      end;;
      call ProcessCommands
  end).

(** The argument of the [/moderation] slash command's callback. *)
Record Interaction := { interaction_guild : option Guild }.

Definition set_auto_moderation (guild_id : string) (enabled : bool) (g : Globals)
  : Globals :=
  {| blacklist := blacklist g; prefixes := prefixes g;
     flagged_words := flagged_words g;
     auto_moderation_config := <[guild_id := enabled]> (auto_moderation_config g) |}.

Definition moderation (interaction : Interaction) (action : string) : M unit := def (
  match interaction_guild interaction with
  | None => raise (OtherException "'NoneType' object has no attribute 'id'")
  | Some g =>
      let guild_id := Py.str (guild_id g) in
      let action := Py.lower action in
      if decide (action = "enable") then
        modify (set_auto_moderation guild_id true);;
        save_auto_moderation_config;;
        call (Respond "âœ… Auto-moderation ENABLED. Offensive messages will be deleted.")
      else if decide (action = "disable") then
        modify (set_auto_moderation guild_id false);;
        save_auto_moderation_config;;
        call (Respond "ðŸ›‘ Auto-moderation DISABLED.")
      else if decide (action = "status") then
        amc ← read auto_moderation_config;
        let enabled := default false (amc !! guild_id) in
        let status_text := if enabled then "âœ… ENABLED" else "ðŸ›‘ DISABLED" in
        call (Respond ("Auto-moderation is currently: " +:+ status_text))
      else
        call (Respond "Please specify a valid action: `enable`, `disable`, or `status`.")
  end).

(** ** Running a handler *)

(** A handler started on globals [g] with an empty log: how it ended and
    what it did. *)
Definition observe {A} (m : M A) (w : World) (g : Globals) : outcome A * list event :=
  let r := m w {| globals := g; log := [] |} in (r.1, log r.2).

(** The globals a handler leaves behind. *)
Definition globals_after {A} (m : M A) (w : World) (g : Globals) : Globals :=
  globals (m w {| globals := g; log := [] |}).2.

(** The calls to the Discord client in a log, in order. *)
Definition requests (l : list event) : list request :=
  omap (λ e, match e with Called r => Some r | _ => None end) l.

(** The value [is_offensive_content] returns in world [w]. *)
Definition classify (w : World) (message_content : string) : bool :=
  match generate_content w (prompt_of message_content) with
  | inl text => Py.startswith (Py.lower (Py.strip text)) "yes"
  | inr _ => false
  end.

(** What a Discord call yields: it returns [None] or raises. *)
Definition call_outcome (w : World) (r : request) : outcome unit :=
  match discord w r with
  | Some e => Raised e
  | None => Value tt
  end.

(** ** Text, tokens, scopes *)

(** The code points of a text are Unicode scalar values. *)
Definition scalars (l : list N) : Prop := Forall (λ c, Py.is_scalar c = true) l.

(** White space, as the Unicode character database lists it: the controls
    U+0009 to U+000D and U+001C to U+001F, the space, U+0085, U+00A0,
    U+1680, U+2000 to U+200A, U+2028, U+2029, U+202F, U+205F and U+3000. *)
Definition white_space (c : N) : Prop :=
  (9 ≤ c ≤ 13 ∨ 28 ≤ c ≤ 32 ∨ c = 133 ∨ c = 160 ∨ c = 5760
   ∨ 8192 ≤ c ≤ 8202 ∨ c = 8232 ∨ c = 8233 ∨ c = 8239 ∨ c = 8287
   ∨ c = 12288)%N.

(** [no_space s]: no code point of [s] is white space. *)
Definition no_space (s : list N) : Prop := Forall (λ c, ¬ white_space c) s.

(** [all_space s]: every code point of [s] is white space. *)
Definition all_space (s : list N) : Prop := Forall white_space s.

Definition ends_with_space (s : list N) : Prop :=
  ∃ p c, s = p ++ [c] ∧ white_space c.

Definition starts_with_space (s : list N) : Prop :=
  ∃ c q, s = c :: q ∧ white_space c.

(** [t] is a white-space delimited token of [s]: a non-empty run of code
    points without white space, bounded on each side by white space or by
    the end of [s]. *)
Definition is_token (s t : list N) : Prop :=
  t ≠ [] ∧ no_space t ∧
  ∃ pre post, s = pre ++ t ++ post ∧
    (pre = [] ∨ ends_with_space pre) ∧ (post = [] ∨ starts_with_space post).

(** The lowercase of an ASCII code point: [A] to [Z] move to [a] to [z]. *)
Definition ascii_lower (c : N) : N :=
  if ((65 <=? c) && (c <=? 90))%N then (c + 32)%N else c.

(** A code point that [str.lower] leaves as it is, wherever it stands. *)
Definition lowercase (c : N) : Prop :=
  Py.to_lower_full c = [c] ∧ c ≠ 931%N.

(** The tests behind [lower_table_checked] and [whitespace_checked]. *)
Definition lowercase_b (c : N) : bool :=
  match Py.to_lower_full c with
  | [c'] => (c' =? c)%N
  | _ => false
  end && negb (c =? 931)%N.

Definition check_entry (p : N * list N) : bool :=
  (128 <=? p.1)%N
  && match p.2 with
     | [] => false
     | x :: _ => negb (x =? 121)%N && negb (x =? 101)%N && negb (x =? 115)%N
     end
  && forallb (λ x, Py.is_scalar x && negb (Py.isspace x) && lowercase_b x) p.2.

Definition check_space (c : N) : bool :=
  negb (Py.in_ranges c Py.case_ignorable) && negb (Py.in_ranges c Py.cased)
  && lowercase_b c.

(** [text] begins, after white space, with [yes] in any letter case. *)
Definition begins_with_yes (text : list N) : Prop :=
  ∃ l y e s rest,
    text = l ++ y :: e :: s :: rest ∧ all_space l
    ∧ (y = 89 ∨ y = 121)%N ∧ (e = 69 ∨ e = 101)%N ∧ (s = 83 ∨ s = 115)%N.

(** The scope of a flagged-word rule, as the [sync_global] key gives it. *)
Inductive Scope := GLOBAL | CHANNEL.

Definition scope (config : FlaggedConfig) : Scope :=
  if is_global config then GLOBAL else CHANNEL.

(** ** Paths through [on_message] *)

(** The test of line 107 fails: the message is in a guild [gld], its author
    is not a bot and is not blacklisted. *)
Definition accepted (g : Globals) (message : Message) (gld : Guild) : Prop :=
  guild message = Some gld ∧
  user_bot (author message) = false ∧
  user_id (author message) ∉ blacklist g.

(** The tests of lines 114-115 both succeed. *)
Definition offensive_fires (w : World) (g : Globals) (gld : Guild) (message : Message)
  : bool :=
  default false (auto_moderation_config g !! Py.str (guild_id gld))
  && classify w (content message).

(** The warning of a flagged-word rule (lines 139-140). *)
Definition response_message (config : FlaggedConfig) (message : Message) : string :=
  user_mention (author message) +:+ " "
  +:+ default "A flagged word was detected." (cfg_message config).

(** The tests of lines 132, 136 and 138 all succeed: the warning to send. *)
Definition flagged_warning (g : Globals) (gld : Guild) (message : Message)
  : option string :=
  config ← flagged_words g !! Py.str (guild_id gld);
  if (is_global config || is_correct_channel config message)
     && bool_decide (flagged_words_in_message config message ≠ [])
  then Some (response_message config message) else None.

(** The texts of lines 119, 123 and 125. *)
Definition removed_warning (message : Message) : string :=
  user_mention (author message)
  +:+ " Your message was removed because it contained offensive content.".

Definition missing_permissions (gld : Guild) : string :=
  "Missing permissions to delete message in " +:+ guild_name gld +:+ ".".

Definition could_not_delete (message : Message) : string :=
  user_mention (author message)
  +:+ " Offensive content detected but could not delete.".

(** The events of one call of [is_offensive_content]. *)
Definition classification_events (w : World) (message_content : string) : list event :=
  Generated (prompt_of message_content) ::
  match generate_content w (prompt_of message_content) with
  | inl _ => []
  | inr e => [Printed ("Error checking content with Gemini: " +:+ exn_str e)]
  end.

(** ** Stores *)

Definition extend (s : Store) (evs : list event) : Store :=
  {| globals := globals s; log := log s ++ evs |}.

Definition clear (s : Store) : Store := {| globals := globals s; log := [] |}.

(** The log of a handler is append-only: what it does from a store [s] is
    what it does from [s] with an empty log, after the log of [s]. *)
Definition framed {A} (m : M A) : Prop :=
  ∀ w s, m w s =
         ((m w (clear s)).1,
          {| globals := globals (m w (clear s)).2;
             log := log s ++ log (m w (clear s)).2 |}).

(** The handler leaves the globals as they are. *)
Definition preserves_globals {A} (m : M A) : Prop :=
  ∀ w s, globals (m w s).2 = globals s.

Definition is_print (ev : event) : bool :=
  match ev with Printed _ => true | _ => false end.

(** ** Variations of the inputs *)

Definition with_flagged_words (fw : gmap string FlaggedConfig) (g : Globals) : Globals :=
  {| blacklist := blacklist g; prefixes := prefixes g;
     flagged_words := fw;
     auto_moderation_config := auto_moderation_config g |}.

Definition with_channel (c : Z) (message : Message) : Message :=
  {| guild := guild message; author := author message;
     channel_id := c; content := content message |}.

(** ** Sample inputs *)

Definition plastic_guild : Guild := {| guild_id := 42; guild_name := "plastic" |}.

Definition alice : User :=
  {| user_id := 7; user_bot := false; user_mention := "<@7>" |}.

Definition robot : User :=
  {| user_id := 8; user_bot := true; user_mention := "<@8>" |}.

Definition message_in (c : Z) (text : string) : Message :=
  {| guild := Some plastic_guild; author := alice; channel_id := c; content := text |}.

Definition rule (global : bool) (c : option Z) (ws : list string) : FlaggedConfig :=
  {| cfg_sync_global := Some global; cfg_channel := c;
     cfg_words := Some ws; cfg_message := Some "no fruit talk" |}.

Definition sample_globals (enabled : bool) (config : FlaggedConfig) : Globals :=
  {| blacklist := {[ 99 ]}; prefixes := ∅;
     flagged_words := {[ "42" := config ]};
     auto_moderation_config := {[ "42" := enabled ]} |}.

Definition banana_message : Message := message_in 5 "I love banana bread".

(** A guild with a global rule on [banana]. *)
Definition banana_globals (enabled : bool) : Globals :=
  sample_globals enabled (rule true None ["banana"]).

(** A world where the model answers [answer] and Discord answers [d]. *)
Definition sample_world (answer : string + exn) (d : request → option exn) : World :=
  {| generate_content := λ _, answer; discord := d |}.

Definition all_fine : request → option exn := λ _, None.

Definition delete_fails (e : exn) : request → option exn :=
  λ r, match r with Delete => Some e | _ => None end.

(** ** The rest of the program *)

(** [get_prefix(bot, message)], lines 47-50. *)
Definition get_prefix (g : Globals) (message : Message) : string :=
  match guild message with
  | None => "?"
  | Some gld => default "?" (prefixes g !! Py.str (guild_id gld))
  end.

(** What the global check receives: a [commands.Context] has an [author]
    attribute, an [Interaction] a [user] attribute; an attribute that is
    present may hold [None]. *)
Record CheckContext := {
  attr_author : option (option User);
  attr_user : option (option User)
}.

(** [getattr(ctx, 'author', getattr(ctx, 'user', None))] *)
Definition context_user (ctx : CheckContext) : option User :=
  match attr_author ctx with
  | Some a => a
  | None => match attr_user ctx with
            | Some u => u
            | None => None
            end
  end.

(** [is_not_blacklisted(ctx)], lines 91-94. *)
Definition is_not_blacklisted (g : Globals) (ctx : CheckContext) : bool :=
  match context_user ctx with
  | Some user => bool_decide (user_id user ∉ blacklist g)
  | None => true
  end.

(** The errors [on_command_error] tells apart, classes of
    [discord.ext.commands] none of which derives from another; each carries
    the text [str(error)]. *)
Inductive CommandError :=
| CommandNotFound (text : string)
| MissingPermissions (text : string)
| MissingRequiredArgument (text : string)
| OtherCommandError (text : string).

Definition is_CommandNotFound (error : CommandError) : bool :=
  match error with CommandNotFound _ => true | _ => false end.

Definition is_MissingPermissions (error : CommandError) : bool :=
  match error with MissingPermissions _ => true | _ => false end.

Definition is_MissingRequiredArgument (error : CommandError) : bool :=
  match error with MissingRequiredArgument _ => true | _ => false end.

Definition error_str (error : CommandError) : string :=
  match error with
  | CommandNotFound t | MissingPermissions t
  | MissingRequiredArgument t | OtherCommandError t => t
  end.

(** The fields of [commands.Context] that [on_command_error] reads;
    [ctx.send] sends to the channel of [ctx.message].  [ctx_command] is the
    qualified name of the command, [None] when there is none. *)
Record Context := { ctx_message : Message; ctx_command : option string }.

(** [on_command_error(ctx, error)], lines 184-193. *)
Definition on_command_error (ctx : Context) (error : CommandError) : M unit := def (
  when (is_CommandNotFound error) return_;;
  if is_MissingPermissions error then
    call (Send "You don't have permission to run this command." None)
  else if is_MissingRequiredArgument error then
    g ← read id;
    call (Send ("You are missing an argument. Use `"
                +:+ get_prefix g (ctx_message ctx) +:+ "help "
                +:+ default "None" (ctx_command ctx) +:+ "` for info.") None)
  else
    print ("Unexpected error: " +:+ error_str error)).

(** What [open(filename)] followed by [json.load] gives: one of the two
    exceptions [load_json_file] catches, the parsed value, or another
    exception ([PermissionError], [IsADirectoryError], ...). *)
Inductive file_read (V : Type) :=
| FileNotFoundError
| JSONDecodeError
| Loaded (v : V)
| ReadError (e : exn).
Arguments FileNotFoundError {V}.
Arguments JSONDecodeError {V}.
Arguments Loaded {V} v.
Arguments ReadError {V} e.

(** [load_json_file(filename, default_value)], lines 23-28, on the outcome
    of reading [filename]. *)
Definition load_json_file {V} (file : file_read V) (default_value : V) : V + exn :=
  match file with
  | Loaded v => inl v
  | FileNotFoundError | JSONDecodeError => inl default_value
  | ReadError e => inr e
  end.

(** The four configuration files as the process finds them at start.
    [Loaded v] is a file that parses to a value [v] of the shape the program
    expects, for [blacklist.json] a list of user ids; a file that parses to
    JSON of another shape is not described. *)
Record Files := {
  blacklist_json : file_read (list Z);
  prefixes_json : file_read (gmap string string);
  flagged_words_json : file_read (gmap string FlaggedConfig);
  auto_moderation_json : file_read (gmap string bool)
}.

(** The globals at start: [PlasticBot.__init__] (lines 34-36, run at line
    58), then line 65.  An exception of a load ends the start. *)
Definition startup (fs : Files) : Globals + exn :=
  match load_json_file (blacklist_json fs) [] with
  | inr e => inr e
  | inl bl =>
      match load_json_file (prefixes_json fs) ∅ with
      | inr e => inr e
      | inl px =>
          match load_json_file (flagged_words_json fs) ∅ with
          | inr e => inr e
          | inl fw =>
              match load_json_file (auto_moderation_json fs) ∅ with
              | inr e => inr e
              | inl amc =>
                  inl {| blacklist := list_to_set bl; prefixes := px;
                         flagged_words := fw; auto_moderation_config := amc |}
              end
          end
      end
  end.

(** ** More paths and inputs *)

(** The replies of [moderation] (lines 161, 165, 168-169, 171). *)
Definition moderation_reply (enabled : bool) : string :=
  if enabled
  then "âœ… Auto-moderation ENABLED. Offensive messages will be deleted."
  else "ðŸ›‘ Auto-moderation DISABLED.".

Definition status_reply (enabled : bool) : string :=
  "Auto-moderation is currently: " +:+ (if enabled then "âœ… ENABLED" else "ðŸ›‘ DISABLED").

Definition invalid_action_reply : string :=
  "Please specify a valid action: `enable`, `disable`, or `status`.".

Definition with_prefix (guild_id : string) (p : string) (g : Globals) : Globals :=
  {| blacklist := blacklist g; prefixes := <[guild_id := p]> (prefixes g);
     flagged_words := flagged_words g;
     auto_moderation_config := auto_moderation_config g |}.

(** The shapes the Discord requests of one [on_message] can take. *)
Inductive request_shape : list request → Prop :=
| shape_rejected : request_shape []
| shape_commands : request_shape [ProcessCommands]
| shape_deleted : request_shape [Delete]
| shape_warned text d : request_shape [Delete; Send text d]
| shape_fallback text text' :
    request_shape [Delete; Send text (Some 10); Send text' None].

Definition is_generated (ev : event) : bool :=
  match ev with Generated _ => true | _ => false end.

Definition no_files : Files :=
  {| blacklist_json := FileNotFoundError; prefixes_json := FileNotFoundError;
     flagged_words_json := FileNotFoundError;
     auto_moderation_json := FileNotFoundError |}.

Definition in_plastic_guild : Interaction :=
  {| interaction_guild := Some plastic_guild |}.

Definition other_guild : Guild := {| guild_id := 43; guild_name := "rubber" |}.

Definition context_of (u : User) : CheckContext :=
  {| attr_author := Some (Some u); attr_user := None |}.

(** * Properties *)

(** ** The string builtins *)

Example lower_ex : Py.lower "I HATE you" = "i hate you".
Proof. reflexivity. Qed.

(** [str.lower] follows Unicode: the final sigma, and U+0130, whose
    lowercase has two code points. *)
Example lower_unicode_ex :
  Py.lower "ÉCOLE ΟΔΟΣ ΣΟΦΟΣ." = "école οδος σοφος."
  ∧ Py.lower_points [304%N] = [105%N; 775%N].
Proof. by vm_compute. Qed.

Example split_ex : Py.split (" a  bc" +:+ String (ascii_of_N 10) "d ") = ["a"; "bc"; "d"].
Proof. reflexivity. Qed.

(** U+00A0, the no-break space, separates words and is stripped. *)
Example split_nbsp_ex :
  Py.split ("banana" +:+ Py.encode [160%N] +:+ "bread") = ["banana"; "bread"]
  ∧ Py.strip (Py.encode [160%N] +:+ "Yes. ") = "Yes.".
Proof. by vm_compute. Qed.

Example strip_ex : Py.strip "  Yes. " = "Yes.".
Proof. reflexivity. Qed.

Example str_ex : Py.str 1234567890123 = "1234567890123".
Proof. vm_compute. reflexivity. Qed.

Ltac nlia := zify; Z.to_euclidean_division_equations; lia.

Ltac cmp :=
  repeat match goal with
  | |- context [N.ltb ?x ?y] =>
      first [ replace (N.ltb x y) with true by (symmetry; apply N.ltb_lt; lia)
            | replace (N.ltb x y) with false by (symmetry; apply N.ltb_ge; lia) ]
  | |- context [N.leb ?x ?y] =>
      first [ replace (N.leb x y) with true by (symmetry; apply N.leb_le; lia)
            | replace (N.leb x y) with false by (symmetry; apply N.leb_gt; lia) ]
  end.

Ltac bools :=
  repeat match goal with
  | H : _ && _ = true |- _ => apply andb_true_iff in H as [? ?]
  | H : N.leb _ _ = true |- _ => apply N.leb_le in H
  | H : N.ltb _ _ = true |- _ => apply N.ltb_lt in H
  | H : N.leb _ _ = false |- _ => apply N.leb_gt in H
  | H : N.ltb _ _ = false |- _ => apply N.ltb_ge in H
  | H : Py.is_cont _ = true |- _ => unfold Py.is_cont in H
  end.

(** Decides [Forall P l] on a list of code points given in full, for [P]
    white space or its negation. *)
Ltac by_spaces :=
  repeat (apply Forall_cons_2; [unfold white_space; lia|]); apply Forall_nil_2.

(** *** The encoding *)

Section utf8.
Local Open Scope N_scope.
Implicit Types (s t : string) (l : list N) (c : N) (a : ascii).

Lemma str_app_cons a s t : String a s +:+ t = String a (s +:+ t).
Proof. reflexivity. Qed.

Lemma str_app_nil_l s : "" +:+ s = s.
Proof. reflexivity. Qed.

Lemma str_app_assoc s t u : (s +:+ t) +:+ u = s +:+ t +:+ u.
Proof. induction s as [|x s IH]; [done|]. by rewrite !str_app_cons, IH. Qed.

Lemma is_scalar_spec c :
  Py.is_scalar c = true ↔ c < 55296 ∨ 57344 ≤ c < 1114112.
Proof.
  unfold Py.is_scalar.
  rewrite orb_true_iff, andb_true_iff, N.ltb_lt, N.leb_le, N.ltb_lt. lia.
Qed.

Lemma decode_1 a s :
  N_of_ascii a < 128 → Py.decode (String a s) = N_of_ascii a :: Py.decode s.
Proof. intros H. apply N.ltb_lt in H. cbn [Py.decode]. by rewrite H. Qed.

Lemma decode_2 a0 a1 s :
  194 ≤ N_of_ascii a0 ≤ 223 → 128 ≤ N_of_ascii a1 ≤ 191 →
  Py.decode (String a0 (String a1 s))
  = ((N_of_ascii a0 - 192) * 64 + (N_of_ascii a1 - 128)) :: Py.decode s.
Proof. intros H0 H1. cbn [Py.decode]. unfold Py.is_cont. cmp. done. Qed.

Lemma decode_3 a0 a1 a2 s :
  let c := (N_of_ascii a0 - 224) * 4096 + (N_of_ascii a1 - 128) * 64
           + (N_of_ascii a2 - 128) in
  224 ≤ N_of_ascii a0 ≤ 239 → 128 ≤ N_of_ascii a1 ≤ 191 →
  128 ≤ N_of_ascii a2 ≤ 191 → 2048 ≤ c → Py.is_scalar c = true →
  Py.decode (String a0 (String a1 (String a2 s))) = c :: Py.decode s.
Proof.
  intros c H0 H1 H2 Hc Hs. cbn [Py.decode]. fold c. rewrite Hs.
  unfold Py.is_cont. cmp. done.
Qed.

Lemma decode_4 a0 a1 a2 a3 s :
  let c := (N_of_ascii a0 - 240) * 262144 + (N_of_ascii a1 - 128) * 4096
           + (N_of_ascii a2 - 128) * 64 + (N_of_ascii a3 - 128) in
  240 ≤ N_of_ascii a0 ≤ 244 → 128 ≤ N_of_ascii a1 ≤ 191 →
  128 ≤ N_of_ascii a2 ≤ 191 → 128 ≤ N_of_ascii a3 ≤ 191 →
  65536 ≤ c < 1114112 →
  Py.decode (String a0 (String a1 (String a2 (String a3 s)))) = c :: Py.decode s.
Proof.
  intros c H0 H1 H2 H3 Hc. cbn [Py.decode]. fold c.
  unfold Py.is_cont, Py.is_scalar. cmp. done.
Qed.

Lemma decode_encode_point c s :
  Py.is_scalar c = true →
  Py.decode (Py.encode_point c +:+ s) = c :: Py.decode s.
Proof.
  intros Hc. apply is_scalar_spec in Hc. unfold Py.encode_point.
  destruct (N.ltb_spec c 128); [|destruct (N.ltb_spec c 2048);
    [|destruct (N.ltb_spec c 65536)]];
    rewrite ?str_app_cons, str_app_nil_l.
  - rewrite decode_1; rewrite N_ascii_embedding by lia; [done|lia].
  - rewrite decode_2; rewrite !N_ascii_embedding by nlia; [f_equal; nlia|nlia..].
  - rewrite decode_3; rewrite !N_ascii_embedding by nlia;
      [f_equal; nlia|try nlia..].
    apply is_scalar_spec. nlia.
  - rewrite decode_4; rewrite !N_ascii_embedding by nlia; [f_equal; nlia|nlia..].
Qed.

(** Encoding a text and reading it back gives the text. *)
Lemma decode_encode l : scalars l → Py.decode (Py.encode l) = l.
Proof.
  induction 1 as [|c l Hc _ IH]; [done|].
  cbn [Py.encode]. by rewrite decode_encode_point, IH.
Qed.

Lemma decode_scalars_upto (n : nat) s :
  (String.length s ≤ n)%nat → scalars (Py.decode s).
Proof.
  revert s. induction n as [|n IH]; intros s Hn.
  { destruct s; [constructor|simpl in Hn; lia]. }
  destruct s as [|a0 s0]; [constructor|]. simpl in Hn.
  pose proof (N_ascii_bounded a0) as B0.
  assert (Hrep : scalars (Py.replacement :: Py.decode s0)).
  { constructor; [done|]. apply IH. lia. }
  cbn [Py.decode]. destruct (N.ltb_spec (N_of_ascii a0) 128).
  { constructor; [apply is_scalar_spec; lia|]. apply IH. lia. }
  destruct s0 as [|a1 s1]; [by repeat constructor|]. simpl in Hn.
  pose proof (N_ascii_bounded a1) as B1.
  match goal with |- context [if ?b then _ else _] => destruct b eqn:E2 end.
  { bools. constructor; [apply is_scalar_spec; lia|]. apply IH. lia. }
  destruct s1 as [|a2 s2]; [done|]. simpl in Hn.
  match goal with |- context [if ?b then _ else _] => destruct b eqn:E3 end.
  { bools. constructor; [done|]. apply IH. lia. }
  destruct s2 as [|a3 s3]; [done|]. simpl in Hn.
  match goal with |- context [if ?b then _ else _] => destruct b eqn:E4 end.
  { bools. constructor; [apply is_scalar_spec; lia|]. apply IH. lia. }
  done.
Qed.

(** Reading a [string] gives a text. *)
Lemma decode_scalars s : scalars (Py.decode s).
Proof. by apply (decode_scalars_upto (String.length s)). Qed.
End utf8.

(** *** Tokens and trimming *)

Section tokens.
Local Open Scope N_scope.
Implicit Types (s t l cur pre post : list N) (c x y : N).

(** [str.isspace] holds of the white space of Unicode. *)
Lemma isspace_spec c : Py.isspace c = true ↔ white_space c.
Proof.
  unfold Py.isspace, Py.whitespace, white_space.
  rewrite bool_decide_eq_true, !elem_of_cons, elem_of_nil. lia.
Qed.

Lemma isspace_false c : Py.isspace c = false ↔ ¬ white_space c.
Proof. rewrite <-isspace_spec. by destruct (Py.isspace c). Qed.

Lemma no_space_app s t : no_space (s ++ t) ↔ no_space s ∧ no_space t.
Proof. apply Forall_app. Qed.

Lemma no_space_not_ends s : no_space s → ¬ ends_with_space s.
Proof.
  intros H (p & x & -> & Hx). apply no_space_app in H as [_ H].
  by inversion H.
Qed.

Lemma no_space_not_starts s : no_space s → ¬ starts_with_space s.
Proof. intros H (x & q & -> & Hx). by inversion H. Qed.

Lemma snoc_case s : s = [] ∨ ∃ p x, s = p ++ [x].
Proof. destruct s as [|x s] using rev_ind; [by left|right; eauto]. Qed.

(** A text without white space has one token, itself. *)
Lemma is_token_no_space s t : no_space s → is_token s t ↔ t = s ∧ s ≠ [].
Proof.
  intros Hs. split.
  - intros (Ht & _ & pre & post & -> & Hpre & Hpost).
    apply no_space_app in Hs as [Hs1 Hs2]. apply no_space_app in Hs2 as [_ Hs2].
    destruct Hpre as [->|Hpre]; [|by apply no_space_not_ends in Hpre].
    destruct Hpost as [->|Hpost]; [|by apply no_space_not_starts in Hpost].
    rewrite app_nil_r. simpl. split; [done|]. by destruct t.
  - intros [-> Hne]. split; [done|]. split; [done|].
    exists [], []. rewrite app_nil_r. auto.
Qed.

Lemma is_token_after_space cur x s t :
  no_space cur → white_space x →
  is_token (cur ++ x :: s) t ↔ (t = cur ∧ cur ≠ []) ∨ is_token s t.
Proof.
  intros Hcur Hx. split.
  - intros (Ht & Hns & pre & post & Heq & Hpre & Hpost).
    apply app_eq_app in Heq as [l [[-> Heq]|[-> Heq]]].
    + apply no_space_app in Hcur as [Hp Hl].
      destruct Hpre as [->|Hpre]; [|by apply no_space_not_ends in Hpre].
      simpl in *. left.
      symmetry in Heq. apply app_eq_app in Heq as [l2 [[-> Heq]|[-> Heq]]].
      * destruct l2 as [|y l2].
        -- rewrite app_nil_r in *. by destruct t.
        -- destruct Hpost as [->|(z & q & -> & Hz)]; [done|].
           injection Heq as -> _.
           apply no_space_app in Hl as [_ Hl]. by inversion Hl.
      * destruct l2 as [|y l2].
        -- rewrite app_nil_r in *. by destruct l.
        -- injection Heq as <- _.
           apply no_space_app in Hns as [_ Hns]. by inversion Hns.
    + right. destruct l as [|y l].
      * simpl in Heq. destruct t as [|z t]; [done|].
        injection Heq as -> _. by inversion Hns.
      * injection Heq as -> ->.
        split; [done|]. split; [done|]. exists l, post. split; [done|].
        split; [|done].
        destruct (snoc_case l) as [->|(p & z & ->)]; [by left|right].
        exists p, z. split; [done|].
        destruct Hpre as [Hpre|(p' & z' & Hpre & Hz')].
        { by apply app_eq_nil in Hpre as [_ ?]. }
        rewrite app_comm_cons, app_assoc in Hpre.
        apply app_inj_tail in Hpre as [_ ->]. done.
  - intros [[-> Hne]|(Ht & Hns & pre & post & -> & Hpre & Hpost)].
    + split; [done|]. split; [done|]. exists [], (x :: s).
      split; [done|]. split; [by left|]. right. by exists x, s.
    + split; [done|]. split; [done|].
      exists (cur ++ x :: pre), post. split.
      { by rewrite <-app_assoc. }
      split; [right|done].
      destruct Hpre as [->|(p & z & -> & Hz)].
      * by exists cur, x.
      * exists (cur ++ x :: p), z. split; [|done].
        by rewrite <-app_assoc.
Qed.

Lemma split_go_spec cur s t :
  no_space cur → t ∈ Py.split_go cur s ↔ is_token (cur ++ s) t.
Proof.
  revert cur. induction s as [|x s IH]; intros cur Hcur.
  - rewrite app_nil_r, is_token_no_space by done. simpl.
    case_decide as Hc.
    + subst. rewrite elem_of_nil. intuition congruence.
    + rewrite list_elem_of_singleton. intuition congruence.
  - simpl. destruct (Py.isspace x) eqn:Hx.
    + apply isspace_spec in Hx.
      rewrite is_token_after_space by done.
      rewrite elem_of_app, (IH []) by constructor. simpl.
      case_decide as Hc.
      * subst. rewrite elem_of_nil. intuition congruence.
      * rewrite list_elem_of_singleton. intuition congruence.
    + apply isspace_false in Hx. rewrite IH.
      * by rewrite <-app_assoc.
      * apply no_space_app. split; [done|]. by repeat constructor.
Qed.

(** [s.split()] lists exactly the white-space delimited tokens of [s]. *)
Lemma split_points_spec s t : t ∈ Py.split_points s ↔ is_token s t.
Proof. unfold Py.split_points. by rewrite split_go_spec by constructor. Qed.

Lemma is_token_sub s t c : is_token s t → c ∈ t → c ∈ s.
Proof.
  intros (_ & _ & pre & post & -> & _) Hc. rewrite !elem_of_app. auto.
Qed.

Lemma is_token_scalars s t : scalars s → is_token s t → scalars t.
Proof.
  unfold scalars. rewrite !Forall_forall. intros Hs Ht c Hc.
  eapply Hs, is_token_sub; done.
Qed.

Lemma split_go_no_space cur s :
  no_space s →
  Py.split_go cur s = if decide (cur ++ s = []) then [] else [cur ++ s].
Proof.
  revert cur. induction s as [|x s IH]; intros cur Hs.
  - simpl. rewrite app_nil_r. done.
  - inversion Hs as [|? ? Hx Hs']; subst. apply isspace_false in Hx.
    simpl. rewrite Hx, IH by done. rewrite <-app_assoc. done.
Qed.

Lemma split_go_app_space cur l x s :
  no_space l → white_space x →
  Py.split_go cur (l ++ x :: s)
  = (if decide (cur ++ l = []) then [] else [cur ++ l]) ++ Py.split_go [] s.
Proof.
  revert cur. induction l as [|y l IH]; intros cur Hl Hx.
  - simpl. apply isspace_spec in Hx. rewrite Hx, app_nil_r. done.
  - inversion Hl as [|? ? Hy Hl']; subst. apply isspace_false in Hy.
    simpl. rewrite Hy, IH by done. rewrite <-app_assoc. done.
Qed.

(** A text has no white space, or a first one. *)
Lemma first_space s :
  no_space s ∨ ∃ l x r, s = l ++ x :: r ∧ no_space l ∧ white_space x.
Proof.
  induction s as [|c s [IH|(l & x & r & -> & Hl & Hx)]].
  - left. constructor.
  - destruct (Py.isspace c) eqn:Hc.
    + right. exists [], c, s. apply isspace_spec in Hc.
      split; [done|]. split; [constructor|done].
    + left. apply isspace_false in Hc. by constructor.
  - right. destruct (Py.isspace c) eqn:Hc.
    + exists [], c, (l ++ x :: r). apply isspace_spec in Hc.
      split; [done|]. split; [constructor|done].
    + exists (c :: l), x, r. apply isspace_false in Hc.
      split; [done|]. split; [by constructor|done].
Qed.

(** A text of white space has no token. *)
Lemma split_all_space s : all_space s → Py.split_points s = [].
Proof.
  unfold Py.split_points. induction 1 as [|c s Hc _ IH]; [done|].
  apply isspace_spec in Hc. simpl. by rewrite Hc.
Qed.
End tokens.

Section strip.
Local Open Scope N_scope.
Implicit Types (s t l : list N) (c x y : N).

Lemma lstrip_all_space l s :
  all_space l → ¬ starts_with_space s →
  Py.lstrip_points (l ++ s) = s.
Proof.
  intros Hl Hs. induction Hl as [|c l Hc _ IH]; simpl.
  - destruct s as [|c s]; [done|]. simpl.
    destruct (Py.isspace c) eqn:Hc; [|done].
    apply isspace_spec in Hc. destruct Hs. by exists c, s.
  - apply isspace_spec in Hc. by rewrite Hc.
Qed.

Lemma lstrip_spec s :
  ∃ l, s = l ++ Py.lstrip_points s ∧ all_space l
       ∧ ¬ starts_with_space (Py.lstrip_points s).
Proof.
  induction s as [|x s (l & Hs & Hl & Hn)]; simpl.
  - exists []. split; [done|]. split; [constructor|]. by intros (? & ? & ? & ?).
  - destruct (Py.isspace x) eqn:Hx.
    + exists (x :: l). apply isspace_spec in Hx.
      split; [by rewrite <-app_comm_cons, <-Hs|]. split; [by constructor|done].
    + exists []. split; [done|]. split; [constructor|].
      apply isspace_false in Hx. by intros (y & q & [= -> ->] & Hy).
Qed.

Lemma rstrip_cons c s :
  ¬ white_space c → Py.rstrip_points (c :: s) = c :: Py.rstrip_points s.
Proof.
  intros Hc. apply isspace_false in Hc. simpl.
  destruct (Py.rstrip_points s); [by rewrite Hc|done].
Qed.

Lemma rstrip_spec s :
  ∃ r, s = Py.rstrip_points s ++ r ∧ all_space r.
Proof.
  induction s as [|x s (r & Hs & Hr)]; simpl.
  - exists []. split; [done|constructor].
  - destruct (Py.rstrip_points s) as [|d q] eqn:Hrs.
    + simpl in Hs. subst r. destruct (Py.isspace x) eqn:Hx.
      * exists (x :: s). apply isspace_spec in Hx. split; [done|by constructor].
      * exists s. done.
    + exists r. split; [by rewrite <-app_comm_cons, <-Hs|done].
Qed.
End strip.

(** *** Lowercase *)

Section lower.
Local Open Scope N_scope.
Implicit Types (s t l b a : list N) (c x y : N).

Lemma lower_table_checked : forallb check_entry Py.lower_table = true.
Proof. vm_compute. reflexivity. Qed.

Lemma whitespace_checked : forallb check_space Py.whitespace = true.
Proof. vm_compute. reflexivity. Qed.

Lemma lowercase_b_spec c : lowercase_b c = true → lowercase c.
Proof.
  unfold lowercase_b, lowercase. intros H.
  apply andb_true_iff in H as [H1 H2].
  destruct (Py.to_lower_full c) as [|c' [|]]; try done.
  apply N.eqb_eq in H1 as ->. apply negb_true_iff, N.eqb_neq in H2. done.
Qed.

Lemma lookup_table_Some c table v :
  Py.lookup_table c table = Some v → (c, v) ∈ table.
Proof.
  induction table as [|[k v'] table IH]; simpl; [done|].
  destruct (N.eqb_spec c k) as [->|_].
  - intros [= ->]. left.
  - intros H. right. auto.
Qed.

Lemma lower_table_entry c v :
  (c, v) ∈ Py.lower_table →
  128 ≤ c ∧ v ≠ [] ∧ scalars v ∧ no_space v ∧ Forall lowercase v
  ∧ ∀ x, head v = Some x → x ≠ 121 ∧ x ≠ 101 ∧ x ≠ 115.
Proof.
  intros Hin. pose proof lower_table_checked as H.
  rewrite forallb_forall in H. apply list_elem_of_In, H in Hin.
  unfold check_entry in Hin. simpl in Hin.
  apply andb_true_iff in Hin as [Hin H3]. apply andb_true_iff in Hin as [H1 H2].
  apply N.leb_le in H1. split; [done|].
  rewrite forallb_forall in H3.
  assert (Hall : ∀ x, x ∈ v → Py.is_scalar x = true ∧ ¬ white_space x ∧ lowercase x).
  { intros x Hx. apply list_elem_of_In, H3 in Hx.
    apply andb_true_iff in Hx as [Hx Hl]. apply andb_true_iff in Hx as [Hs Hw].
    split; [done|]. split; [|by apply lowercase_b_spec].
    by apply isspace_false, negb_true_iff. }
  split; [by destruct v|].
  split; [apply Forall_forall; intros; by apply Hall|].
  split; [apply Forall_forall; intros; by apply Hall|].
  split; [apply Forall_forall; intros; by apply Hall|].
  intros x Hx. destruct v as [|x' v]; [done|]. injection Hx as ->.
  apply andb_true_iff in H2 as [H2 Hs]. apply andb_true_iff in H2 as [Hy He].
  apply negb_true_iff, N.eqb_neq in Hy, He, Hs. done.
Qed.

(** White space is neither cased nor case-ignorable, and has no other
    lowercase. *)
Lemma white_space_facts c :
  white_space c →
  Py.in_ranges c Py.case_ignorable = false ∧ Py.in_ranges c Py.cased = false
  ∧ lowercase c.
Proof.
  intros Hc. apply isspace_spec in Hc. unfold Py.isspace in Hc.
  apply bool_decide_eq_true in Hc. pose proof whitespace_checked as H.
  rewrite forallb_forall in H. apply list_elem_of_In, H in Hc.
  unfold check_space in Hc.
  apply andb_true_iff in Hc as [Hc H3]. apply andb_true_iff in Hc as [H1 H2].
  apply negb_true_iff in H1, H2. by apply lowercase_b_spec in H3.
Qed.

Lemma to_lower_full_ascii c : c < 128 → Py.to_lower_full c = [ascii_lower c].
Proof.
  intros H. unfold Py.to_lower_full, ascii_lower. cmp.
  by destruct ((65 <=? c) && (c <=? 90)).
Qed.

Lemma ascii_lower_cases c :
  (65 ≤ c ≤ 90 ∧ ascii_lower c = c + 32) ∨ (¬ 65 ≤ c ≤ 90 ∧ ascii_lower c = c).
Proof.
  unfold ascii_lower.
  destruct (N.leb_spec 65 c), (N.leb_spec c 90); simpl; lia.
Qed.

(** The four ways one code point is lowercased. *)
Lemma lower_one_cases b c a :
  (c = 931 ∧ (Py.lower_one b c a = [962] ∨ Py.lower_one b c a = [963]))
  ∨ (c < 128 ∧ Py.lower_one b c a = [ascii_lower c])
  ∨ (128 ≤ c ∧ c ≠ 931 ∧ Py.to_lower_full c = [c] ∧ Py.lower_one b c a = [c])
  ∨ (128 ≤ c ∧ c ≠ 931 ∧ ∃ v, (c, v) ∈ Py.lower_table ∧ Py.lower_one b c a = v).
Proof.
  unfold Py.lower_one. destruct (N.eqb_spec c 931) as [->|Hne].
  { left. split; [done|]. destruct (Py.final_sigma b a); auto. }
  right. destruct (N.ltb_spec c 128) as [Hlt|Hge].
  { left. split; [done|]. by apply to_lower_full_ascii. }
  right. unfold Py.to_lower_full. cmp.
  destruct (Py.lookup_table c Py.lower_table) as [v|] eqn:Hv; simpl.
  - right. apply lookup_table_Some in Hv. eauto.
  - left. done.
Qed.

Lemma lowercase_ascii c : c < 128 → lowercase c ↔ ¬ 65 ≤ c ≤ 90.
Proof.
  intros H. unfold lowercase. rewrite to_lower_full_ascii by done.
  destruct (ascii_lower_cases c) as [[? ->]|[? ->]]; split; intros; try lia.
  - destruct H1 as [[= ?] _]. lia.
  - split; [done|lia].
Qed.

Lemma lower_one_not_nil b c a : Py.lower_one b c a ≠ [].
Proof.
  destruct (lower_one_cases b c a)
    as [[_ [->| ->]]|[[_ ->]|[(_ & _ & _ & ->)|(_ & _ & v & Hv & ->)]]]; try done.
  by apply lower_table_entry in Hv as (_ & ? & _).
Qed.

Lemma lower_one_scalars b c a :
  Py.is_scalar c = true → scalars (Py.lower_one b c a).
Proof.
  intros Hc.
  destruct (lower_one_cases b c a)
    as [[_ [->| ->]]|[[Hlt ->]|[(_ & _ & _ & ->)|(_ & _ & v & Hv & ->)]]];
    try (by apply Forall_singleton).
  - apply Forall_singleton. apply is_scalar_spec.
    destruct (ascii_lower_cases c) as [[? ->]|[? ->]]; lia.
  - by apply lower_table_entry in Hv as (_ & _ & ? & _).
Qed.

Lemma lower_one_lowercase b c a : Forall lowercase (Py.lower_one b c a).
Proof.
  destruct (lower_one_cases b c a)
    as [[_ [->| ->]]|[[Hlt ->]|[(_ & ? & ? & ->)|(_ & _ & v & Hv & ->)]]].
  - apply Forall_singleton. split; [by vm_compute|done].
  - apply Forall_singleton. split; [by vm_compute|done].
  - apply Forall_singleton. apply lowercase_ascii;
      destruct (ascii_lower_cases c) as [[? ->]|[? ->]]; lia.
  - by apply Forall_singleton.
  - by apply lower_table_entry in Hv as (_ & _ & _ & _ & ? & _).
Qed.

Lemma lower_one_no_space b c a :
  ¬ white_space c → no_space (Py.lower_one b c a).
Proof.
  intros Hc.
  destruct (lower_one_cases b c a)
    as [[_ [->| ->]]|[[Hlt ->]|[(_ & ? & ? & ->)|(_ & _ & v & Hv & ->)]]].
  - apply Forall_singleton. unfold white_space. lia.
  - apply Forall_singleton. unfold white_space. lia.
  - apply Forall_singleton. unfold white_space in *.
    destruct (ascii_lower_cases c) as [[? ->]|[? ->]]; lia.
  - by apply Forall_singleton.
  - by apply lower_table_entry in Hv as (_ & _ & _ & ? & _).
Qed.

Lemma lower_one_lowercase_in b c a : lowercase c → Py.lower_one b c a = [c].
Proof.
  intros [H1 H2]. unfold Py.lower_one.
  by destruct (N.eqb_spec c 931).
Qed.

Lemma lower_one_space b c a : white_space c → Py.lower_one b c a = [c].
Proof. intros Hc. by apply lower_one_lowercase_in, white_space_facts. Qed.

(** Only [Y], [E] and [S] give the lowercase letters [y], [e] and [s]. *)
Lemma lower_one_head b c a x :
  x = 121 ∨ x = 101 ∨ x = 115 →
  head (Py.lower_one b c a) = Some x ↔ c = x ∨ c = x - 32.
Proof.
  intros Hx.
  destruct (lower_one_cases b c a)
    as [[-> [->| ->]]|[[Hlt ->]|[(? & ? & ? & ->)|(? & _ & v & Hv & ->)]]];
    simpl.
  - split; [intros [= ?]|]; lia.
  - split; [intros [= ?]|]; lia.
  - destruct (ascii_lower_cases c) as [[? ->]|[? ->]];
      (split; [intros [= ?]; lia|intros ?; f_equal; lia]).
  - split; [intros [= ?]|]; lia.
  - apply lower_table_entry in Hv as (_ & _ & _ & _ & _ & Hv).
    split; [|lia]. intros H'. apply Hv in H'. lia.
Qed.

Lemma lower_one_letter b c a x :
  x = 121 ∨ x = 101 ∨ x = 115 → c = x ∨ c = x - 32 →
  Py.lower_one b c a = [x].
Proof.
  intros Hx Hc. assert (c < 128) by lia.
  assert (c ≠ 931) by lia.
  unfold Py.lower_one. destruct (N.eqb_spec c 931); [done|].
  rewrite to_lower_full_ascii by done. f_equal.
  destruct (ascii_lower_cases c) as [[? ->]|[? ->]]; lia.
Qed.

Lemma lower_go_nil b s : Py.lower_go b s = [] ↔ s = [].
Proof.
  destruct s as [|c s]; [done|]. simpl. split; [|done].
  intros H. apply app_eq_nil in H as [H _]. by apply lower_one_not_nil in H.
Qed.

Lemma lower_go_scalars b s : scalars s → scalars (Py.lower_go b s).
Proof.
  intros H. revert b. induction H as [|c s Hc _ IH]; intros b; simpl.
  - constructor.
  - apply Forall_app. split; [by apply lower_one_scalars|apply IH].
Qed.

Lemma lower_go_lowercase b s : Forall lowercase (Py.lower_go b s).
Proof.
  revert b. induction s as [|c s IH]; intros b; simpl.
  - constructor.
  - apply Forall_app. split; [apply lower_one_lowercase|apply IH].
Qed.

Lemma lower_go_no_space b s : no_space s → no_space (Py.lower_go b s).
Proof.
  intros H. revert b. induction H as [|c s Hc _ IH]; intros b; simpl.
  - constructor.
  - apply Forall_app. split; [by apply lower_one_no_space|apply IH].
Qed.

(** Lowercase text is left as it is. *)
Lemma lower_go_fixed b s : Forall lowercase s → Py.lower_go b s = s.
Proof.
  intros H. revert b. induction H as [|c s Hc _ IH]; intros b; simpl; [done|].
  by rewrite lower_one_lowercase_in, IH.
Qed.

(** On ASCII text, [str.lower] moves [A] to [Z] and nothing else. *)
Lemma lower_go_ascii b s :
  Forall (λ c, c < 128) s → Py.lower_go b s = ascii_lower <$> s.
Proof.
  intros H. revert b. induction H as [|c s Hc _ IH]; intros b; simpl; [done|].
  rewrite IH. unfold Py.lower_one. destruct (N.eqb_spec c 931); [lia|].
  by rewrite to_lower_full_ascii.
Qed.

Lemma lower_go_letter b s x rest :
  x = 121 ∨ x = 101 ∨ x = 115 →
  Py.lower_go b s = x :: rest ↔
  ∃ c s', s = c :: s' ∧ (c = x ∨ c = x - 32) ∧ rest = Py.lower_go (c :: b) s'.
Proof.
  intros Hx. split.
  - destruct s as [|c s']; [done|]. simpl. intros H.
    assert (Hh : head (Py.lower_one b c s') = Some x).
    { pose proof (lower_one_not_nil b c s').
      destruct (Py.lower_one b c s'); [done|]. by injection H as -> _. }
    apply lower_one_head in Hh; [|done].
    rewrite (lower_one_letter b c s' x) in H by done.
    injection H as <-. eauto.
  - intros (c & s' & -> & Hc & ->). simpl.
    by rewrite (lower_one_letter b c s' x).
Qed.

(** *** White space bounds the context of the final-sigma rule *)

Lemma cased_next_barrier a x l :
  white_space x → Py.cased_next (a ++ x :: l) = Py.cased_next a.
Proof.
  intros Hx. apply white_space_facts in Hx as (Hi & Hc & _).
  unfold Py.cased_next.
  induction a as [|c a IH]; cbn [app Py.skip_ignorable].
  - by rewrite Hi, Hc.
  - destruct (Py.in_ranges c Py.case_ignorable); [apply IH|done].
Qed.

Lemma lower_go_before b1 b2 s :
  (∀ p, Py.cased_next (p ++ b1) = Py.cased_next (p ++ b2)) →
  Py.lower_go b1 s = Py.lower_go b2 s.
Proof.
  revert b1 b2. induction s as [|c s IH]; intros b1 b2 H; simpl; [done|].
  f_equal.
  - unfold Py.lower_one, Py.final_sigma. by rewrite (H [] : Py.cased_next b1 = _).
  - apply IH. intros p. by rewrite !(cons_middle c), !app_assoc.
Qed.

Lemma lower_go_after_space b x s :
  white_space x → Py.lower_go (x :: b) s = Py.lower_go [] s.
Proof.
  intros Hx. apply lower_go_before. intros p.
  by rewrite cased_next_barrier, app_nil_r.
Qed.

Lemma lower_go_app_space b l x r :
  white_space x →
  Py.lower_go b (l ++ x :: r) = Py.lower_go b l ++ x :: Py.lower_go [] r.
Proof.
  intros Hx. revert b. induction l as [|c l IH]; intros b; simpl.
  - by rewrite lower_one_space, lower_go_after_space.
  - rewrite IH, <-app_assoc. f_equal.
    unfold Py.lower_one, Py.final_sigma. by rewrite cased_next_barrier.
Qed.

Lemma split_lower_upto (n : nat) s :
  (length s ≤ n)%nat →
  Py.split_points (Py.lower_points s)
  = Py.lower_points <$> Py.split_points s.
Proof.
  unfold Py.split_points, Py.lower_points.
  revert s. induction n as [|n IH]; intros s Hn.
  { destruct s; [done|simpl in Hn; lia]. }
  destruct (first_space s) as [Hs|(l & x & r & -> & Hl & Hx)].
  - rewrite !split_go_no_space by (done || by apply lower_go_no_space).
    simpl. repeat case_decide; try done.
    + by apply lower_go_nil in H.
    + by subst.
  - rewrite lower_go_app_space by done.
    rewrite !split_go_app_space by (done || by apply lower_go_no_space).
    rewrite fmap_app, IH by (rewrite length_app in Hn; simpl in Hn; lia).
    f_equal. simpl. repeat case_decide; try done.
    + by apply lower_go_nil in H.
    + by subst.
Qed.

(** Lowercasing before or after splitting is the same. *)
Lemma split_lower_points s :
  Py.split_points (Py.lower_points s)
  = Py.lower_points <$> Py.split_points s.
Proof. by apply (split_lower_upto (length s)). Qed.
End lower.

(** *** The builtins on strings *)

Section text.
Local Open Scope N_scope.
Implicit Types (s word : string) (l t : list N) (c x y : N).

Lemma decode_lower s : Py.decode (Py.lower s) = Py.lower_points (Py.decode s).
Proof. apply decode_encode, lower_go_scalars, decode_scalars. Qed.

Lemma strip_points_scalars l : scalars l → scalars (Py.strip_points l).
Proof.
  intros Hl. unfold Py.strip_points.
  destruct (lstrip_spec l) as (l0 & Hs & _).
  destruct (rstrip_spec (Py.lstrip_points l)) as (r & Hs' & _).
  rewrite Hs, Hs' in Hl. apply Forall_app in Hl as [_ Hl].
  by apply Forall_app in Hl as [Hl _].
Qed.

Lemma decode_strip s : Py.decode (Py.strip s) = Py.strip_points (Py.decode s).
Proof. apply decode_encode, strip_points_scalars, decode_scalars. Qed.

(** The words [s.split()] gives are the tokens of [s]. *)
Lemma elem_of_split s word :
  word ∈ Py.split s ↔ ∃ t, is_token (Py.decode s) t ∧ word = Py.encode t.
Proof.
  unfold Py.split. rewrite list_elem_of_fmap.
  split.
  - intros (t & -> & Ht%split_points_spec). eauto.
  - intros (t & Ht%split_points_spec & ->). eauto.
Qed.

Lemma split_decode s t : t ∈ Py.split_points (Py.decode s) → scalars t.
Proof.
  intros Ht%split_points_spec. eapply is_token_scalars; [|done].
  apply decode_scalars.
Qed.

(** Lowercasing before or after splitting is the same. *)
Lemma split_lower s : Py.split (Py.lower s) = Py.lower <$> Py.split s.
Proof.
  unfold Py.split. rewrite decode_lower, split_lower_points.
  rewrite <-!list_fmap_compose. apply Forall_fmap_ext, Forall_forall.
  intros t Ht. simpl. unfold Py.lower.
  by rewrite decode_encode by (by eapply split_decode).
Qed.

Lemma prefix_yes s :
  String.prefix "yes" s = true ↔ ∃ r, s = "yes" +:+ r.
Proof.
  split.
  - destruct s as [|x1 [|x2 [|x3 r]]]; cbn [String.prefix];
      repeat (destruct (ascii_dec _ _) as [<-|]; [|done]); try done.
    intros _. by exists r.
  - intros [r ->]. rewrite !str_app_cons, str_app_nil_l. cbn [String.prefix].
    repeat (destruct (ascii_dec _ _); [|congruence]).
    by destruct r.
Qed.

Lemma startswith_encode_yes l :
  scalars l →
  Py.startswith (Py.encode l) "yes" = true ↔ ∃ rest, l = 121 :: 101 :: 115 :: rest.
Proof.
  intros Hl. unfold Py.startswith. rewrite prefix_yes. split.
  - intros [r Hr]. apply (f_equal Py.decode) in Hr.
    rewrite decode_encode in Hr by done. subst l.
    exists (Py.decode r). reflexivity.
  - intros [rest ->]. exists (Py.encode rest). reflexivity.
Qed.

Lemma strip_points_yes l y e c :
  ¬ white_space y → ¬ white_space e → ¬ white_space c →
  (∃ r', Py.strip_points l = y :: e :: c :: r') ↔
  ∃ l0 rest, l = l0 ++ y :: e :: c :: rest ∧ all_space l0.
Proof.
  intros Hy He Hc. unfold Py.strip_points. split.
  - intros [r' H].
    destruct (lstrip_spec l) as (l0 & Hl & Hl0 & _).
    destruct (rstrip_spec (Py.lstrip_points l)) as (r0 & Hr & _).
    rewrite H in Hr. rewrite Hr in Hl. exists l0, (r' ++ r0). done.
  - intros (l0 & rest & -> & Hl0).
    rewrite lstrip_all_space; [|done|].
    + rewrite !rstrip_cons by done. eauto.
    + by intros (? & ? & [= <- _] & ?).
Qed.

(** The test of line 83, on the text of the answer. *)
Lemma startswith_lower_strip_yes s :
  Py.startswith (Py.lower (Py.strip s)) "yes" = true
  ↔ begins_with_yes (Py.decode s).
Proof.
  unfold Py.lower at 1. rewrite decode_strip.
  rewrite startswith_encode_yes
    by apply lower_go_scalars, strip_points_scalars, decode_scalars.
  unfold Py.lower_points, begins_with_yes. split.
  - intros [rest H].
    apply lower_go_letter in H as (y & s1 & H1 & Hy & H); [|auto].
    symmetry in H.
    apply lower_go_letter in H as (e & s2 & -> & He & H); [|auto].
    symmetry in H.
    apply lower_go_letter in H as (c & s3 & -> & Hc & _); [|auto].
    destruct (proj1 (strip_points_yes (Py.decode s) y e c
      ltac:(unfold white_space; lia) ltac:(unfold white_space; lia)
      ltac:(unfold white_space; lia)) (ex_intro _ _ H1))
      as (l0 & rest' & Hl & Hl0).
    exists l0, y, e, c, rest'. split_and!; [done|done|lia..].
  - intros (l0 & y & e & c & rest & Hl & Hl0 & Hy & He & Hc).
    destruct (proj2 (strip_points_yes (Py.decode s) y e c
      ltac:(unfold white_space; lia) ltac:(unfold white_space; lia)
      ltac:(unfold white_space; lia)) (ex_intro _ _ (ex_intro _ _ (conj Hl Hl0))))
      as [r' ->].
    eexists. apply lower_go_letter; [auto|].
    eexists _, _. split; [done|]. split; [lia|].
    symmetry. apply lower_go_letter; [auto|].
    eexists _, _. split; [done|]. split; [lia|].
    symmetry. apply lower_go_letter; [auto|].
    eexists _, _. split; [done|]. split; [lia|]. done.
Qed.

(** A word of lowercase code points is its own lowercase. *)
Lemma lower_fixed l : scalars l → Forall lowercase l → Py.lower (Py.encode l) = Py.encode l.
Proof.
  intros Hs Hl. unfold Py.lower, Py.lower_points.
  by rewrite decode_encode, lower_go_fixed.
Qed.
End text.

(** ** Running the handlers *)

Ltac unfold_M :=
  unfold def, when, try_except, model_generate_content, call, print, emit,
    read, modify, return_, raise, mbind, M_bind, mret, M_ret.

Lemma is_offensive_content_run w s c :
  is_offensive_content c w s =
  (Value (classify w c), extend s (classification_events w c)).
Proof.
  unfold is_offensive_content, classify, classification_events, extend.
  unfold_M. simpl.
  destruct (generate_content w (prompt_of c)); simpl; [done|].
  by rewrite <-app_assoc.
Qed.

(** The paths through [on_message], from any store. *)
Lemma on_message_run w s message :
  on_message message w s =
  match guild message with
  | None => (Value tt, s)
  | Some gld =>
      if user_bot (author message)
         || bool_decide (user_id (author message) ∈ blacklist (globals s))
      then (Value tt, s)
      else
        let s1 :=
          if default false (auto_moderation_config (globals s) !! Py.str (guild_id gld))
          then extend s (classification_events w (content message)) else s in
        if offensive_fires w (globals s) gld message
        then def (remove_offensive gld message) w s1
        else
          match flagged_warning (globals s) gld message with
          | Some text => def (remove_flagged text) w s1
          | None => call ProcessCommands w s1
          end
  end.
Proof.
  unfold on_message, offensive_fires, flagged_warning.
  destruct (guild message) as [gld|]; [|done].
  unfold def, when, read, return_, mbind, M_bind, mret, M_ret. simpl.
  destruct (user_bot (author message) || _); [done|].
  assert (Hcall : ∀ s',
    (let (o, s'') := call ProcessCommands w s' in
     match o with
     | Value a => (Value a, s'')
     | Returned => (Value tt, s'')
     | Raised e => (Raised e, s'')
     end) = call ProcessCommands w s').
  { intros s'. unfold call. by destruct (discord w ProcessCommands). }
  destruct (default false (auto_moderation_config (globals s) !! _)); simpl.
  - rewrite is_offensive_content_run. simpl.
    destruct (classify w (content message)); simpl.
    { by destruct (remove_offensive _ _ _ _) as [[[]| |] ?]. }
    destruct (flagged_words (globals s) !! _) as [config|]; simpl; [|apply Hcall].
    destruct (is_global config || is_correct_channel config message);
      simpl; [|apply Hcall].
    case_bool_decide; simpl; [|apply Hcall].
    by destruct (remove_flagged _ _ _) as [[[]| |] ?].
  - destruct (flagged_words (globals s) !! _) as [config|]; simpl; [|apply Hcall].
    destruct (is_global config || is_correct_channel config message);
      simpl; [|apply Hcall].
    case_bool_decide; simpl; [|apply Hcall].
    by destruct (remove_flagged _ _ _) as [[[]| |] ?].
Qed.

(** ** The log is append-only *)

Create HintDb handler.

Section framing.
Context {A B : Type}.

Lemma framed_ret (a : A) : framed (mret a).
Proof. intros w [g l]. unfold mret, M_ret, clear. simpl. by rewrite app_nil_r. Qed.

Lemma framed_return : framed (@return_ A).
Proof. intros w [g l]. unfold return_, clear. simpl. by rewrite app_nil_r. Qed.

Lemma framed_raise e : framed (@raise A e).
Proof. intros w [g l]. unfold raise, clear. simpl. by rewrite app_nil_r. Qed.

Lemma framed_read (f : Globals → A) : framed (read f).
Proof. intros w [g l]. unfold read, clear. simpl. by rewrite app_nil_r. Qed.

Lemma framed_bind (m : M A) (f : A → M B) :
  framed m → (∀ a, framed (f a)) → framed (m ≫= f).
Proof.
  intros Hm Hf w s. unfold mbind, M_bind.
  rewrite (Hm w s). destruct (m w (clear s)) as [[a| |e] [g1 l1]]; simpl; [|done..].
  rewrite (Hf a w {| globals := g1; log := log s ++ l1 |}).
  rewrite (Hf a w {| globals := g1; log := l1 |}). unfold clear. simpl.
  by rewrite app_assoc.
Qed.

Lemma framed_try (m : M A) (h : exn → option (M A)) :
  framed m → (∀ e k, h e = Some k → framed k) → framed (try_except m h).
Proof.
  intros Hm Hh w s. unfold try_except.
  rewrite (Hm w s). destruct (m w (clear s)) as [[a| |e] [g1 l1]]; simpl; [done..|].
  destruct (h e) as [k|] eqn:Hk; [|done].
  rewrite (Hh e k Hk w {| globals := g1; log := log s ++ l1 |}).
  rewrite (Hh e k Hk w {| globals := g1; log := l1 |}). unfold clear. simpl.
  by rewrite app_assoc.
Qed.
End framing.

Lemma framed_def (m : M unit) : framed m → framed (def m).
Proof.
  intros Hm w s. unfold def. rewrite (Hm w s).
  by destruct (m w (clear s)) as [[a| |e] [g1 l1]].
Qed.

Lemma framed_when c (m : M unit) : framed m → framed (when c m).
Proof. intros Hm. destruct c; simpl; [done|]. apply framed_ret. Qed.

Lemma framed_modify f : framed (modify f).
Proof. intros w [g l]. unfold modify, clear. simpl. by rewrite app_nil_r. Qed.

Lemma framed_emit ev : framed (emit ev).
Proof. by intros w [g l]. Qed.

Lemma framed_call r : framed (call r).
Proof. intros w [g l]. unfold call, clear. simpl. by destruct (discord w r). Qed.

Lemma framed_model_generate_content p : framed (model_generate_content p).
Proof.
  intros w [g l]. unfold model_generate_content, clear. simpl.
  by destruct (generate_content w p).
Qed.

#[local] Hint Resolve framed_ret framed_return framed_raise framed_read framed_bind
  framed_def framed_when framed_modify framed_emit framed_call
  framed_model_generate_content : handler.

Lemma framed_is_offensive_content c : framed (is_offensive_content c).
Proof.
  unfold is_offensive_content. apply framed_try.
  - auto with handler.
  - intros e k [= <-]. unfold print. auto with handler.
Qed.

Lemma framed_remove_offensive gld message : framed (remove_offensive gld message).
Proof.
  unfold remove_offensive. apply framed_try.
  - auto with handler.
  - intros [] k [= <-]; unfold print; auto with handler.
Qed.

Lemma framed_remove_flagged text : framed (remove_flagged text).
Proof.
  unfold remove_flagged. apply framed_try.
  - auto with handler.
  - intros [] k [= <-]; auto with handler.
Qed.

#[local] Hint Resolve framed_is_offensive_content framed_remove_offensive
  framed_remove_flagged : handler.

Lemma framed_on_message message : framed (on_message message).
Proof.
  unfold on_message. apply framed_def.
  destruct (guild message) as [gld|]; [|auto with handler].
  repeat (apply framed_bind; [solve [auto 10 with handler]|intros ?]).
  apply framed_bind; [|auto with handler].
  destruct (_ !! _); auto 10 with handler.
Qed.

(** ** [on_message] only reads the globals *)

Section preserving.
Context {A B : Type}.

Lemma preserves_ret (a : A) : preserves_globals (mret a).
Proof. done. Qed.

Lemma preserves_return : preserves_globals (@return_ A).
Proof. done. Qed.

Lemma preserves_read (f : Globals → A) : preserves_globals (read f).
Proof. done. Qed.

Lemma preserves_bind (m : M A) (f : A → M B) :
  preserves_globals m → (∀ a, preserves_globals (f a)) →
  preserves_globals (m ≫= f).
Proof.
  intros Hm Hf w s. unfold mbind, M_bind. specialize (Hm w s).
  destruct (m w s) as [[a| |e] s1]; simpl in *; [|done..].
  by rewrite Hf.
Qed.

Lemma preserves_try (m : M A) (h : exn → option (M A)) :
  preserves_globals m → (∀ e k, h e = Some k → preserves_globals k) →
  preserves_globals (try_except m h).
Proof.
  intros Hm Hh w s. unfold try_except. specialize (Hm w s).
  destruct (m w s) as [[a| |e] s1]; simpl in *; [done..|].
  destruct (h e) as [k|] eqn:Hk; [|done]. by rewrite (Hh e k Hk).
Qed.
End preserving.

Lemma preserves_def (m : M unit) : preserves_globals m → preserves_globals (def m).
Proof.
  intros Hm w s. unfold def. specialize (Hm w s).
  by destruct (m w s) as [[a| |e] s1].
Qed.

Lemma preserves_when c (m : M unit) :
  preserves_globals m → preserves_globals (when c m).
Proof. by destruct c. Qed.

Lemma preserves_emit ev : preserves_globals (emit ev).
Proof. done. Qed.

Lemma preserves_call r : preserves_globals (call r).
Proof. intros w s. unfold call. by destruct (discord w r). Qed.

Lemma preserves_model_generate_content p :
  preserves_globals (model_generate_content p).
Proof. intros w s. unfold model_generate_content. by destruct (generate_content w p). Qed.

#[local] Hint Resolve preserves_ret preserves_return preserves_read preserves_bind
  preserves_def preserves_when preserves_emit preserves_call
  preserves_model_generate_content : handler.

Lemma preserves_is_offensive_content c : preserves_globals (is_offensive_content c).
Proof.
  unfold is_offensive_content. apply preserves_try.
  - auto with handler.
  - intros e k [= <-]. unfold print. auto with handler.
Qed.

Lemma preserves_remove_offensive gld message :
  preserves_globals (remove_offensive gld message).
Proof.
  unfold remove_offensive. apply preserves_try.
  - auto with handler.
  - intros [] k [= <-]; unfold print; auto with handler.
Qed.

Lemma preserves_remove_flagged text : preserves_globals (remove_flagged text).
Proof.
  unfold remove_flagged. apply preserves_try.
  - auto with handler.
  - intros [] k [= <-]; auto with handler.
Qed.

#[local] Hint Resolve preserves_is_offensive_content preserves_remove_offensive
  preserves_remove_flagged : handler.

Lemma preserves_on_message message : preserves_globals (on_message message).
Proof.
  unfold on_message. apply preserves_def.
  destruct (guild message) as [gld|]; [|auto with handler].
  repeat (apply preserves_bind; [solve [auto 10 with handler]|intros ?]).
  apply preserves_bind; [|auto with handler].
  destruct (_ !! _); auto 10 with handler.
Qed.

(** The slash command, by contrast, writes them. *)
Example moderation_writes :
  auto_moderation_config
    (globals_after (moderation {| interaction_guild := Some plastic_guild |} "Disable")
       (sample_world (inl "no") all_fine) (sample_globals true (rule true None [])))
    !! "42" = Some false.
Proof. vm_compute. reflexivity. Qed.

(** ** What a run looks like from outside *)

(** All the ways the removal of an offensive message can go. *)
Lemma observe_remove_offensive w g gld message :
  observe (remove_offensive gld message) w g =
  let warn := Send (removed_warning message) (Some 10) in
  let notice := Send (could_not_delete message) None in
  let fallback := [Printed (missing_permissions gld); Called notice] in
  match discord w Delete with
  | None =>
      match discord w warn with
      | None => (Value tt, [Called Delete; Called warn])
      | Some (Forbidden _) =>
          (call_outcome w notice, [Called Delete; Called warn] ++ fallback)
      | Some (NotFound _) => (Value tt, [Called Delete; Called warn])
      | Some (OtherException t) =>
          (Raised (OtherException t), [Called Delete; Called warn])
      end
  | Some (Forbidden _) => (call_outcome w notice, Called Delete :: fallback)
  | Some (NotFound _) => (Value tt, [Called Delete])
  | Some (OtherException t) => (Raised (OtherException t), [Called Delete])
  end.
Proof.
  unfold observe, remove_offensive, call_outcome, removed_warning,
    could_not_delete, missing_permissions.
  unfold_M. simpl.
  destruct (discord w Delete) as [[]|]; simpl;
    repeat (match goal with |- context [discord w ?r] =>
              destruct (discord w r) as [[]|]; simpl end); done.
Qed.

(** All the ways the removal of a message with a flagged word can go. *)
Lemma observe_remove_flagged w g text :
  observe (remove_flagged text) w g =
  let warn := Send text (Some 10) in
  let plain := Send text None in
  match discord w Delete with
  | None =>
      match discord w warn with
      | None => (Value tt, [Called Delete; Called warn])
      | Some (Forbidden _) =>
          (call_outcome w plain, [Called Delete; Called warn; Called plain])
      | Some (NotFound _) => (Value tt, [Called Delete; Called warn])
      | Some (OtherException t) =>
          (Raised (OtherException t), [Called Delete; Called warn])
      end
  | Some (Forbidden _) => (call_outcome w plain, [Called Delete; Called plain])
  | Some (NotFound _) => (Value tt, [Called Delete])
  | Some (OtherException t) => (Raised (OtherException t), [Called Delete])
  end.
Proof.
  unfold observe, remove_flagged, call_outcome.
  unfold_M. simpl.
  destruct (discord w Delete) as [[]|]; simpl;
    repeat (match goal with |- context [discord w ?r] =>
              destruct (discord w r) as [[]|]; simpl end); done.
Qed.

Lemma def_not_returned (m : M unit) w s :
  (m w s).1 ≠ Returned → def m w s = m w s.
Proof. unfold def. by destruct (m w s) as [[[]| |] ?]. Qed.

Lemma remove_offensive_not_returned gld message w s :
  (remove_offensive gld message w s).1 ≠ Returned.
Proof.
  rewrite framed_remove_offensive. simpl.
  pose proof (observe_remove_offensive w (globals s) gld message) as H.
  unfold observe in H. simpl in H. apply (f_equal fst) in H. simpl in H.
  unfold clear. rewrite H. unfold call_outcome.
  repeat (match goal with |- context [discord w ?r] =>
            destruct (discord w r) as [[]|]; simpl end); done.
Qed.

Lemma remove_flagged_not_returned text w s :
  (remove_flagged text w s).1 ≠ Returned.
Proof.
  rewrite framed_remove_flagged. simpl.
  pose proof (observe_remove_flagged w (globals s) text) as H.
  unfold observe in H. simpl in H. apply (f_equal fst) in H. simpl in H.
  unfold clear. rewrite H. unfold call_outcome.
  repeat (match goal with |- context [discord w ?r] =>
            destruct (discord w r) as [[]|]; simpl end); done.
Qed.

(** A framed handler started after some events [pre]. *)
Lemma framed_observe {A} (m : M A) w g pre :
  framed m →
  ((m w {| globals := g; log := pre |}).1,
   log (m w {| globals := g; log := pre |}).2) =
  ((observe m w g).1, pre ++ (observe m w g).2).
Proof. intros Hm. rewrite Hm. done. Qed.

(** What [on_message] does, path by path. *)
Lemma observe_on_message w g message :
  observe (on_message message) w g =
  match guild message with
  | None => (Value tt, [])
  | Some gld =>
      if user_bot (author message)
         || bool_decide (user_id (author message) ∈ blacklist g)
      then (Value tt, [])
      else
        let pre :=
          if default false (auto_moderation_config g !! Py.str (guild_id gld))
          then classification_events w (content message) else [] in
        let r :=
          if offensive_fires w g gld message
          then observe (remove_offensive gld message) w g
          else
            match flagged_warning g gld message with
            | Some text => observe (remove_flagged text) w g
            | None => (call_outcome w ProcessCommands, [Called ProcessCommands])
            end in
        (r.1, pre ++ r.2)
  end.
Proof.
  unfold observe at 1. rewrite on_message_run. simpl.
  destruct (guild message) as [gld|]; [|done].
  destruct (user_bot (author message) || _); [done|].
  set (pre := if default false _ then classification_events _ _ else []).
  assert (Hs1 : (if default false (auto_moderation_config g !! Py.str (guild_id gld))
                 then extend {| globals := g; log := [] |}
                        (classification_events w (content message))
                 else {| globals := g; log := [] |})
                = {| globals := g; log := pre |}).
  { unfold pre. by destruct (default false _). }
  rewrite Hs1. clear Hs1.
  destruct (offensive_fires w g gld message).
  { rewrite def_not_returned by apply remove_offensive_not_returned.
    apply framed_observe, framed_remove_offensive. }
  destruct (flagged_warning g gld message) as [text|].
  { rewrite def_not_returned by apply remove_flagged_not_returned.
    apply framed_observe, framed_remove_flagged. }
  unfold call, call_outcome. simpl.
  by destruct (discord w ProcessCommands).
Qed.

Ltac not_in_list :=
  rewrite ?not_elem_of_cons; repeat split; try discriminate; apply not_elem_of_nil.

Ltac solve_accepted :=
  repeat split; [reflexivity..|]; cbn; by intros ?%elem_of_singleton.

Lemma observe_remove_offensive_globals w g g' gld message :
  observe (remove_offensive gld message) w g
  = observe (remove_offensive gld message) w g'.
Proof. by rewrite !observe_remove_offensive. Qed.

Lemma observe_remove_flagged_globals w g g' text :
  observe (remove_flagged text) w g = observe (remove_flagged text) w g'.
Proof. by rewrite !observe_remove_flagged. Qed.

Lemma requests_app l1 l2 : requests (l1 ++ l2) = requests l1 ++ requests l2.
Proof. unfold requests. apply omap_app. Qed.

Lemma requests_classification_events w c : requests (classification_events w c) = [].
Proof. unfold classification_events. by destruct (generate_content w (prompt_of c)). Qed.

Lemma accepted_test g message gld :
  accepted g message gld →
  guild message = Some gld ∧
  user_bot (author message)
  || bool_decide (user_id (author message) ∈ blacklist g) = false.
Proof.
  intros (Hg & Hb & Hbl). split; [done|].
  rewrite Hb. simpl. by apply bool_decide_eq_false.
Qed.

Lemma observe_accepted w g message gld :
  accepted g message gld →
  observe (on_message message) w g =
  let pre :=
    if default false (auto_moderation_config g !! Py.str (guild_id gld))
    then classification_events w (content message) else [] in
  let r :=
    if offensive_fires w g gld message
    then observe (remove_offensive gld message) w g
    else
      match flagged_warning g gld message with
      | Some text => observe (remove_flagged text) w g
      | None => (call_outcome w ProcessCommands, [Called ProcessCommands])
      end in
  (r.1, pre ++ r.2).
Proof.
  intros [Hg Ht]%accepted_test. by rewrite observe_on_message, Hg, Ht.
Qed.

Lemma observe_is_offensive_content w g c :
  observe (is_offensive_content c) w g = (Value (classify w c), classification_events w c).
Proof. unfold observe. by rewrite is_offensive_content_run. Qed.

(** The requests of a removal start with the deletion and never reach the
    command processor. *)
Lemma requests_remove_offensive w g gld message :
  ∃ rest, requests (observe (remove_offensive gld message) w g).2 = Delete :: rest
          ∧ (ProcessCommands ∉ rest)
          ∧ (discord w Delete = None →
             ∃ rest', rest = Send (removed_warning message) (Some 10) :: rest').
Proof.
  rewrite observe_remove_offensive. simpl.
  destruct (discord w Delete) as [[]|]; simpl;
    [eexists; split; [done|]; split; [not_in_list|done]..|].
  destruct (discord w (Send _ _)) as [[]|]; simpl;
    (eexists; split; [done|]; split; [not_in_list|eauto]).
Qed.

Lemma requests_remove_flagged w g text :
  ∃ rest, requests (observe (remove_flagged text) w g).2 = Delete :: rest
          ∧ (ProcessCommands ∉ rest)
          ∧ (discord w Delete = None →
             ∃ rest', rest = Send text (Some 10) :: rest').
Proof.
  rewrite observe_remove_flagged. simpl.
  destruct (discord w Delete) as [[]|]; simpl;
    [eexists; split; [done|]; split; [not_in_list|done]..|].
  destruct (discord w (Send _ _)) as [[]|]; simpl;
    (eexists; split; [done|]; split; [not_in_list|eauto]).
Qed.

Lemma elem_of_requests r l : r ∈ requests l ↔ Called r ∈ l.
Proof.
  unfold requests. rewrite list_elem_of_omap. split.
  - intros (ev & Hin & Hev). destruct ev; simplify_eq. done.
  - intros Hin. by exists (Called r).
Qed.

(** The requests of an accepted message, path by path. *)
Lemma requests_accepted w g message gld :
  accepted g message gld →
  requests (observe (on_message message) w g).2 =
  if offensive_fires w g gld message
  then requests (observe (remove_offensive gld message) w g).2
  else match flagged_warning g gld message with
       | Some text => requests (observe (remove_flagged text) w g).2
       | None => [ProcessCommands]
       end.
Proof.
  intros Hacc. rewrite (observe_accepted w g message gld Hacc). simpl.
  rewrite requests_app.
  assert (requests (if default false (auto_moderation_config g !! Py.str (guild_id gld))
                    then classification_events w (content message) else []) = [])
    as -> by (destruct (default false _); [apply requests_classification_events|done]).
  simpl. destruct (offensive_fires w g gld message); [done|].
  by destruct (flagged_warning g gld message).
Qed.

Lemma not_accepted w g message :
  (∀ gld, ¬ accepted g message gld) →
  observe (on_message message) w g = (Value tt, []).
Proof.
  intros Hno. rewrite observe_on_message.
  destruct (guild message) as [gld|] eqn:Hg; [|done].
  destruct (user_bot (author message)) eqn:Hb; [done|]. simpl.
  case_bool_decide as Hbl; [done|]. by destruct (Hno gld).
Qed.

Lemma offensive_fires_events w g gld message :
  offensive_fires w g gld message = true →
  (if default false (auto_moderation_config g !! Py.str (guild_id gld))
   then classification_events w (content message) else [])
  = [Generated (prompt_of (content message))].
Proof.
  unfold offensive_fires, classify, classification_events.
  destruct (default false _); [|done]. simpl.
  by destruct (generate_content w _).
Qed.

Lemma observe_remove_flagged_discord w w' g text :
  (∀ r, discord w' r = discord w r) →
  observe (remove_flagged text) w' g = observe (remove_flagged text) w g.
Proof.
  intros H. rewrite !observe_remove_flagged. unfold call_outcome.
  by rewrite !H.
Qed.

Lemma filter_print_classification_events w c :
  filter (λ ev, is_print ev = false) (classification_events w c)
  = [Generated (prompt_of c)].
Proof. unfold classification_events. by destruct (generate_content w _). Qed.

Lemma filter_print_remove_flagged w g text :
  filter (λ ev, is_print ev = false) (observe (remove_flagged text) w g).2
  = (observe (remove_flagged text) w g).2.
Proof.
  rewrite observe_remove_flagged. simpl.
  destruct (discord w Delete) as [[]|]; simpl; try done.
  by destruct (discord w (Send _ _)) as [[]|].
Qed.

Example classify_yes :
  classify (sample_world (inl "  YES, this is hateful.") all_fine) "x" = true.
Proof. reflexivity. Qed.

Example classify_other :
  classify (sample_world (inl "no") all_fine) "x" = false
  ∧ classify (sample_world (inl "") all_fine) "x" = false
  ∧ classify (sample_world (inl "I think yes") all_fine) "x" = false
  ∧ classify (sample_world (inr (OtherException "quota")) all_fine) "x" = false.
Proof. by repeat split. Qed.

Lemma elem_of_flagged_words_in_message config message word :
  word ∈ flagged_words_in_message config message ↔
  word ∈ default [] (cfg_words config)
  ∧ word ∈ Py.split (Py.lower (content message)).
Proof.
  unfold flagged_words_in_message, Py.contains.
  rewrite list_elem_of_filter, bool_decide_eq_true. tauto.
Qed.

Lemma not_nil_elem {A} (l : list A) : l ≠ [] ↔ ∃ x, x ∈ l.
Proof.
  destruct l as [|x l]; split; try done.
  - by intros [x ?%elem_of_nil].
  - intros _. exists x. by left.
Qed.

(** ** Two scenarios *)

(** Auto-moderation on, the model says yes: the message is deleted and the
    author warned; the rule on [trash] is not looked at. *)
Example scenario_offensive :
  observe (on_message (message_in 5 "you are worthless trash"))
    (sample_world (inl "yes") all_fine)
    (sample_globals true (rule true None ["trash"]))
  = (Value tt,
     [Generated (prompt_of "you are worthless trash");
      Called Delete;
      Called (Send "<@7> Your message was removed because it contained offensive content."
                   (Some 10))]).
Proof. reflexivity. Qed.

(** Auto-moderation off, a global rule on [banana]. *)
Example scenario_flagged_word :
  observe (on_message (message_in 5 "I love banana bread"))
    (sample_world (inl "yes") all_fine)
    (sample_globals false (rule true None ["banana"]))
  = (Value tt, [Called Delete; Called (Send "<@7> no fruit talk" (Some 10))]).
Proof. reflexivity. Qed.

(** The same rule does not see [bananas], nor [banana!]. *)
Example scenario_not_a_token :
  observe (on_message (message_in 5 "I love bananas and banana!"))
    (sample_world (inl "yes") all_fine)
    (sample_globals false (rule true None ["banana"]))
  = (Value tt, [Called ProcessCommands]).
Proof. reflexivity. Qed.

(** A deletion that fails for another reason is not caught. *)
Example scenario_other_failure :
  observe (on_message (message_in 5 "I love banana bread"))
    (sample_world (inl "no") (delete_fails (OtherException "500")))
    (sample_globals false (rule true None ["banana"]))
  = (Raised (OtherException "500"), [Called Delete]).
Proof. reflexivity. Qed.

(** ** The claims *)

(** C1: in a guild with auto-moderation enabled, when the classifier returns
    [True] the handler does the classifier call and then exactly the removal
    of lines 116-128, and returns: the first request is the deletion, followed
    when it succeeds by the fixed warning, the command processor is not
    reached, and the flagged-word rules make no difference. *)
Theorem offensive_content_short_circuits w g message gld :
  accepted g message gld →
  auto_moderation_config g !! Py.str (guild_id gld) = Some true →
  (observe (is_offensive_content (content message)) w g).1 = Value true →
  let removal := observe (remove_offensive gld message) w g in
  observe (on_message message) w g
  = (removal.1, Generated (prompt_of (content message)) :: removal.2)
  ∧ (∃ rest, requests (observe (on_message message) w g).2 = Delete :: rest
             ∧ (ProcessCommands ∉ rest)
             ∧ (discord w Delete = None →
                ∃ rest', rest = Send (removed_warning message) (Some 10) :: rest'))
  ∧ ∀ fw, observe (on_message message) w (with_flagged_words fw g)
          = observe (on_message message) w g.
Proof.
  intros Hacc Hen Hcls removal.
  rewrite observe_is_offensive_content in Hcls. simpl in Hcls.
  injection Hcls as Hcls.
  assert (Hev : classification_events w (content message)
                = [Generated (prompt_of (content message))]).
  { unfold classify in Hcls. unfold classification_events.
    by destruct (generate_content w _). }
  assert (Hrun : ∀ g', blacklist g' = blacklist g →
                       auto_moderation_config g' = auto_moderation_config g →
            observe (on_message message) w g'
            = (removal.1, Generated (prompt_of (content message)) :: removal.2)).
  { intros g' Hbl Hamc.
    rewrite (observe_accepted w g' message gld).
    - unfold offensive_fires. rewrite Hamc, Hen, Hcls, Hev.
      unfold removal.
      by rewrite (observe_remove_offensive_globals w g' g).
    - destruct Hacc as (? & ? & ?). repeat split; [done..|]. by rewrite Hbl. }
  split; [by apply Hrun|]. split.
  - rewrite (Hrun g) by done. simpl. apply requests_remove_offensive.
  - intros fw. by rewrite (Hrun g), (Hrun (with_flagged_words fw g)).
Qed.

Lemma offensive_content_short_circuits_witness :
  observe (on_message (message_in 5 "you are worthless trash"))
    (sample_world (inl "Yes") all_fine)
    (sample_globals true (rule true None ["trash"]))
  = (Value tt,
     [Generated (prompt_of "you are worthless trash");
      Called Delete;
      Called (Send "<@7> Your message was removed because it contained offensive content."
                   (Some 10))]).
Proof.
  pose proof (offensive_content_short_circuits
    (sample_world (inl "Yes") all_fine)
    (sample_globals true (rule true None ["trash"]))
    (message_in 5 "you are worthless trash") plastic_guild) as H.
  destruct H as [H _].
  - solve_accepted.
  - reflexivity.
  - reflexivity.
  - rewrite H. reflexivity.
Defined.

(** C2: when the call to the model raises, [is_offensive_content] prints a
    line and returns [False]; the handler then ends the same way and makes
    the same Discord requests as in a world where the model answers
    something that is not a yes, and its log is that world's log plus the
    printed line. *)
Theorem classification_failure_is_not_offensive w w' g message e text :
  generate_content w (prompt_of (content message)) = inr e →
  generate_content w' (prompt_of (content message)) = inl text →
  Py.startswith (Py.lower (Py.strip text)) "yes" = false →
  (∀ r, discord w' r = discord w r) →
  observe (is_offensive_content (content message)) w g
  = (Value false,
     [Generated (prompt_of (content message));
      Printed ("Error checking content with Gemini: " +:+ exn_str e)])
  ∧ (observe (on_message message) w g).1 = (observe (on_message message) w' g).1
  ∧ requests (observe (on_message message) w g).2
    = requests (observe (on_message message) w' g).2
  ∧ filter (λ ev, is_print ev = false) (observe (on_message message) w g).2
    = (observe (on_message message) w' g).2.
Proof.
  intros Hfail Hans Hno Hd.
  assert (Hc : classify w (content message) = false)
    by (unfold classify; by rewrite Hfail).
  assert (Hc' : classify w' (content message) = false)
    by (unfold classify; by rewrite Hans).
  split.
  { rewrite observe_is_offensive_content, Hc.
    unfold classification_events. by rewrite Hfail. }
  rewrite !observe_on_message.
  destruct (guild message) as [gld|]; [|done].
  destruct (user_bot (author message) || _); [done|].
  unfold offensive_fires. rewrite Hc, Hc', !andb_false_r. cbv zeta.
  assert (Hev' : classification_events w' (content message)
                 = [Generated (prompt_of (content message))])
    by (unfold classification_events; by rewrite Hans).
  assert (Hrest : ∀ r r' : outcome unit * list event,
            r'.1 = r.1 → r'.2 = r.2 →
            filter (λ ev, is_print ev = false) r.2 = r.2 →
            ∀ pre pre', requests pre = [] → requests pre' = [] →
              filter (λ ev, is_print ev = false) pre = pre' →
            r.1 = r'.1
            ∧ requests (pre ++ r.2) = requests (pre' ++ r'.2)
            ∧ filter (λ ev, is_print ev = false) (pre ++ r.2) = pre' ++ r'.2).
  { intros r r' -> -> Hf pre pre' Hr Hr' Hp.
    by rewrite !requests_app, Hr, Hr', filter_app, Hf, Hp. }
  cbn [fst snd]. apply Hrest.
  - destruct (flagged_warning g gld message) as [warning|].
    + by rewrite (observe_remove_flagged_discord w w' g warning Hd).
    + unfold call_outcome. by rewrite Hd.
  - destruct (flagged_warning g gld message) as [warning|].
    + by rewrite (observe_remove_flagged_discord w w' g warning Hd).
    + done.
  - destruct (flagged_warning g gld message) as [warning|].
    + apply filter_print_remove_flagged.
    + done.
  - destruct (default false _); [apply requests_classification_events|done].
  - destruct (default false _); [apply requests_classification_events|done].
  - destruct (default false _); [|done].
    by rewrite filter_print_classification_events, Hev'.
Qed.

Lemma classification_failure_is_not_offensive_witness :
  observe (on_message banana_message)
    (sample_world (inr (OtherException "503 unavailable")) all_fine)
    (banana_globals true)
  = (Value tt,
     [Generated (prompt_of "I love banana bread");
      Printed "Error checking content with Gemini: 503 unavailable";
      Called Delete; Called (Send "<@7> no fruit talk" (Some 10))])
  ∧ requests
      (observe (on_message banana_message)
         (sample_world (inr (OtherException "503 unavailable")) all_fine)
         (banana_globals true)).2
    = requests
        (observe (on_message banana_message)
           (sample_world (inl "No.") all_fine) (banana_globals true)).2.
Proof.
  split; [reflexivity|].
  refine (proj1 (proj2 (proj2 (classification_failure_is_not_offensive
    (sample_world (inr (OtherException "503 unavailable")) all_fine)
    (sample_world (inl "No.") all_fine) (banana_globals true) banana_message
    (OtherException "503 unavailable") "No." _ _ _ _)))); reflexivity.
Defined.

(** C3: a message outside a guild, from a bot or from a blacklisted author
    makes [on_message] return at once: nothing is logged, so the classifier
    is not called and no Discord request is made. *)
Theorem fast_reject_does_nothing w g message :
  guild message = None ∨ user_bot (author message) = true
  ∨ user_id (author message) ∈ blacklist g →
  observe (on_message message) w g = (Value tt, []).
Proof.
  intros H. rewrite observe_on_message.
  destruct (guild message) as [gld|]; [|done].
  destruct H as [H|[H|H]]; [done|by rewrite H|].
  rewrite (bool_decide_eq_true_2 _ H). by rewrite orb_true_r.
Qed.

Lemma fast_reject_does_nothing_witness :
  observe (on_message (message_in 5 "hi"))
    (sample_world (inl "yes") all_fine)
    (sample_globals true (rule true None ["hi"]))
  ≠ (Value tt, [])
  ∧ observe
      (on_message {| guild := Some plastic_guild; author := robot;
                     channel_id := 5; content := "hi" |})
      (sample_world (inl "yes") all_fine)
      (sample_globals true (rule true None ["hi"]))
    = (Value tt, []).
Proof.
  split; [by vm_compute|].
  apply fast_reject_does_nothing. right. left. reflexivity.
Defined.

Lemma elem_of_split_lower s word :
  word ∈ Py.split (Py.lower s) ↔
  ∃ t, is_token (Py.decode s) t ∧ word = Py.encode (Py.lower_points t).
Proof.
  rewrite split_lower, list_elem_of_fmap. setoid_rewrite elem_of_split. split.
  - intros (y & -> & t & Ht & ->). exists t. split; [done|].
    unfold Py.lower. rewrite decode_encode; [done|].
    eapply is_token_scalars; [apply decode_scalars|done].
  - intros (t & Ht & ->). exists (Py.encode t). split; [|by exists t].
    unfold Py.lower. rewrite decode_encode; [done|].
    eapply is_token_scalars; [apply decode_scalars|done].
Qed.

(** C4: a word of the rule is flagged in a message exactly when it is one of
    the white-space delimited tokens of the lowercased content; so the rule
    matches exactly when one of its words is such a token, or, what is the
    same, when a token of the content as written lowercases to one of its
    words.  In particular a token of ASCII characters matches the rule word
    that is the token with [A] to [Z] moved to [a] to [z].  The content is
    read as its code points, white space is that of Unicode. *)
Theorem flagged_word_is_exact_token config message ws :
  cfg_words config = Some ws →
  let text := Py.decode (content message) in
  (∀ word, word ∈ flagged_words_in_message config message ↔
           word ∈ ws
           ∧ ∃ t, is_token (Py.lower_points text) t ∧ word = Py.encode t)
  ∧ (flagged_words_in_message config message ≠ [] ↔
     ∃ word, word ∈ ws ∧ word ∈ Py.split (Py.lower (content message)))
  ∧ (flagged_words_in_message config message ≠ [] ↔
     ∃ word t, word ∈ ws ∧ is_token text t
               ∧ word = Py.encode (Py.lower_points t))
  ∧ (∀ t, is_token text t → Forall (λ c, (c < 128)%N) t →
          Py.encode (ascii_lower <$> t) ∈ ws →
          Py.encode (ascii_lower <$> t)
          ∈ flagged_words_in_message config message).
Proof.
  intros Hws text.
  assert (Hin : ∀ word, word ∈ flagged_words_in_message config message ↔
                        word ∈ ws ∧ word ∈ Py.split (Py.lower (content message))).
  { intros word. by rewrite elem_of_flagged_words_in_message, Hws. }
  split_and!.
  - intros word. by rewrite Hin, elem_of_split, decode_lower.
  - rewrite not_nil_elem. by setoid_rewrite Hin.
  - rewrite not_nil_elem. setoid_rewrite Hin.
    setoid_rewrite elem_of_split_lower. split.
    + intros (word & Hw & t & Ht & ->). eauto.
    + intros (word & t & Hw & Ht & ->). eauto.
  - intros t Ht Hascii Hw. apply Hin. split; [done|].
    apply elem_of_split_lower. exists t. split; [done|].
    unfold Py.lower_points. by rewrite lower_go_ascii.
Qed.

Lemma flagged_word_is_exact_token_witness :
  "hate" ∈ flagged_words_in_message (rule true None ["hate"])
             (message_in 5 "I HATE you")
  ∧ ¬ (∃ t, is_token (Py.lower_points (Py.decode "hateful")) t
            ∧ "hate" = Py.encode t)
  ∧ "banana" ∈ flagged_words_in_message (rule true None ["banana"])
                 (message_in 5 ("banana" +:+ Py.encode [160%N] +:+ "bread"))
  ∧ "école" ∈ flagged_words_in_message (rule true None ["école"])
                (message_in 5 "ÉCOLE")
  ∧ flagged_words_in_message (rule true None ["hate"]) (message_in 5 "I HATE you")
    = ["hate"]
  ∧ flagged_words_in_message (rule true None ["hate"]) (message_in 5 "hateful") = [].
Proof.
  split_and!; [| | | |reflexivity..].
  - refine (proj2 (proj2 (proj2 (flagged_word_is_exact_token
      (rule true None ["hate"]) (message_in 5 "I HATE you") ["hate"] eq_refl)))
      [72; 65; 84; 69]%N _ _ _).
    + split; [discriminate|]. split.
      { by_spaces. }
      exists [73; 32]%N, [32; 121; 111; 117]%N. split; [reflexivity|].
      split; right.
      * exists [73]%N, 32%N. split; [reflexivity|]. unfold white_space. lia.
      * exists 32%N, [121; 111; 117]%N. split; [reflexivity|].
        unfold white_space. lia.
    + repeat constructor.
    + apply list_elem_of_singleton. reflexivity.
  - intros Htoken.
    apply (elem_of_nil "hate").
    apply (proj1 (flagged_word_is_exact_token (rule true None ["hate"])
                    (message_in 5 "hateful") ["hate"] eq_refl) "hate").
    split; [|exact Htoken]. apply list_elem_of_singleton. reflexivity.
  - apply (proj1 (flagged_word_is_exact_token (rule true None ["banana"])
      (message_in 5 ("banana" +:+ Py.encode [160%N] +:+ "bread"))
      ["banana"] eq_refl) "banana").
    split; [apply list_elem_of_singleton; reflexivity|].
    exists [98; 97; 110; 97; 110; 97]%N. split; [|reflexivity].
    split; [discriminate|]. split.
    { by_spaces. }
    exists [], [160; 98; 114; 101; 97; 100]%N. split; [by vm_compute|].
    split; [by left|right].
    exists 160%N, [98; 114; 101; 97; 100]%N. split; [reflexivity|].
    unfold white_space. lia.
  - apply (proj1 (flagged_word_is_exact_token (rule true None ["école"])
      (message_in 5 "ÉCOLE") ["école"] eq_refl) "école").
    split; [apply list_elem_of_singleton; reflexivity|].
    exists [233; 99; 111; 108; 101]%N. split; [|by vm_compute].
    split; [discriminate|]. split.
    { by_spaces. }
    exists [], []. split; [by vm_compute|]. split; by left.
Defined.

(** C5: a rule applies to a message exactly when it is global, or it is
    channel-scoped and its channel is the message's; the scope is global
    exactly when the rule's [sync_global] is true.  A channel-scoped rule
    for another channel changes nothing: the handler behaves as if the guild
    had no rule.  Under a global rule the handler behaves the same whatever
    the channel of the message.  And a rule that applies is applied: on an
    accepted message that is not removed as offensive and has one of the
    rule's words among its lowercased tokens, the handler asks for the
    deletion of the message, then, when that succeeds, sends the rule's
    warning, and does not process commands; when the rule is channel-scoped
    for another channel the handler only processes commands. *)
Theorem rule_applies_by_scope w g message gld config :
  guild message = Some gld →
  flagged_words g !! Py.str (guild_id gld) = Some config →
  (is_global config || is_correct_channel config message = true ↔
   scope config = GLOBAL
   ∨ (scope config = CHANNEL ∧ cfg_channel config = Some (channel_id message)))
  ∧ (scope config = CHANNEL →
     cfg_channel config ≠ Some (channel_id message) →
     observe (on_message message) w g
     = observe (on_message message) w
         (with_flagged_words (delete (Py.str (guild_id gld)) (flagged_words g)) g))
  ∧ (scope config = GLOBAL →
     ∀ c, observe (on_message (with_channel c message)) w g
          = observe (on_message message) w g)
  ∧ (scope config = GLOBAL ↔ cfg_sync_global config = Some true)
  ∧ (accepted g message gld →
     offensive_fires w g gld message = false →
     ∀ word, word ∈ default [] (cfg_words config) →
             word ∈ Py.split (Py.lower (content message)) →
       (scope config = GLOBAL
        ∨ (scope config = CHANNEL
           ∧ cfg_channel config = Some (channel_id message)) →
        ∃ rest,
          requests (observe (on_message message) w g).2 = Delete :: rest
          ∧ (ProcessCommands ∉ rest)
          ∧ (discord w Delete = None →
             ∃ rest', rest = Send (response_message config message) (Some 10)
                             :: rest'))
       ∧ (scope config = CHANNEL →
          cfg_channel config ≠ Some (channel_id message) →
          requests (observe (on_message message) w g).2 = [ProcessCommands])).
Proof.
  intros Hg Hcfg.
  assert (Happ : is_global config || is_correct_channel config message = true ↔
                 scope config = GLOBAL
                 ∨ (scope config = CHANNEL
                    ∧ cfg_channel config = Some (channel_id message))).
  { unfold scope, is_correct_channel. destruct (is_global config); simpl.
    - split; [by left|done].
    - rewrite bool_decide_eq_true. split; [by right|]. by intros [?|[_ ?]]. }
  split; [exact Happ|]. unfold scope in *. split_and!.
  - destruct (is_global config) eqn:Hglobal; [done|]. intros _ Hc.
    rewrite !observe_on_message, Hg. simpl.
    destruct (user_bot (author message) || _); [done|].
    assert (flagged_warning g gld message = None) as ->.
    { unfold flagged_warning, is_correct_channel. rewrite Hcfg.
      cbn [mbind option_bind]. rewrite Hglobal. simpl.
      by rewrite bool_decide_eq_false_2. }
    assert (flagged_warning
              (with_flagged_words (delete (Py.str (guild_id gld)) (flagged_words g)) g)
              gld message = None) as ->.
    { unfold flagged_warning. simpl. by rewrite lookup_delete_eq. }
    unfold offensive_fires. simpl.
    by rewrite (observe_remove_offensive_globals w g
                  (with_flagged_words (delete (Py.str (guild_id gld)) (flagged_words g)) g)).
  - destruct (is_global config) eqn:Hglobal; [|done]. intros _ c.
    rewrite !observe_on_message. simpl. rewrite Hg.
    destruct (user_bot (author message) || _); [done|].
    assert (flagged_warning g gld (with_channel c message)
            = flagged_warning g gld message) as ->.
    { unfold flagged_warning. rewrite Hcfg. cbn [mbind option_bind].
      by rewrite Hglobal. }
    done.
  - unfold is_global. destruct (cfg_sync_global config) as [[]|]; simpl;
      split; congruence.
  - intros Hacc Hoff word Hw Htok.
    assert (Hne : flagged_words_in_message config message ≠ []).
    { apply not_nil_elem. exists word. by apply elem_of_flagged_words_in_message. }
    rewrite (requests_accepted w g message gld Hacc), Hoff.
    unfold flagged_warning. rewrite Hcfg. cbn [mbind option_bind].
    rewrite (bool_decide_eq_true_2 _ Hne), andb_true_r. split.
    + intros ->%Happ. apply requests_remove_flagged.
    + intros Hs Hc.
      assert (E : is_global config || is_correct_channel config message = false).
      { apply not_true_is_false. intros [E|[_ E]]%Happ; congruence. }
      by rewrite E.
Qed.

Lemma rule_applies_by_scope_witness :
  observe (on_message (message_in 6 "banana")) (sample_world (inl "no") all_fine)
    (sample_globals false (rule false (Some 5) ["banana"]))
  = (Value tt, [Called ProcessCommands])
  ∧ observe (on_message (message_in 6 "banana")) (sample_world (inl "no") all_fine)
      (sample_globals false (rule true (Some 5) ["banana"]))
    = observe (on_message (message_in 5 "banana")) (sample_world (inl "no") all_fine)
        (sample_globals false (rule true (Some 5) ["banana"]))
  ∧ (∃ rest,
       requests (observe (on_message (message_in 5 "Banana split"))
                   (sample_world (inl "no") all_fine)
                   (sample_globals false (rule false (Some 5) ["banana"]))).2
       = Delete :: Send "<@7> no fruit talk" (Some 10) :: rest)
  ∧ (∃ rest,
       requests (observe (on_message (message_in 6 "Banana split"))
                   (sample_world (inl "no") all_fine)
                   (sample_globals false (rule true None ["banana"]))).2
       = Delete :: Send "<@7> no fruit talk" (Some 10) :: rest)
  ∧ requests (observe (on_message (message_in 6 "Banana split"))
                (sample_world (inl "no") all_fine)
                (sample_globals false (rule false (Some 5) ["banana"]))).2
    = [ProcessCommands]
  ∧ requests (observe (on_message (message_in 5 "Banana split"))
                (sample_world (inl "no") all_fine)
                (sample_globals false (rule false (Some 5) ["banana"]))).2
    = [Delete; Send "<@7> no fruit talk" (Some 10)].
Proof.
  assert (Hacc : ∀ c text config,
            accepted (sample_globals false config) (message_in c text) plastic_guild).
  { intros c text config. split; [reflexivity|]. split; [reflexivity|].
    simpl. intros H%elem_of_singleton. discriminate. }
  assert (Hword : "banana" ∈ Py.split (Py.lower "Banana split")).
  { left. }
  split_and!; [| | | | |reflexivity].
  - refine (proj1 (proj2 (rule_applies_by_scope (sample_world (inl "no") all_fine)
      (sample_globals false (rule false (Some 5) ["banana"]))
      (message_in 6 "banana") plastic_guild (rule false (Some 5) ["banana"])
      eq_refl eq_refl)) eq_refl _).
    discriminate.
  - refine (proj1 (proj2 (proj2 (rule_applies_by_scope (sample_world (inl "no") all_fine)
      (sample_globals false (rule true (Some 5) ["banana"]))
      (message_in 5 "banana") plastic_guild (rule true (Some 5) ["banana"])
      eq_refl eq_refl))) eq_refl 6).
  - destruct (proj1 (proj2 (proj2 (proj2 (proj2 (rule_applies_by_scope
      (sample_world (inl "no") all_fine)
      (sample_globals false (rule false (Some 5) ["banana"]))
      (message_in 5 "Banana split") plastic_guild (rule false (Some 5) ["banana"])
      eq_refl eq_refl)))) (Hacc _ _ _) eq_refl "banana"
      ltac:(left) Hword) ltac:(right; split; reflexivity))
      as (rest & Hreq & _ & Hsend).
    destruct (Hsend eq_refl) as [rest' ->]. by exists rest'.
  - destruct (proj1 (proj2 (proj2 (proj2 (proj2 (rule_applies_by_scope
      (sample_world (inl "no") all_fine)
      (sample_globals false (rule true None ["banana"]))
      (message_in 6 "Banana split") plastic_guild (rule true None ["banana"])
      eq_refl eq_refl)))) (Hacc _ _ _) eq_refl "banana"
      ltac:(left) Hword) ltac:(left; reflexivity))
      as (rest & Hreq & _ & Hsend).
    destruct (Hsend eq_refl) as [rest' ->]. by exists rest'.
  - refine (proj2 (proj2 (proj2 (proj2 (proj2 (rule_applies_by_scope
      (sample_world (inl "no") all_fine)
      (sample_globals false (rule false (Some 5) ["banana"]))
      (message_in 6 "Banana split") plastic_guild (rule false (Some 5) ["banana"])
      eq_refl eq_refl)))) (Hacc _ _ _) eq_refl "banana"
      ltac:(left) Hword) eq_refl _).
    discriminate.
Defined.

(** C6: when the model answers [text], [is_offensive_content] returns a
    boolean, without raising, and it is [True] exactly when [text] begins,
    after any white space of Unicode, with [y] or [Y], then [e] or [E], then
    [s] or [S]; when the call raises it returns [False]. *)
Theorem classification_reads_yes w g c :
  match generate_content w (prompt_of c) with
  | inl text =>
      ∃ b, observe (is_offensive_content c) w g
           = (Value b, [Generated (prompt_of c)])
         ∧ (b = true ↔
            ∃ l y e s rest,
              Py.decode text = l ++ y :: e :: s :: rest
              ∧ Forall white_space l
              ∧ (y = 89 ∨ y = 121)%N ∧ (e = 69 ∨ e = 101)%N
              ∧ (s = 83 ∨ s = 115)%N)
  | inr e =>
      observe (is_offensive_content c) w g
      = (Value false,
         [Generated (prompt_of c);
          Printed ("Error checking content with Gemini: " +:+ exn_str e)])
  end.
Proof.
  rewrite observe_is_offensive_content. unfold classify, classification_events.
  destruct (generate_content w (prompt_of c)) as [text|e]; [|done].
  eexists. split; [done|]. apply startswith_lower_strip_yes.
Qed.

Lemma classification_reads_yes_witness :
  observe (is_offensive_content "hi")
    (sample_world (inl (Py.encode [160%N] +:+ " YeS, it is")) all_fine)
    (banana_globals true)
  = (Value true, [Generated (prompt_of "hi")])
  ∧ observe (is_offensive_content "hi")
      (sample_world (inl "y e s") all_fine) (banana_globals true)
    = (Value false, [Generated (prompt_of "hi")])
  ∧ observe (is_offensive_content "hi")
      (sample_world (inr (OtherException "503")) all_fine) (banana_globals true)
    = (Value false,
       [Generated (prompt_of "hi");
        Printed "Error checking content with Gemini: 503"]).
Proof.
  split_and!.
  - destruct (classification_reads_yes
      (sample_world (inl (Py.encode [160%N] +:+ " YeS, it is")) all_fine)
      (banana_globals true) "hi") as (b & Hrun & Hb).
    rewrite Hrun. f_equal. f_equal. apply Hb.
    exists [160; 32]%N, 89%N, 101%N, 83%N, [44; 32; 105; 116; 32; 105; 115]%N.
    split; [by vm_compute|].
    split; [by_spaces|lia].
  - destruct (classification_reads_yes
      (sample_world (inl "y e s") all_fine) (banana_globals true) "hi")
      as (b & Hrun & Hb).
    rewrite Hrun. f_equal. f_equal. apply not_true_is_false.
    intros (l & y & e & s & rest & Heq & Hl & Hy & He & Hs)%Hb.
    change (Py.decode "y e s") with [121; 32; 101; 32; 115]%N in Heq.
    destruct l as [|x l].
    + injection Heq as <- <- _. lia.
    + injection Heq as <- Heq. inversion Hl as [|? ? Hx _]. subst.
      unfold white_space in Hx. lia.
  - exact (classification_reads_yes
      (sample_world (inr (OtherException "503")) all_fine)
      (banana_globals true) "hi").
Defined.

(** C7: an accepted message in a guild where auto-moderation is off or not
    configured, and whose flagged-word rule, if any, does not apply or
    matches no word, is only handed to the command processor: no classifier
    call, no deletion, no warning. *)
Theorem no_rule_no_action w g message gld :
  accepted g message gld →
  auto_moderation_config g !! Py.str (guild_id gld) = Some false
  ∨ auto_moderation_config g !! Py.str (guild_id gld) = None →
  (∀ config, flagged_words g !! Py.str (guild_id gld) = Some config →
             is_global config || is_correct_channel config message = true →
             flagged_words_in_message config message = []) →
  observe (on_message message) w g
  = (call_outcome w ProcessCommands, [Called ProcessCommands]).
Proof.
  intros Hacc Hen Hrule. rewrite (observe_accepted w g message gld Hacc).
  assert (default false (auto_moderation_config g !! Py.str (guild_id gld)) = false)
    as Hoff by (by destruct Hen as [-> | ->]).
  unfold offensive_fires, flagged_warning. rewrite Hoff. simpl.
  destruct (flagged_words g !! _) as [config|]; simpl; [|done].
  destruct (is_global config || is_correct_channel config message) eqn:Happ;
    simpl; [|done].
  rewrite (Hrule config) by done. done.
Qed.

Lemma no_rule_no_action_witness :
  observe (on_message (message_in 5 "I love apple pie"))
    (sample_world (inl "yes") all_fine)
    (sample_globals false (rule true None ["banana"]))
  = (Value tt, [Called ProcessCommands]).
Proof.
  refine (no_rule_no_action (sample_world (inl "yes") all_fine)
            (sample_globals false (rule true None ["banana"]))
            (message_in 5 "I love apple pie") plastic_guild _ _ _).
  - solve_accepted.
  - left. reflexivity.
  - intros config [= <-] _. reflexivity.
Defined.

(** C8: when the deletion of a message to remove raises, the handler tells
    the two failures apart.  [Forbidden]: it sends a notice without
    [delete_after] (for offensive content the fixed text of line 125, after
    printing a line; for a flagged word the rule's warning) and ends as this
    send ends.  [NotFound]: it sends nothing and returns normally. *)
Theorem delete_failures_are_handled w g message gld e :
  accepted g message gld →
  discord w Delete = Some e →
  let run := observe (on_message message) w g in
  let asked := Generated (prompt_of (content message)) in
  let notice := Send (could_not_delete message) None in
  (offensive_fires w g gld message = true →
   match e with
   | Forbidden _ =>
       run = (call_outcome w notice,
              [asked; Called Delete; Printed (missing_permissions gld); Called notice])
   | NotFound _ => run = (Value tt, [asked; Called Delete])
   | OtherException _ => run = (Raised e, [asked; Called Delete])
   end)
  ∧ (offensive_fires w g gld message = false →
     ∀ text, flagged_warning g gld message = Some text →
     match e with
     | Forbidden _ =>
         run.1 = call_outcome w (Send text None)
         ∧ requests run.2 = [Delete; Send text None]
     | NotFound _ => run.1 = Value tt ∧ requests run.2 = [Delete]
     | OtherException _ => run.1 = Raised e ∧ requests run.2 = [Delete]
     end).
Proof.
  intros Hacc Hdel run asked notice. unfold run. clear run. split.
  - intros Hoff. rewrite (observe_accepted w g message gld Hacc).
    rewrite (offensive_fires_events w g gld message Hoff). simpl.
    rewrite Hoff, observe_remove_offensive. simpl. rewrite Hdel.
    by destruct e.
  - intros Hoff text Htext.
    rewrite (requests_accepted w g message gld Hacc).
    rewrite (observe_accepted w g message gld Hacc). cbv zeta.
    rewrite Hoff, Htext, observe_remove_flagged. cbv zeta. rewrite Hdel.
    by destruct e.
Qed.

Lemma delete_failures_are_handled_witness :
  observe (on_message banana_message)
    (sample_world (inl "yes") (delete_fails (Forbidden "403"))) (banana_globals true)
  = (Value tt,
     [Generated (prompt_of "I love banana bread"); Called Delete;
      Printed "Missing permissions to delete message in plastic.";
      Called (Send "<@7> Offensive content detected but could not delete." None)])
  ∧ observe (on_message banana_message)
      (sample_world (inl "yes") (delete_fails (NotFound "404"))) (banana_globals true)
    = (Value tt, [Generated (prompt_of "I love banana bread"); Called Delete])
  ∧ requests
      (observe (on_message banana_message)
         (sample_world (inl "no") (delete_fails (Forbidden "403")))
         (banana_globals true)).2
    = [Delete; Send "<@7> no fruit talk" None]
  ∧ requests
      (observe (on_message banana_message)
         (sample_world (inl "no") (delete_fails (NotFound "404")))
         (banana_globals true)).2
    = [Delete].
Proof.
  split_and!.
  - refine (proj1 (delete_failures_are_handled
      (sample_world (inl "yes") (delete_fails (Forbidden "403")))
      (banana_globals true) banana_message plastic_guild
      (Forbidden "403") _ _) _); [solve_accepted|reflexivity..].
  - refine (proj1 (delete_failures_are_handled
      (sample_world (inl "yes") (delete_fails (NotFound "404")))
      (banana_globals true) banana_message plastic_guild
      (NotFound "404") _ _) _); [solve_accepted|reflexivity..].
  - refine (proj2 (proj2 (delete_failures_are_handled
      (sample_world (inl "no") (delete_fails (Forbidden "403")))
      (banana_globals true) banana_message plastic_guild
      (Forbidden "403") _ _) _ "<@7> no fruit talk" _));
      [solve_accepted|reflexivity..].
  - refine (proj2 (proj2 (delete_failures_are_handled
      (sample_world (inl "no") (delete_fails (NotFound "404")))
      (banana_globals true) banana_message plastic_guild
      (NotFound "404") _ _) _ "<@7> no fruit talk" _));
      [solve_accepted|reflexivity..].
Defined.

(** C9: [on_message] leaves the globals as they were, and run a second time
    on the store the first run left, it ends the same way and logs the same
    events again: nothing the handler keeps changes its outcome. *)
Theorem on_message_is_repeatable w s message :
  let first := on_message message w s in
  let second := on_message message w first.2 in
  globals first.2 = globals s
  ∧ globals second.2 = globals s
  ∧ second.1 = first.1
  ∧ ∃ evs, log first.2 = log s ++ evs ∧ log second.2 = log first.2 ++ evs.
Proof.
  intros first second.
  assert (H1 : globals first.2 = globals s) by apply preserves_on_message.
  assert (H2 : globals second.2 = globals s).
  { unfold second. by rewrite preserves_on_message. }
  assert (Hc : clear first.2 = clear s) by (unfold clear; by rewrite H1).
  pose proof (framed_on_message message w s) as Hf. fold first in Hf.
  pose proof (framed_on_message message w first.2) as Hs. fold second in Hs.
  rewrite Hc in Hs. clearbody second first.
  split; [done|]. split; [done|]. rewrite Hs. simpl. split.
  - by rewrite Hf.
  - exists (log (on_message message w (clear s)).2). split; [|done].
    by rewrite Hf.
Qed.

(** C10: the command processor is called exactly when the message is
    accepted and neither removal is triggered; it is then the only request.
    A deletion is attempted exactly when the message is accepted and one of
    the removals is triggered, and then the command processor is not called.
    A rejected message reaches neither. *)
Theorem commands_iff_no_action w g message :
  let l := (observe (on_message message) w g).2 in
  (Called ProcessCommands ∈ l ↔
     ∃ gld, accepted g message gld ∧ offensive_fires w g gld message = false
            ∧ flagged_warning g gld message = None)
  ∧ (Called Delete ∈ l ↔
     ∃ gld, accepted g message gld
            ∧ (offensive_fires w g gld message = true
               ∨ is_Some (flagged_warning g gld message)))
  ∧ (Called ProcessCommands ∈ l → requests l = [ProcessCommands])
  ∧ (Called Delete ∈ l → Called ProcessCommands ∉ l).
Proof.
  intros l. unfold l. clear l. rewrite <-!elem_of_requests.
  destruct (guild message) as [gld|] eqn:Hg; cycle 1.
  { rewrite not_accepted by (intros gld (? & _); congruence). simpl.
    rewrite !elem_of_nil.
    repeat split; try done; intros (gld & (? & _) & _); congruence. }
  destruct (user_bot (author message)) eqn:Hb.
  { rewrite not_accepted by (intros gld' (_ & ? & _); congruence). simpl.
    rewrite !elem_of_nil.
    repeat split; try done; intros (gld' & (_ & ? & _) & _); congruence. }
  destruct (decide (user_id (author message) ∈ blacklist g)) as [Hbl|Hbl].
  { rewrite not_accepted by (by intros gld' (_ & _ & ?)). simpl.
    rewrite !elem_of_nil.
    repeat split; try done; by intros (gld' & (_ & _ & ?) & _). }
  assert (Hacc : accepted g message gld) by done.
  assert (Hgld : ∀ P : Guild → Prop,
             (∃ gld', accepted g message gld' ∧ P gld') ↔ P gld).
  { intros P. split.
    - intros (gld' & (Hg' & _) & HP). congruence.
    - intros HP. by exists gld. }
  pose proof (Hgld (λ gld, offensive_fires w g gld message = false
                           ∧ flagged_warning g gld message = None)) as H1.
  pose proof (Hgld (λ gld, offensive_fires w g gld message = true
                           ∨ is_Some (flagged_warning g gld message))) as H2.
  simpl in H1, H2. rewrite H1, H2. clear H1 H2 Hgld.
  rewrite (requests_accepted w g message gld Hacc).
  destruct (offensive_fires w g gld message).
  { destruct (requests_remove_offensive w g gld message) as (rest & -> & Hpc & _).
    assert (ProcessCommands ∉ Delete :: rest) as Hno
      by (by apply not_elem_of_cons).
    split_and!.
    - split; [done|]. by intros [? _].
    - split; [by left|]. intros _. apply elem_of_cons. by left.
    - done.
    - done. }
  destruct (flagged_warning g gld message) as [text|].
  { destruct (requests_remove_flagged w g text) as (rest & -> & Hpc & _).
    assert (ProcessCommands ∉ Delete :: rest) as Hno
      by (by apply not_elem_of_cons).
    split_and!.
    - split; [done|]. by intros [_ ?].
    - split; [by right|]. intros _. apply elem_of_cons. by left.
    - done.
    - done. }
  rewrite !list_elem_of_singleton. split_and!.
  - done.
  - split; [done|]. by intros [?|[? ?]].
  - done.
  - done.
Qed.

Example commands_iff_no_action_ex :
  requests (observe (on_message (message_in 5 "hello there"))
              (sample_world (inl "no") all_fine) (banana_globals true)).2
  = [ProcessCommands]
  ∧ requests (observe (on_message banana_message)
                (sample_world (inl "no") all_fine) (banana_globals true)).2
    = [Delete; Send "<@7> no fruit talk" (Some 10)].
Proof. split; reflexivity. Qed.

(** * The rest of the program, and more on the handler *)

(** ** The slash command *)

Lemma str_inj a b : Py.str a = Py.str b → a = b.
Proof. unfold Py.str. apply (inj pretty). Qed.

(** The run of [moderation] when the action is [enable] or [disable]. *)
Lemma moderation_set_run (w : World) (s : Store) interaction gld action (b : bool) :
  interaction_guild interaction = Some gld →
  Py.lower action = (if b then "enable" else "disable") →
  moderation interaction action w s =
  let g' := set_auto_moderation (Py.str (guild_id gld)) b (globals s) in
  let dump := Dump AUTO_MODERATION_FILE (auto_moderation_config g') in
  match discord w dump with
  | Some e => (Raised e, {| globals := g'; log := log s ++ [Called dump] |})
  | None =>
      (call_outcome w (Respond (moderation_reply b)),
       {| globals := g';
          log := log s ++ [Called dump; Called (Respond (moderation_reply b))] |})
  end.
Proof.
  intros Hg Ha. unfold moderation. rewrite Hg, Ha.
  destruct b; cbn [decide]; simpl.
  - unfold def, save_auto_moderation_config, modify, read, call, call_outcome,
      mbind, M_bind. simpl.
    destruct (discord w (Dump _ _)); [done|].
    simpl. rewrite <-app_assoc. simpl.
    by destruct (discord w (Respond _)).
  - unfold def, save_auto_moderation_config, modify, read, call, call_outcome,
      mbind, M_bind. simpl.
    destruct (discord w (Dump _ _)); [done|].
    simpl. rewrite <-app_assoc. simpl.
    by destruct (discord w (Respond _)).
Qed.

(** The run of [moderation] for any other action. *)
Lemma moderation_other_run (w : World) (s : Store) interaction gld action :
  interaction_guild interaction = Some gld →
  Py.lower action ≠ "enable" → Py.lower action ≠ "disable" →
  moderation interaction action w s =
  let enabled :=
    default false (auto_moderation_config (globals s) !! Py.str (guild_id gld)) in
  let reply := Respond (if decide (Py.lower action = "status")
                        then status_reply enabled else invalid_action_reply) in
  (call_outcome w reply, extend s [Called reply]).
Proof.
  intros Hg He Hd. unfold moderation. rewrite Hg.
  destruct (decide (Py.lower action = "enable")) as [|_]; [done|].
  destruct (decide (Py.lower action = "disable")) as [|_]; [done|].
  unfold def, read, call, call_outcome, extend, status_reply,
    invalid_action_reply, mbind, M_bind.
  destruct (decide (Py.lower action = "status")); simpl.
  - destruct (default false _); by destruct (discord w (Respond _)).
  - by destruct (discord w (Respond _)).
Qed.

Lemma replies_differ : status_reply true ≠ status_reply false.
Proof. discriminate. Qed.

(** [on_message] reads the blacklist and the two entries of the message's
    guild, nothing else. *)
Lemma observe_on_message_ext w g g' message gld :
  guild message = Some gld →
  blacklist g' = blacklist g →
  auto_moderation_config g' !! Py.str (guild_id gld)
  = auto_moderation_config g !! Py.str (guild_id gld) →
  flagged_words g' !! Py.str (guild_id gld)
  = flagged_words g !! Py.str (guild_id gld) →
  observe (on_message message) w g' = observe (on_message message) w g.
Proof.
  intros Hg Hbl Hamc Hfw. rewrite !observe_on_message, Hg, Hbl.
  unfold offensive_fires, flagged_warning. rewrite Hamc, Hfw.
  rewrite (observe_remove_offensive_globals w g' g).
  destruct (_ ≫= _) as [text|]; [|done].
  by rewrite (observe_remove_flagged_globals w g' g).
Qed.

(** The events of an accepted message that are calls of the model. *)
Lemma generated_accepted w g message gld :
  accepted g message gld →
  filter (λ ev, is_generated ev = true) (observe (on_message message) w g).2
  = if default false (auto_moderation_config g !! Py.str (guild_id gld))
    then [Generated (prompt_of (content message))] else [].
Proof.
  intros Hacc. rewrite (observe_accepted w g message gld Hacc). cbv zeta.
  cbn [snd]. rewrite filter_app.
  assert (filter (λ ev, is_generated ev = true)
            (if offensive_fires w g gld message
             then observe (remove_offensive gld message) w g
             else match flagged_warning g gld message with
                  | Some text => observe (remove_flagged text) w g
                  | None => (call_outcome w ProcessCommands, [Called ProcessCommands])
                  end).2 = []) as ->.
  { destruct (offensive_fires w g gld message).
    - rewrite observe_remove_offensive. cbv zeta.
      destruct (discord w Delete) as [[]|]; try done.
      by destruct (discord w (Send _ _)) as [[]|].
    - destruct (flagged_warning g gld message); [|done].
      rewrite observe_remove_flagged. cbv zeta.
      destruct (discord w Delete) as [[]|]; try done.
      by destruct (discord w (Send _ _)) as [[]|]. }
  rewrite app_nil_r. destruct (default false _); [|done].
  unfold classification_events. by destruct (generate_content w _).
Qed.

Lemma moderation_globals_after w g interaction action :
  globals_after (moderation interaction action) w g =
  match interaction_guild interaction with
  | Some gld =>
      if decide (Py.lower action = "enable")
      then set_auto_moderation (Py.str (guild_id gld)) true g
      else if decide (Py.lower action = "disable")
      then set_auto_moderation (Py.str (guild_id gld)) false g
      else g
  | None => g
  end.
Proof.
  unfold globals_after.
  destruct (interaction_guild interaction) as [gld|] eqn:Hg.
  - destruct (decide (Py.lower action = "enable")) as [He|He].
    { rewrite (moderation_set_run w _ interaction gld action true Hg He).
      cbv zeta. by destruct (discord w _). }
    destruct (decide (Py.lower action = "disable")) as [Hd|Hd].
    { rewrite (moderation_set_run w _ interaction gld action false Hg Hd).
      cbv zeta. by destruct (discord w _). }
    by rewrite (moderation_other_run w _ interaction gld action Hg He Hd).
  - unfold moderation. by rewrite Hg.
Qed.

(** X1: [/moderation enable] and [/moderation disable], in any letter case,
    write the guild's flag in memory first, then dump the new table to
    [auto_moderation.json], then reply.  If the dump raises, the command
    raises without a reply, and the flag in memory stays changed. *)
Theorem moderation_writes_then_saves w g interaction gld action (b : bool) :
  interaction_guild interaction = Some gld →
  Py.lower action = (if b then "enable" else "disable") →
  let g' := set_auto_moderation (Py.str (guild_id gld)) b g in
  let dump := Dump AUTO_MODERATION_FILE (auto_moderation_config g') in
  globals_after (moderation interaction action) w g = g'
  ∧ auto_moderation_config g' !! Py.str (guild_id gld) = Some b
  ∧ observe (moderation interaction action) w g
    = match discord w dump with
      | Some e => (Raised e, [Called dump])
      | None => (call_outcome w (Respond (moderation_reply b)),
                 [Called dump; Called (Respond (moderation_reply b))])
      end.
Proof.
  intros Hg Ha g' dump. unfold globals_after, observe.
  rewrite (moderation_set_run w _ interaction gld action b Hg Ha).
  unfold dump, g'. cbv zeta. split_and!.
  - by destruct (discord w _).
  - unfold set_auto_moderation. simpl. apply lookup_insert_eq.
  - by destruct (discord w _).
Qed.

Lemma moderation_writes_then_saves_witness :
  auto_moderation_config
    (globals_after (moderation in_plastic_guild "ENABLE")
       (sample_world (inl "no")
          (λ r, match r with
                | Dump _ _ => Some (OtherException "disk full")
                | _ => None
                end))
       (banana_globals false)) !! "42" = Some true
  ∧ (observe (moderation in_plastic_guild "ENABLE")
       (sample_world (inl "no")
          (λ r, match r with
                | Dump _ _ => Some (OtherException "disk full")
                | _ => None
                end))
       (banana_globals false)).1 = Raised (OtherException "disk full").
Proof.
  pose proof (moderation_writes_then_saves
    (sample_world (inl "no")
       (λ r, match r with
             | Dump _ _ => Some (OtherException "disk full")
             | _ => None
             end))
    (banana_globals false) in_plastic_guild plastic_guild "ENABLE" true
    eq_refl eq_refl) as (H1 & H2 & H3).
  split.
  - rewrite H1. exact H2.
  - rewrite H3. reflexivity.
Defined.

Lemma moderation_outside_guild_run (w : World) (s : Store) interaction action :
  interaction_guild interaction = None →
  moderation interaction action w s
  = (Raised (OtherException "'NoneType' object has no attribute 'id'"), s).
Proof. intros Hg. unfold moderation. rewrite Hg. reflexivity. Qed.

(** X2: an action other than [enable] and [disable] (in any letter case)
    leaves the globals as they are and writes no file, wherever the command
    is used.  In a guild the only event is one reply, the status for
    [status], the usage line otherwise.  Outside a guild, in a direct
    message, line 156 raises before anything is done: there is no event and
    no reply. *)
Theorem moderation_reads_only_otherwise w g interaction action :
  Py.lower action ≠ "enable" → Py.lower action ≠ "disable" →
  globals_after (moderation interaction action) w g = g
  ∧ match interaction_guild interaction with
    | Some gld =>
        let enabled :=
          default false (auto_moderation_config g !! Py.str (guild_id gld)) in
        let reply := Respond (if decide (Py.lower action = "status")
                              then status_reply enabled
                              else invalid_action_reply) in
        observe (moderation interaction action) w g
        = (call_outcome w reply, [Called reply])
    | None =>
        observe (moderation interaction action) w g
        = (Raised (OtherException "'NoneType' object has no attribute 'id'"), [])
    end.
Proof.
  intros He Hd. unfold globals_after, observe.
  destruct (interaction_guild interaction) as [gld|] eqn:Hg.
  - by rewrite (moderation_other_run w _ interaction gld action Hg He Hd).
  - by rewrite (moderation_outside_guild_run w _ interaction action Hg).
Qed.

Lemma moderation_reads_only_otherwise_witness :
  observe (moderation in_plastic_guild "Status") (sample_world (inl "no") all_fine)
    (banana_globals true)
  = (Value tt, [Called (Respond (status_reply true))])
  ∧ observe (moderation in_plastic_guild "on") (sample_world (inl "no") all_fine)
      (banana_globals true)
    = (Value tt, [Called (Respond invalid_action_reply)])
  ∧ observe (moderation {| interaction_guild := None |} "status")
      (sample_world (inl "no") all_fine) (banana_globals true)
    = (Raised (OtherException "'NoneType' object has no attribute 'id'"), []).
Proof.
  split_and!.
  - refine (proj2 (moderation_reads_only_otherwise (sample_world (inl "no") all_fine)
      (banana_globals true) in_plastic_guild "Status" _ _));
      discriminate.
  - refine (proj2 (moderation_reads_only_otherwise (sample_world (inl "no") all_fine)
      (banana_globals true) in_plastic_guild "on" _ _));
      discriminate.
  - refine (proj2 (moderation_reads_only_otherwise (sample_world (inl "no") all_fine)
      (banana_globals true) {| interaction_guild := None |} "status" _ _));
      discriminate.
Defined.

(** X3: what [/moderation status] reports is what [on_message] does: the
    reply says enabled exactly when an accepted message of the guild is
    submitted to the model. *)
Theorem status_agrees_with_on_message w w' g interaction gld action message :
  interaction_guild interaction = Some gld →
  Py.lower action = "status" →
  accepted g message gld →
  requests (observe (moderation interaction action) w g).2
  = [Respond (status_reply true)]
  ↔ Generated (prompt_of (content message))
    ∈ (observe (on_message message) w' g).2.
Proof.
  intros Hg Ha Hacc. unfold observe at 1.
  rewrite (moderation_other_run w _ interaction gld action Hg)
    by (rewrite Ha; discriminate).
  cbv zeta. rewrite Ha. cbn [decide]. simpl.
  pose proof (generated_accepted w' g message gld Hacc) as Hgen.
  destruct (default false (auto_moderation_config g !! Py.str (guild_id gld))).
  - split; [intros _|done].
    assert (Hin : Generated (prompt_of (content message))
                  ∈ filter (λ ev, is_generated ev = true)
                      (observe (on_message message) w' g).2).
    { rewrite Hgen. by left. }
    by apply list_elem_of_filter in Hin as [_ ?].
  - split.
    + intros H. exfalso. apply replies_differ. congruence.
    + intros Hin.
      assert (Hin' : Generated (prompt_of (content message))
                     ∈ filter (λ ev, is_generated ev = true)
                         (observe (on_message message) w' g).2)
        by (by apply list_elem_of_filter).
      rewrite Hgen in Hin'. by apply elem_of_nil in Hin'.
Qed.

Lemma status_agrees_with_on_message_witness :
  Generated (prompt_of "I love banana bread")
  ∈ (observe (on_message banana_message) (sample_world (inl "no") all_fine)
       (banana_globals true)).2.
Proof.
  refine (proj1 (status_agrees_with_on_message (sample_world (inl "no") all_fine)
    (sample_world (inl "no") all_fine) (banana_globals true) in_plastic_guild
    plastic_guild "status" banana_message eq_refl eq_refl _) eq_refl).
  solve_accepted.
Defined.

(** X4: after [/moderation enable] an accepted message of the guild is
    first submitted to the model; after [/moderation disable] no message of
    the guild is.  Both hold whether or not the dump and the reply of the
    command went through. *)
Theorem toggling_switches_the_classifier w w' g interaction gld action (b : bool) message :
  interaction_guild interaction = Some gld →
  Py.lower action = (if b then "enable" else "disable") →
  accepted g message gld →
  let g' := globals_after (moderation interaction action) w g in
  let l := (observe (on_message message) w' g').2 in
  if b then ∃ rest, l = Generated (prompt_of (content message)) :: rest
  else ∀ p, Generated p ∉ l.
Proof.
  intros Hg Ha Hacc g' l.
  assert (Hg' : g' = set_auto_moderation (Py.str (guild_id gld)) b g).
  { unfold g'. rewrite moderation_globals_after, Hg.
    destruct b; rewrite Ha; by cbn [decide]. }
  assert (Hacc' : accepted g' message gld) by (by rewrite Hg').
  assert (Hen : default false (auto_moderation_config g' !! Py.str (guild_id gld)) = b).
  { rewrite Hg'. unfold set_auto_moderation. simpl. by rewrite lookup_insert_eq. }
  destruct b.
  - unfold l. rewrite (observe_accepted w' g' message gld Hacc'). cbv zeta.
    rewrite Hen. unfold classification_events. simpl. eauto.
  - intros p Hin.
    assert (Hin' : Generated p ∈ filter (λ ev, is_generated ev = true) l)
      by (by apply list_elem_of_filter).
    unfold l in Hin'. rewrite (generated_accepted w' g' message gld Hacc'), Hen in Hin'.
    by apply elem_of_nil in Hin'.
Qed.

Lemma toggling_switches_the_classifier_witness :
  (∃ rest,
     (observe (on_message banana_message) (sample_world (inl "no") all_fine)
        (globals_after (moderation in_plastic_guild "Enable")
           (sample_world (inl "no") all_fine) (banana_globals false))).2
     = Generated (prompt_of (content banana_message)) :: rest)
  ∧ ∀ p, Generated p ∉
      (observe (on_message banana_message) (sample_world (inl "no") all_fine)
         (globals_after (moderation in_plastic_guild "disable")
            (sample_world (inl "no") all_fine) (banana_globals true))).2.
Proof.
  split.
  - refine (toggling_switches_the_classifier (sample_world (inl "no") all_fine)
      (sample_world (inl "no") all_fine) (banana_globals false) in_plastic_guild
      plastic_guild "Enable" true banana_message eq_refl eq_refl _).
    solve_accepted.
  - refine (toggling_switches_the_classifier (sample_world (inl "no") all_fine)
      (sample_world (inl "no") all_fine) (banana_globals true) in_plastic_guild
      plastic_guild "disable" false banana_message eq_refl eq_refl _).
    solve_accepted.
Defined.

(** X5: [on_message] reads the blacklist and the entries of the message's
    own guild only: globals that agree on these give the same run.  So the
    auto-moderation flag, the flagged-word rule and the prefix of another
    guild make no difference. *)
Theorem on_message_reads_only_its_guild w g message gld other :
  guild message = Some gld →
  guild_id other ≠ guild_id gld →
  (∀ g', blacklist g' = blacklist g →
         auto_moderation_config g' !! Py.str (guild_id gld)
         = auto_moderation_config g !! Py.str (guild_id gld) →
         flagged_words g' !! Py.str (guild_id gld)
         = flagged_words g !! Py.str (guild_id gld) →
         observe (on_message message) w g' = observe (on_message message) w g)
  ∧ (∀ b, observe (on_message message) w
            (set_auto_moderation (Py.str (guild_id other)) b g)
          = observe (on_message message) w g)
  ∧ (∀ config, observe (on_message message) w
                 (with_flagged_words
                    (<[Py.str (guild_id other) := config]> (flagged_words g)) g)
               = observe (on_message message) w g)
  ∧ (∀ k p, observe (on_message message) w (with_prefix k p g)
            = observe (on_message message) w g).
Proof.
  intros Hg Hne.
  assert (Hk : Py.str (guild_id other) ≠ Py.str (guild_id gld))
    by (by intros ?%str_inj).
  split_and!.
  - intros g'. by apply observe_on_message_ext.
  - intros b. apply (observe_on_message_ext _ _ _ _ gld); try done.
    simpl. by rewrite lookup_insert_ne.
  - intros config. apply (observe_on_message_ext _ _ _ _ gld); try done.
    simpl. by rewrite lookup_insert_ne.
  - intros k p. by apply (observe_on_message_ext _ _ _ _ gld).
Qed.

Lemma on_message_reads_only_its_guild_witness :
  observe (on_message banana_message) (sample_world (inl "yes") all_fine)
    (set_auto_moderation "43" true (banana_globals false))
  = observe (on_message banana_message) (sample_world (inl "yes") all_fine)
      (banana_globals false).
Proof.
  refine (proj1 (proj2 (on_message_reads_only_its_guild
    (sample_world (inl "yes") all_fine) (banana_globals false) banana_message
    plastic_guild other_guild eq_refl _)) true).
  discriminate.
Defined.

(** X6: [/moderation] in one guild, whatever the action and however it
    ends, does not change what [on_message] does with a message of another
    guild. *)
Theorem moderation_is_per_guild w w' g interaction here action message there :
  interaction_guild interaction = Some here →
  guild message = Some there →
  guild_id here ≠ guild_id there →
  observe (on_message message) w'
    (globals_after (moderation interaction action) w g)
  = observe (on_message message) w' g.
Proof.
  intros Hi Hm Hne. rewrite moderation_globals_after, Hi.
  assert (Hk : Py.str (guild_id here) ≠ Py.str (guild_id there))
    by (by intros ?%str_inj).
  assert (Hset : ∀ b, observe (on_message message) w'
                        (set_auto_moderation (Py.str (guild_id here)) b g)
                      = observe (on_message message) w' g).
  { intros b. apply (observe_on_message_ext _ _ _ _ there); try done.
    simpl. by rewrite lookup_insert_ne. }
  destruct (decide _); [apply Hset|]. destruct (decide _); [apply Hset|done].
Qed.

Lemma moderation_is_per_guild_witness :
  observe (on_message banana_message) (sample_world (inl "yes") all_fine)
    (globals_after
       (moderation {| interaction_guild := Some other_guild |} "enable")
       (sample_world (inl "no") all_fine) (banana_globals false))
  = (Value tt, [Called Delete; Called (Send "<@7> no fruit talk" (Some 10))]).
Proof.
  rewrite (moderation_is_per_guild (sample_world (inl "no") all_fine)
    (sample_world (inl "yes") all_fine) (banana_globals false)
    {| interaction_guild := Some other_guild |} other_guild "enable"
    banana_message plastic_guild eq_refl eq_refl); [reflexivity|discriminate].
Defined.

(** ** The prefix and the global check *)

(** X7: prefixes are kept per guild: the prefix stored under a guild's key
    is the one [get_prefix] gives for its messages, it is not given for a
    message of another guild, and a direct message always gets [?]. *)
Theorem get_prefix_is_per_guild g message gld other p :
  guild message = Some gld →
  guild_id other ≠ guild_id gld →
  get_prefix (with_prefix (Py.str (guild_id gld)) p g) message = p
  ∧ get_prefix (with_prefix (Py.str (guild_id other)) p g) message
    = get_prefix g message
  ∧ (prefixes g !! Py.str (guild_id gld) = None → get_prefix g message = "?")
  ∧ ∀ g', get_prefix g' {| guild := None; author := author message;
                           channel_id := channel_id message;
                           content := content message |} = "?".
Proof.
  intros Hg Hne. unfold get_prefix. rewrite Hg. simpl. split_and!.
  - by rewrite lookup_insert_eq.
  - rewrite lookup_insert_ne; [done|]. by intros ?%str_inj.
  - by intros ->.
  - done.
Qed.

Lemma get_prefix_is_per_guild_witness :
  get_prefix (with_prefix "42" "!" (banana_globals true)) banana_message = "!"
  ∧ get_prefix (with_prefix "43" "!" (banana_globals true)) banana_message = "?".
Proof.
  pose proof (get_prefix_is_per_guild (banana_globals true) banana_message
    plastic_guild other_guild "!" eq_refl) as H.
  destruct H as (H1 & H2 & H3 & _); [discriminate|].
  split; [exact H1|]. exact (eq_trans H2 (H3 eq_refl)).
Defined.

(** X8: the global check and [on_message] agree on who is blacklisted: for
    a guild message of a user who is not a bot, the check passes on that
    user exactly when [on_message] accepts the message, and when it does
    not pass [on_message] does nothing.  A context without a user passes. *)
Theorem blacklist_check_agrees_with_on_message w g ctx message gld :
  context_user ctx = Some (author message) →
  guild message = Some gld →
  user_bot (author message) = false →
  (is_not_blacklisted g ctx = true ↔ accepted g message gld)
  ∧ (is_not_blacklisted g ctx = false →
     observe (on_message message) w g = (Value tt, []))
  ∧ ∀ ctx', context_user ctx' = None → is_not_blacklisted g ctx' = true.
Proof.
  intros Hu Hg Hb. unfold is_not_blacklisted. rewrite Hu. split_and!.
  - rewrite bool_decide_eq_true. unfold accepted. tauto.
  - rewrite bool_decide_eq_false. intros Hbl%dec_stable.
    rewrite observe_on_message, Hg, Hb. simpl.
    by rewrite bool_decide_eq_true_2.
  - by intros ctx' ->.
Qed.

Lemma blacklist_check_agrees_with_on_message_witness :
  is_not_blacklisted (banana_globals true) (context_of alice) = true
  ∧ is_not_blacklisted (banana_globals true)
      {| attr_author := None; attr_user := None |} = true.
Proof.
  pose proof (blacklist_check_agrees_with_on_message
    (sample_world (inl "no") all_fine) (banana_globals true) (context_of alice)
    banana_message plastic_guild eq_refl eq_refl eq_refl) as (H1 & _ & H3).
  split.
  - apply H1. solve_accepted.
  - apply H3. reflexivity.
Defined.

(** ** Command errors *)

Lemma on_command_error_run w s ctx error :
  on_command_error ctx error w s =
  match error with
  | CommandNotFound _ => (Value tt, s)
  | MissingPermissions _ =>
      let r := Send "You don't have permission to run this command." None in
      (call_outcome w r, extend s [Called r])
  | MissingRequiredArgument _ =>
      let r := Send ("You are missing an argument. Use `"
                     +:+ get_prefix (globals s) (ctx_message ctx) +:+ "help "
                     +:+ default "None" (ctx_command ctx) +:+ "` for info.") None in
      (call_outcome w r, extend s [Called r])
  | OtherCommandError t => (Value tt, extend s [Printed ("Unexpected error: " +:+ t)])
  end.
Proof.
  unfold on_command_error, def, when, return_, read, call, call_outcome, print,
    emit, extend, mbind, M_bind, mret, M_ret.
  destruct error; simpl; try done; by destruct (discord w _).
Qed.

(** X9: [on_command_error] never writes the globals and asks Discord for at
    most one thing, a plain send to the channel of the command; it raises
    only if that send raises.  An unknown command leaves no trace, an
    unexpected error is printed and not shown to the user, and the hint for
    a missing argument quotes the prefix [get_prefix] gives for the message,
    [?] in a direct message. *)
Theorem on_command_error_is_quiet w g ctx error :
  let run := observe (on_command_error ctx error) w g in
  let usage :=
    "You are missing an argument. Use `"
    +:+ get_prefix g (ctx_message ctx) +:+ "help "
    +:+ default "None" (ctx_command ctx) +:+ "` for info." in
  globals_after (on_command_error ctx error) w g = g
  ∧ (requests run.2 = [] ∧ run.1 = Value tt
     ∨ ∃ text, requests run.2 = [Send text None]
               ∧ run.1 = call_outcome w (Send text None))
  ∧ (is_CommandNotFound error = true → run = (Value tt, []))
  ∧ (is_MissingRequiredArgument error = true → requests run.2 = [Send usage None])
  ∧ (is_CommandNotFound error = false → is_MissingPermissions error = false →
     is_MissingRequiredArgument error = false →
     run = (Value tt, [Printed ("Unexpected error: " +:+ error_str error)])).
Proof.
  intros run usage. unfold run, usage, globals_after, observe.
  rewrite on_command_error_run.
  destruct error; simpl; split_and!; try done; eauto.
Qed.

Example on_command_error_in_dm :
  observe (on_command_error
             {| ctx_message := {| guild := None; author := alice; channel_id := 1;
                                  content := "?ban" |};
                ctx_command := Some "ban" |}
             (MissingRequiredArgument "member is a required argument"))
    (sample_world (inl "no") all_fine) (banana_globals true)
  = (Value tt,
     [Called (Send "You are missing an argument. Use `?help ban` for info." None)]).
Proof. reflexivity. Qed.

(** ** Start *)

Lemma startup_blacklist fs g :
  startup fs = inl g →
  blacklist g = list_to_set (match blacklist_json fs with Loaded l => l | _ => [] end).
Proof.
  unfold startup, load_json_file.
  destruct (blacklist_json fs), (prefixes_json fs), (flagged_words_json fs),
    (auto_moderation_json fs); intros [= <-]; reflexivity.
Qed.

(** X11: when [blacklist.json] is missing or does not parse, nobody is
    blacklisted after the start: the global check passes for every context
    and [on_message] accepts every guild message that is not from a bot. *)
Theorem unreadable_blacklist_bans_nobody fs g :
  blacklist_json fs = FileNotFoundError ∨ blacklist_json fs = JSONDecodeError →
  startup fs = inl g →
  (∀ ctx, is_not_blacklisted g ctx = true)
  ∧ ∀ message gld, guild message = Some gld → user_bot (author message) = false →
                   accepted g message gld.
Proof.
  intros Hbl Hs. apply startup_blacklist in Hs.
  assert (Hempty : blacklist g = ∅) by (by destruct Hbl as [Hbl|Hbl]; rewrite Hbl in Hs).
  split.
  - intros ctx. unfold is_not_blacklisted. destruct (context_user ctx); [|done].
    rewrite Hempty. by apply bool_decide_eq_true, not_elem_of_empty.
  - intros message gld Hg Hb. repeat split; [done..|].
    rewrite Hempty. apply not_elem_of_empty.
Qed.

Lemma unreadable_blacklist_bans_nobody_witness :
  is_not_blacklisted
    {| blacklist := ∅; prefixes := ∅; flagged_words := ∅;
       auto_moderation_config := ∅ |} (context_of alice) = true.
Proof.
  refine (proj1 (unreadable_blacklist_bans_nobody no_files _ _ _) (context_of alice)).
  - left. reflexivity.
  - reflexivity.
Defined.

(** X12: when [blacklist.json] holds a list of ids, the users the bot
    ignores after the start are exactly the listed ones, however often an id
    is listed: the global check fails for them, and [on_message] does
    nothing with their messages. *)
Theorem loaded_blacklist_is_enforced w fs g l message :
  blacklist_json fs = Loaded l →
  startup fs = inl g →
  (is_not_blacklisted g (context_of (author message)) = false
   ↔ user_id (author message) ∈ l)
  ∧ (user_id (author message) ∈ l →
     observe (on_message message) w g = (Value tt, [])).
Proof.
  intros Hbl Hs. apply startup_blacklist in Hs. rewrite Hbl in Hs.
  assert (Hin : user_id (author message) ∈ blacklist g ↔ user_id (author message) ∈ l)
    by (by rewrite Hs, elem_of_list_to_set).
  split.
  - unfold is_not_blacklisted, context_of, context_user. simpl.
    rewrite bool_decide_eq_false, <-Hin. split; [apply dec_stable|auto].
  - intros Hl%Hin. rewrite observe_on_message.
    destruct (guild message); [|done].
    rewrite (bool_decide_eq_true_2 _ Hl). by rewrite orb_true_r.
Qed.

Lemma loaded_blacklist_is_enforced_witness :
  observe (on_message banana_message) (sample_world (inl "yes") all_fine)
    {| blacklist := list_to_set [7; 7; 9]; prefixes := ∅; flagged_words := ∅;
       auto_moderation_config := ∅ |}
  = (Value tt, []).
Proof.
  refine (proj2 (loaded_blacklist_is_enforced (sample_world (inl "yes") all_fine)
    {| blacklist_json := Loaded [7; 7; 9]; prefixes_json := FileNotFoundError;
       flagged_words_json := JSONDecodeError;
       auto_moderation_json := FileNotFoundError |}
    _ [7; 7; 9] banana_message eq_refl eq_refl) _).
  apply list_elem_of_In. simpl. by left.
Defined.

(** X13: started without readable configuration files, the bot moderates
    nothing: a guild message that is not from a bot is only handed to the
    command processor, whatever the model would say, and every prefix is
    [?]. *)
Theorem bare_start_only_processes_commands w fs g message :
  blacklist_json fs = FileNotFoundError ∨ blacklist_json fs = JSONDecodeError →
  prefixes_json fs = FileNotFoundError ∨ prefixes_json fs = JSONDecodeError →
  flagged_words_json fs = FileNotFoundError ∨ flagged_words_json fs = JSONDecodeError →
  auto_moderation_json fs = FileNotFoundError
  ∨ auto_moderation_json fs = JSONDecodeError →
  startup fs = inl g →
  observe (on_message message) w g
  = (if bool_decide (is_Some (guild message)) && negb (user_bot (author message))
     then (call_outcome w ProcessCommands, [Called ProcessCommands])
     else (Value tt, []))
  ∧ get_prefix g message = "?".
Proof.
  intros Hbl Hpx Hfw Hamc Hs.
  assert (g = {| blacklist := ∅; prefixes := ∅; flagged_words := ∅;
                 auto_moderation_config := ∅ |}) as ->.
  { unfold startup, load_json_file in Hs.
    destruct Hbl as [Hbl|Hbl], Hpx as [Hpx|Hpx], Hfw as [Hfw|Hfw],
      Hamc as [Hamc|Hamc]; rewrite Hbl, Hpx, Hfw, Hamc in Hs;
      by injection Hs. }
  split.
  - rewrite observe_on_message. destruct (guild message) as [gld|]; [|done].
    simpl. destruct (user_bot (author message)); [done|]. simpl.
    unfold offensive_fires, flagged_warning. simpl.
    by rewrite !lookup_empty.
  - unfold get_prefix. destruct (guild message); [|done]. simpl.
    by rewrite lookup_empty.
Qed.

Lemma bare_start_only_processes_commands_witness :
  observe (on_message banana_message) (sample_world (inl "yes") all_fine)
    {| blacklist := ∅; prefixes := ∅; flagged_words := ∅;
       auto_moderation_config := ∅ |}
  = (Value tt, [Called ProcessCommands]).
Proof.
  refine (proj1 (bare_start_only_processes_commands
    (sample_world (inl "yes") all_fine) no_files _ banana_message
    (or_introl eq_refl) (or_introl eq_refl) (or_introl eq_refl)
    (or_introl eq_refl) eq_refl)).
Defined.

(** ** More on [on_message] *)

Lemma accepted_or_not g message :
  (∃ gld, accepted g message gld) ∨ (∀ gld, ¬ accepted g message gld).
Proof.
  destruct (guild message) as [gld|] eqn:Hg; [|right; intros ? (? & _); congruence].
  destruct (user_bot (author message)) eqn:Hb;
    [right; intros ? (_ & ? & _); congruence|].
  destruct (decide (user_id (author message) ∈ blacklist g)) as [Hbl|Hbl].
  - right. by intros ? (_ & _ & ?).
  - left. by exists gld.
Qed.

Lemma enabled_true (o : option bool) : default false o = true ↔ o = Some true.
Proof. destruct o as [[]|]; simpl; split; congruence. Qed.

(** X14: a message is submitted to the model exactly when it is accepted
    and the guild's auto-moderation flag is true; the prompt is then the
    fixed instruction around the content of the message, and the model is
    called once. *)
Theorem classifier_called_iff_enabled w g message :
  let l := (observe (on_message message) w g).2 in
  (∀ p, Generated p ∈ l ↔
        p = prompt_of (content message)
        ∧ ∃ gld, accepted g message gld
                 ∧ auto_moderation_config g !! Py.str (guild_id gld) = Some true)
  ∧ (length (filter (λ ev, is_generated ev = true) l) ≤ 1)%nat.
Proof.
  intros l.
  assert (Hmem : ∀ p, Generated p ∈ l ↔
                      Generated p ∈ filter (λ ev, is_generated ev = true) l).
  { intros p. rewrite list_elem_of_filter. simpl. tauto. }
  destruct (accepted_or_not g message) as [[gld Hacc]|Hno].
  - pose proof (generated_accepted w g message gld Hacc) as Hgen. fold l in Hgen.
    split.
    + intros p. rewrite Hmem, Hgen.
      destruct (default false _) eqn:Hen.
      * apply enabled_true in Hen. rewrite list_elem_of_singleton. split.
        -- intros [= ->]. split; [done|]. by exists gld.
        -- by intros [-> _].
      * rewrite elem_of_nil. split; [done|].
        intros (_ & gld' & (Hg' & _) & Hen').
        destruct Hacc as (Hg & _). rewrite Hg in Hg'. injection Hg' as <-.
        apply enabled_true in Hen'. congruence.
    + rewrite Hgen. destruct (default false _); simpl; lia.
  - unfold l. rewrite (not_accepted w g message Hno). simpl. split; [|lia].
    intros p. rewrite elem_of_nil. split; [done|].
    intros (_ & gld & Hacc & _). by destruct (Hno gld).
Qed.

(** X15: the Discord requests of one [on_message] are nothing, or the call
    of the command processor alone, or a deletion followed by at most one
    warning and, after a warning with [delete_after], at most one plain
    send: never two deletions, never a send before the deletion. *)
Theorem on_message_request_shapes w g message :
  request_shape (requests (observe (on_message message) w g).2).
Proof.
  destruct (accepted_or_not g message) as [[gld Hacc]|Hno]; cycle 1.
  { rewrite (not_accepted w g message Hno). constructor. }
  rewrite (requests_accepted w g message gld Hacc).
  destruct (offensive_fires w g gld message).
  { rewrite observe_remove_offensive. cbv zeta.
    destruct (discord w Delete) as [[]|]; try constructor.
    destruct (discord w (Send _ _)) as [[]|]; constructor. }
  destruct (flagged_warning g gld message) as [text|]; [|constructor].
  rewrite observe_remove_flagged. cbv zeta.
  destruct (discord w Delete) as [[]|]; try constructor.
  destruct (discord w (Send _ _)) as [[]|]; constructor.
Qed.

(** X16: the handlers of a failed deletion also catch a failed warning.
    When the deletion went through and the warning raises [Forbidden], the
    offensive-content path still prints that permissions are missing and
    sends the notice that the message could not be deleted, and the
    flagged-word path sends its warning again without [delete_after]; when
    the warning raises [NotFound] the handler returns as if nothing had
    failed; any other exception leaves the handler. *)
Theorem failed_warning_is_handled_like_failed_delete w g message gld e :
  accepted g message gld →
  discord w Delete = None →
  let run := observe (on_message message) w g in
  let asked := Generated (prompt_of (content message)) in
  let warn := Send (removed_warning message) (Some 10) in
  let notice := Send (could_not_delete message) None in
  (offensive_fires w g gld message = true →
   discord w warn = Some e →
   match e with
   | Forbidden _ =>
       run = (call_outcome w notice,
              [asked; Called Delete; Called warn;
               Printed (missing_permissions gld); Called notice])
   | NotFound _ => run = (Value tt, [asked; Called Delete; Called warn])
   | OtherException _ => run = (Raised e, [asked; Called Delete; Called warn])
   end)
  ∧ (offensive_fires w g gld message = false →
     ∀ text, flagged_warning g gld message = Some text →
     discord w (Send text (Some 10)) = Some e →
     match e with
     | Forbidden _ =>
         run.1 = call_outcome w (Send text None)
         ∧ requests run.2 = [Delete; Send text (Some 10); Send text None]
     | NotFound _ =>
         run.1 = Value tt ∧ requests run.2 = [Delete; Send text (Some 10)]
     | OtherException _ =>
         run.1 = Raised e ∧ requests run.2 = [Delete; Send text (Some 10)]
     end).
Proof.
  intros Hacc Hdel run asked warn notice. unfold run. clear run. split.
  - intros Hoff Hwarn. rewrite (observe_accepted w g message gld Hacc).
    rewrite (offensive_fires_events w g gld message Hoff). cbv zeta.
    rewrite Hoff, observe_remove_offensive. cbv zeta. fold warn.
    rewrite Hdel, Hwarn. by destruct e.
  - intros Hoff text Htext Hwarn.
    rewrite (requests_accepted w g message gld Hacc).
    rewrite (observe_accepted w g message gld Hacc). cbv zeta.
    rewrite Hoff, Htext, observe_remove_flagged. cbv zeta.
    rewrite Hdel, Hwarn. by destruct e.
Qed.

Lemma failed_warning_is_handled_like_failed_delete_witness :
  observe (on_message banana_message)
    (sample_world (inl "yes")
       (λ r, match r with
             | Send _ (Some _) => Some (Forbidden "403")
             | _ => None
             end))
    (banana_globals true)
  = (Value tt,
     [Generated (prompt_of "I love banana bread"); Called Delete;
      Called (Send "<@7> Your message was removed because it contained offensive content."
                   (Some 10));
      Printed "Missing permissions to delete message in plastic.";
      Called (Send "<@7> Offensive content detected but could not delete." None)]).
Proof.
  refine (proj1 (failed_warning_is_handled_like_failed_delete
    (sample_world (inl "yes")
       (λ r, match r with
             | Send _ (Some _) => Some (Forbidden "403")
             | _ => None
             end))
    (banana_globals true) banana_message plastic_guild (Forbidden "403") _ _) _ _);
    [solve_accepted|reflexivity..].
Defined.

Lemma last_app_some {A} (pre l : list A) x : last l = Some x → last (pre ++ l) = Some x.
Proof. intros H. rewrite last_app, H. done. Qed.

Lemma call_outcome_raised w r :
  match call_outcome w r with
  | Raised e => discord w r = Some e
  | Value _ => True
  | Returned => False
  end.
Proof. unfold call_outcome. by destruct (discord w r). Qed.

Lemma raised_remove_offensive w g gld message :
  match (observe (remove_offensive gld message) w g).1 with
  | Raised e => ∃ r, last (observe (remove_offensive gld message) w g).2
                     = Some (Called r) ∧ discord w r = Some e
  | Value _ => True
  | Returned => False
  end.
Proof.
  rewrite observe_remove_offensive. cbv zeta.
  pose proof (call_outcome_raised w (Send (could_not_delete message) None)) as Hn.
  destruct (discord w Delete) as [[]|] eqn:Hd; cbn [fst snd].
  - destruct (call_outcome w _); [done..|]. eauto.
  - done.
  - eauto.
  - destruct (discord w (Send (removed_warning message) (Some 10))) as [[]|] eqn:Hw;
      cbn [fst snd]; try done.
    + destruct (call_outcome w _); [done..|]. eauto.
    + eauto.
Qed.

Lemma raised_remove_flagged w g text :
  match (observe (remove_flagged text) w g).1 with
  | Raised e => ∃ r, last (observe (remove_flagged text) w g).2
                     = Some (Called r) ∧ discord w r = Some e
  | Value _ => True
  | Returned => False
  end.
Proof.
  rewrite observe_remove_flagged. cbv zeta.
  pose proof (call_outcome_raised w (Send text None)) as Hn.
  destruct (discord w Delete) as [[]|] eqn:Hd; cbn [fst snd].
  - destruct (call_outcome w _); [done..|]. eauto.
  - done.
  - eauto.
  - destruct (discord w (Send text (Some 10))) as [[]|] eqn:Hw;
      cbn [fst snd]; try done.
    + destruct (call_outcome w _); [done..|]. eauto.
    + eauto.
Qed.

(** X17: [on_message] raises only what a Discord call raised, and that call
    is the last thing it did: a failure of the model never leaves the
    handler, and when no Discord call fails the handler returns normally. *)
Theorem on_message_raises_only_discord_errors w g message :
  match (observe (on_message message) w g).1 with
  | Raised e => ∃ r, last (observe (on_message message) w g).2 = Some (Called r)
                     ∧ discord w r = Some e
  | Value _ => True
  | Returned => False
  end.
Proof.
  destruct (accepted_or_not g message) as [[gld Hacc]|Hno]; cycle 1.
  { by rewrite (not_accepted w g message Hno). }
  rewrite (observe_accepted w g message gld Hacc). cbv zeta. cbn [fst snd].
  set (pre := if default false _ then _ else _).
  destruct (offensive_fires w g gld message).
  { pose proof (raised_remove_offensive w g gld message) as H.
    destruct (observe (remove_offensive gld message) w g).1; [done..|].
    destruct H as (r & Hl & Hr). exists r. split; [|done]. by apply last_app_some. }
  destruct (flagged_warning g gld message) as [text|].
  { pose proof (raised_remove_flagged w g text) as H.
    destruct (observe (remove_flagged text) w g).1; [done..|].
    destruct H as (r & Hl & Hr). exists r. split; [|done]. by apply last_app_some. }
  cbn [fst snd]. pose proof (call_outcome_raised w ProcessCommands) as H.
  destruct (call_outcome w ProcessCommands); [done..|].
  exists ProcessCommands. split; [|done]. by apply last_app_some.
Qed.

Example model_failure_stays_inside :
  observe (on_message (message_in 5 "hello"))
    (sample_world (inr (OtherException "quota exceeded")) all_fine)
    (banana_globals true)
  = (Value tt,
     [Generated (prompt_of "hello");
      Printed "Error checking content with Gemini: quota exceeded";
      Called ProcessCommands]).
Proof. reflexivity. Qed.

(** X18: every text [on_message] sends begins with the mention of the
    author of the message, followed by a space. *)
Theorem warnings_mention_the_author w g message text d :
  Called (Send text d) ∈ (observe (on_message message) w g).2 →
  ∃ rest, text = user_mention (author message) +:+ " " +:+ rest.
Proof.
  rewrite <-elem_of_requests.
  destruct (accepted_or_not g message) as [[gld Hacc]|Hno]; cycle 1.
  { rewrite (not_accepted w g message Hno). by intros ?%elem_of_nil. }
  rewrite (requests_accepted w g message gld Hacc).
  assert (Hin : ∀ l : list request,
            Send text d ∈ l →
            (∀ t d', Send t d' ∈ l →
                     ∃ rest, t = user_mention (author message) +:+ " " +:+ rest) →
            ∃ rest, text = user_mention (author message) +:+ " " +:+ rest)
    by (intros l Hl Hall; by apply (Hall text d)).
  destruct (offensive_fires w g gld message).
  { intros Hl. apply (Hin _ Hl). clear Hl Hin.
    rewrite observe_remove_offensive. cbv zeta.
    assert (H1 : ∃ rest, removed_warning message
                         = user_mention (author message) +:+ " " +:+ rest)
      by (by eexists).
    assert (H2 : ∃ rest, could_not_delete message
                         = user_mention (author message) +:+ " " +:+ rest)
      by (by eexists).
    intros t d'.
    destruct (discord w Delete) as [[]|]; simpl;
      [..|destruct (discord w (Send _ _)) as [[]|]; simpl];
      rewrite ?elem_of_cons, ?elem_of_nil; intros Ht;
      repeat (destruct Ht as [Ht|Ht]); try done; by injection Ht as -> _. }
  destruct (flagged_warning g gld message) as [warning|] eqn:Hw; cycle 1.
  { intros Hl. apply list_elem_of_singleton in Hl. discriminate. }
  assert (H1 : ∃ rest, warning = user_mention (author message) +:+ " " +:+ rest).
  { unfold flagged_warning in Hw.
    destruct (flagged_words g !! _) as [config|]; [|done]. simpl in Hw.
    destruct (_ && _); [|done]. injection Hw as <-. by eexists. }
  intros Hl. apply (Hin _ Hl). clear Hl Hin.
  rewrite observe_remove_flagged. cbv zeta. intros t d'.
  destruct (discord w Delete) as [[]|]; simpl;
    [..|destruct (discord w (Send _ _)) as [[]|]; simpl];
    rewrite ?elem_of_cons, ?elem_of_nil; intros Ht;
    repeat (destruct Ht as [Ht|Ht]); try done; by injection Ht as -> _.
Qed.

Lemma warnings_mention_the_author_witness :
  ∃ rest, "<@7> no fruit talk" = "<@7>" +:+ " " +:+ rest.
Proof.
  refine (warnings_mention_the_author (sample_world (inl "no") all_fine)
    (banana_globals false) banana_message "<@7> no fruit talk" (Some 10) _).
  apply list_elem_of_In. simpl. right. left. reflexivity.
Defined.

(** ** More on flagged words *)

(** X19: a word that is flagged in a message is a non-empty word of
    lowercase code points without white space: none of [A] to [Z], none
    that [str.lower] changes.  So a rule word with a capital letter, such as
    [Hate] or [É], with white space, or empty, never matches, whatever the
    message: only the message is lowercased, not the rule. *)
Theorem only_lowercase_rule_words_match config message :
  (∀ word, word ∈ flagged_words_in_message config message →
           Py.encode (Py.decode word) = word
           ∧ Py.decode word ≠ []
           ∧ Forall (λ c, ¬ white_space c ∧ lowercase c ∧ ¬ (65 ≤ c ≤ 90)%N)
               (Py.decode word)
           ∧ Py.lower word = word)
  ∧ ((∀ word, word ∈ default [] (cfg_words config) →
              Py.decode word = []
              ∨ Exists (λ c, white_space c ∨ ¬ lowercase c ∨ (65 ≤ c ≤ 90)%N)
                  (Py.decode word)) →
     flagged_words_in_message config message = [])
  ∧ ("Hate" ∉ flagged_words_in_message config message)
  ∧ ("É" ∉ flagged_words_in_message config message).
Proof.
  assert (H : ∀ word, word ∈ flagged_words_in_message config message →
                      Py.encode (Py.decode word) = word
                      ∧ Py.decode word ≠ []
                      ∧ Forall (λ c, ¬ white_space c ∧ lowercase c
                                     ∧ ¬ (65 ≤ c ≤ 90)%N) (Py.decode word)
                      ∧ Py.lower word = word).
  { intros word [_ Hin]%elem_of_flagged_words_in_message.
    apply elem_of_split in Hin as (t & Htok & ->).
    rewrite decode_lower in Htok.
    assert (Hs : scalars t).
    { eapply is_token_scalars; [|done]. apply lower_go_scalars, decode_scalars. }
    assert (Hl : Forall lowercase t).
    { destruct Htok as (_ & _ & pre & post & Heq & _).
      pose proof (lower_go_lowercase [] (Py.decode (content message))) as Hall.
      fold (Py.lower_points (Py.decode (content message))) in Hall.
      rewrite Heq in Hall. apply Forall_app in Hall as [_ Hall].
      by apply Forall_app in Hall as [Hall _]. }
    destruct Htok as (Hne & Hns & _).
    rewrite decode_encode by done. split_and!; [done|done| |by apply lower_fixed].
    apply Forall_forall. intros c Hc.
    pose proof (proj1 (Forall_forall _ _) Hns c Hc) as Hc1.
    pose proof (proj1 (Forall_forall _ _) Hl c Hc) as Hc2.
    split_and!; [done|done|]. intros Hcap.
    apply lowercase_ascii in Hc2; [done|]. apply N.le_lt_trans with 90%N; [lia|done]. }
  split; [exact H|]. split_and!.
  - intros Hall.
    destruct (decide (flagged_words_in_message config message = [])) as [|Hne];
      [done|].
    apply not_nil_elem in Hne as [word Hin].
    destruct (H word Hin) as (_ & H2 & H3 & _).
    apply elem_of_flagged_words_in_message in Hin as [Hw _].
    destruct (Hall word Hw) as [?|Hex]; [done|].
    apply Exists_exists in Hex as (c & Hc & Hbad).
    pose proof (proj1 (Forall_forall _ _) H3 c Hc) as (? & ? & ?).
    tauto.
  - intros (_ & _ & Hl & _)%H.
    change (Py.decode "Hate") with [72; 97; 116; 101]%N in Hl.
    inversion Hl as [|? ? (_ & _ & Hcap) _]. lia.
  - intros (_ & _ & Hl & _)%H.
    change (Py.decode "É") with [201]%N in Hl.
    inversion Hl as [|? ? (_ & [Hlow _] & _) _]. by vm_compute in Hlow.
Qed.

Example capital_rule_word_never_matches :
  flagged_words_in_message (rule true None ["Hate"]) (message_in 5 "Hate hate HATE")
  = []
  ∧ flagged_words_in_message (rule true None ["É"]) (message_in 5 "É é") = []
  ∧ flagged_words_in_message (rule true None ["é"]) (message_in 5 "É") = ["é"].
Proof. by vm_compute. Qed.

(** X20: a message that is empty or all white space, that of Unicode, has
    no token, so no rule flags a word in it; a rule without a [words] key,
    or with an empty list, flags no word in any message.  In both cases the
    guild's rule sends no warning. *)
Theorem nothing_to_flag g gld config message :
  Forall white_space (Py.decode (content message))
  ∨ cfg_words config = None ∨ cfg_words config = Some [] →
  flagged_words_in_message config message = []
  ∧ (flagged_words g !! Py.str (guild_id gld) = Some config →
     flagged_warning g gld message = None).
Proof.
  intros H.
  assert (Hnil : flagged_words_in_message config message = []).
  { destruct (decide (flagged_words_in_message config message = [])) as [|Hne];
      [done|].
    apply not_nil_elem in Hne as [word [Hw Hin]%elem_of_flagged_words_in_message].
    destruct H as [H|[H|H]].
    - rewrite split_lower in Hin. unfold Py.split in Hin.
      rewrite split_all_space in Hin by done. by apply elem_of_nil in Hin.
    - rewrite H in Hw. by apply elem_of_nil in Hw.
    - rewrite H in Hw. by apply elem_of_nil in Hw. }
  split; [done|]. intros Hcfg. unfold flagged_warning. rewrite Hcfg. simpl.
  rewrite Hnil. by rewrite andb_false_r.
Qed.

Lemma nothing_to_flag_witness :
  flagged_warning (banana_globals false) plastic_guild
    (message_in 5 (" " +:+ Py.encode [160; 8195; 12288]%N +:+ " ")) = None
  ∧ flagged_warning (banana_globals false) plastic_guild (message_in 5 "") = None.
Proof.
  split.
  - refine (proj2 (nothing_to_flag (banana_globals false) plastic_guild
      (rule true None ["banana"])
      (message_in 5 (" " +:+ Py.encode [160; 8195; 12288]%N +:+ " ")) _) _).
    + left. change (Forall white_space [32; 160; 8195; 12288; 32]%N).
      by_spaces.
    + reflexivity.
  - refine (proj2 (nothing_to_flag (banana_globals false) plastic_guild
      (rule true None ["banana"]) (message_in 5 "") _) _).
    + left. constructor.
    + reflexivity.
Defined.
